(** * Dashboard-Automation: the two report pipelines, embedded and verified

    [kimai_payroll_engineering.py] (modules [Kimai] and [KimaiDates]) and
    [project-dashboard-ytd.py] (modules [ServiceFusion] and
    [ServiceFusionAuth]) are embedded as executable definitions.  The remote
    APIs are functions from requests to responses, the wall clock and the
    iteration order of Python sets are explicit arguments, data frames are
    lists of rows, and [NaN]/[None] is [option].  Python floats are read as
    exact rationals; where the binary64 value or the sorting algorithm
    decides (a rounding tie, a quotient at the edge of a tolerance, the
    order of equal sort keys), a statement names the possible outcomes. *)

From Stdlib Require Import ZArith QArith Qround Qabs String Ascii List Bool Lia.
From Stdlib Require Import Permutation Sorted DecimalString Lqa.
From Stdlib Require DecimalPos DecimalZ.
Import ListNotations.
Open Scope Z_scope.

(** ** Text helpers *)

Module Text.

Definition digit_char (d : Z) : ascii :=
  ascii_of_nat (48 + Z.to_nat (d mod 10)).

(** [n] printed in decimal on at least [width] digits, zero padded (the
    behaviour of [%02d]-like strftime fields for non-negative values). *)
Fixpoint zfill (width : nat) (n : Z) (acc : string) : string :=
  match width with
  | O => acc
  | S w => zfill w (n / 10) (String (digit_char n) acc)
  end.

Definition two_digits (n : Z) : string := zfill 2 n EmptyString.
Definition four_digits (n : Z) : string := zfill 4 n EmptyString.

Definition is_digit (c : ascii) : bool :=
  let n := nat_of_ascii c in (Nat.leb 48 n && Nat.leb n 57)%bool.

Definition digit_val (c : ascii) : Z := Z.of_nat (nat_of_ascii c) - 48.

(** Python [sub in s]. *)
Fixpoint contains (sub s : string) : bool :=
  if prefix sub s then true
  else match s with
       | EmptyString => false
       | String _ s' => contains sub s'
       end.

(** Python [s[:n]]. *)
Definition take (n : nat) (s : string) : string := substring 0 n s.

Definition is_space (c : ascii) : bool :=
  let n := nat_of_ascii c in
  (Nat.eqb n 32 || (Nat.leb 9 n && Nat.leb n 13) || (Nat.leb 28 n && Nat.leb n 31))%bool.

Fixpoint lstrip (s : string) : string :=
  match s with
  | String c s' => if is_space c then lstrip s' else s
  | EmptyString => EmptyString
  end.

Fixpoint rstrip (s : string) : string :=
  match s with
  | EmptyString => EmptyString
  | String c s' =>
      match rstrip s' with
      | EmptyString => if is_space c then EmptyString else String c EmptyString
      | r => String c r
      end
  end.

(** Python [s.strip()]. *)
Definition strip (s : string) : string := rstrip (lstrip s).

End Text.

(** ** The proleptic Gregorian calendar of Python's [datetime] *)

Module Calendar.

Definition MINYEAR : Z := 1.
Definition MAXYEAR : Z := 9999.

Definition is_leap (y : Z) : bool :=
  (y mod 4 =? 0) && (negb (y mod 100 =? 0) || (y mod 400 =? 0)).

Definition days_in_month (y m : Z) : Z :=
  match m with
  | 1 => 31 | 2 => if is_leap y then 29 else 28 | 3 => 31 | 4 => 30
  | 5 => 31 | 6 => 30 | 7 => 31 | 8 => 31 | 9 => 30 | 10 => 31
  | 11 => 30 | 12 => 31 | _ => 0
  end.

(** [_DAYS_BEFORE_MONTH]. *)
Definition DAYS_BEFORE_MONTH (m : Z) : Z :=
  match m with
  | 1 => 0 | 2 => 31 | 3 => 59 | 4 => 90 | 5 => 120 | 6 => 151
  | 7 => 181 | 8 => 212 | 9 => 243 | 10 => 273 | 11 => 304 | 12 => 334
  | _ => 0
  end.

Definition days_before_year (y : Z) : Z :=
  let y1 := y - 1 in y1 * 365 + y1 / 4 - y1 / 100 + y1 / 400.

Definition days_before_month (y m : Z) : Z :=
  DAYS_BEFORE_MONTH m + (if (2 <? m) && is_leap y then 1 else 0).

Record date := mkDate { year : Z; month : Z; day : Z }.

Definition valid_date (d : date) : bool :=
  (MINYEAR <=? year d) && (year d <=? MAXYEAR) &&
  (1 <=? month d) && (month d <=? 12) &&
  (1 <=? day d) && (day d <=? days_in_month (year d) (month d)).

(** [date.toordinal]: 0001-01-01 is day 1. *)
Definition toordinal (d : date) : Z :=
  days_before_year (year d) + days_before_month (year d) (month d) + day d.

Definition DI400Y : Z := 146097.
Definition DI100Y : Z := 36524.
Definition DI4Y : Z := 1461.

(** [_ord2ymd], the inverse of [toordinal]. *)
Definition fromordinal (ord : Z) : date :=
  let n := ord - 1 in
  let n400 := n / DI400Y in
  let n := n mod DI400Y in
  let n100 := n / DI100Y in
  let n := n mod DI100Y in
  let n4 := n / DI4Y in
  let n := n mod DI4Y in
  let n1 := n / 365 in
  let n := n mod 365 in
  let y := n400 * 400 + 1 + n100 * 100 + n4 * 4 + n1 in
  if (n1 =? 4) || (n100 =? 4) then mkDate (y - 1) 12 31
  else
    let leapyear := (n1 =? 3) && (negb (n4 =? 24) || (n100 =? 3)) in
    let m := Z.shiftr (n + 50) 5 in
    let preceding := DAYS_BEFORE_MONTH m + (if (2 <? m) && leapyear then 1 else 0) in
    if n <? preceding then
      let m' := m - 1 in
      let preceding' :=
        preceding - (days_in_month 1 m' + (if (m' =? 2) && leapyear then 1 else 0)) in
      mkDate y m' (n - preceding' + 1)
    else mkDate y m (n - preceding + 1).

Definition MAXORDINAL : Z := 3652059.

End Calendar.

(** ** Python values shared by the two scripts *)

Module Py.

(** [str(n)] for an integer. *)
Definition str_of_Z (n : Z) : string := DecimalString.NilZero.string_of_int (Z.to_int n).

(** Round half to even, the tie rule of [round(x, ndigits)]. *)
Definition round_half_even (q : Q) : Z :=
  let f := Qfloor q in
  let twice := Qfloor (2 * q - inject_Z (2 * f))%Q in
  (* twice = 0 below the half, 1 from the half upwards *)
  if twice =? 0 then f
  else if Qeq_bool (2 * q) (inject_Z (2 * f + 1)) then (if Z.even f then f else f + 1)
  else f + 1.

(** [round(q, ndigits)]: the result is a multiple of [10^-ndigits], kept as
    the fraction [k / 10^ndigits].  The model rounds the exact quotient, a
    tie going to the even neighbour.  The scripts round binary64 values
    ([round] and numpy's [rint(x * 10^d) / 10^d]), where a decimal tie such
    as 0.085 is stored a little above or below the half and goes up or
    down accordingly: away from ties the two agree, at a tie the script
    prints one of the two neighbours ([Terms.rounded_to]). *)
Definition round (q : Q) (ndigits : nat) : Q :=
  let scale := Pos.pow 10 (Pos.of_nat ndigits) in
  match ndigits with
  | O => inject_Z (round_half_even q)
  | S _ => Qmake (round_half_even (q * inject_Z (Zpos scale))) scale
  end.

(** A dict built by [dict(zip(keys, values))]: the pairs in zip order, a later
    pair overriding an earlier one with the same key. *)
Section Dict.
Context {K V : Type} (eqb : K -> K -> bool).

Fixpoint dict_get (d : list (K * V)) (k : K) : option V :=
  match d with
  | [] => None
  | (k', v) :: d' =>
      match dict_get d' k with
      | Some v' => Some v'
      | None => if eqb k k' then Some v else None
      end
  end.
End Dict.

(** A stable sort (ties keep their input order), for [sorted], [sort_values]
    and the key order of [groupby]. *)
Section Sort.
Context {A : Type} (leb : A -> A -> bool).

Fixpoint insert_sorted (x : A) (l : list A) : list A :=
  match l with
  | [] => [x]
  | y :: l' => if leb x y then x :: l else y :: insert_sorted x l'
  end.

Definition stable_sort (l : list A) : list A := fold_right insert_sorted [] l.
End Sort.

(** The distinct elements of a list in order of first appearance
    ([Series.unique], the keys of a dict filled in list order). *)
Section Unique.
Context {A : Type} (eqb : A -> A -> bool).

Fixpoint unique_acc (seen : list A) (l : list A) : list A :=
  match l with
  | [] => []
  | x :: l' =>
      if existsb (eqb x) seen then unique_acc seen l'
      else x :: unique_acc (x :: seen) l'
  end.

Definition unique (l : list A) : list A := unique_acc [] l.
End Unique.

Definition cmp_leb {A : Type} (cmp : A -> A -> comparison) (x y : A) : bool :=
  match cmp x y with Gt => false | _ => true end.

Definition cmp_eqb {A : Type} (cmp : A -> A -> comparison) (x y : A) : bool :=
  match cmp x y with Eq => true | _ => false end.

(** Lexicographic order of tuples, as Python and pandas compare them. *)
Definition cmp_pair {A B : Type} (ca : A -> A -> comparison) (cb : B -> B -> comparison)
    (x y : A * B) : comparison :=
  match ca (fst x) (fst y) with
  | Eq => cb (snd x) (snd y)
  | c => c
  end.

Definition Qsum (l : list Q) : Q := fold_left Qplus l 0%Q.

End Py.

(** ** HTTP, as both scripts see it *)

Module Http.

(** What [requests.get(...)] followed by [response.json()] gives: an
    exception (timeout, connection error, undecodable body), or a status code
    with the decoded body (read only when the status is 200). *)
Inductive result (A : Type) : Type :=
| Raised : result A
| Response (status_code : Z) (json : A) : result A.
Arguments Raised {A}.
Arguments Response {A} status_code json.

End Http.

(** ** Workbooks, as openpyxl and [DataFrame.to_excel] fill them *)

Module Xlsx.

(** A cell value.  [Stamp] is a string printed from [datetime.now()]; in the
    file it is a string like any other, the tag only records where it came
    from.  [Blank] is the cell written for [None]. *)
Inductive cell : Type :=
| Str (s : string)
| Num (q : Q)
| Int (n : Z)
| Boolean (b : bool)
| Blank
| Stamp (s : string).

Definition row := list cell.
Definition sheet : Type := string * list row.
Definition workbook := list sheet.

(** [wb.create_sheet(title, index)] followed by the writes to the new sheet.
    openpyxl renames a sheet whose title is taken; see [sheet_titles_NoDup]
    for the titles used by the customer reports. *)
Definition create_sheet (wb : workbook) (title : string) (index : option nat)
    (rows : list row) : workbook :=
  match index with
  | None => wb ++ [(title, rows)]
  | Some i => firstn i wb ++ (title, rows) :: skipn i wb
  end.

Definition find_sheet (wb : workbook) (title : string) : option (list row) :=
  option_map snd (find (fun s => String.eqb (fst s) title) wb).

Definition titles (wb : workbook) : list string := map fst wb.

(** The value of a cell with the wall clock taken out. *)
Definition erase_stamp (c : cell) : cell :=
  match c with
  | Stamp _ => Stamp ""
  | _ => c
  end.

Definition erase_stamps (wb : workbook) : workbook :=
  map (fun s : sheet => (fst s, map (map erase_stamp) (snd s))) wb.

(** What a run leaves behind: the exit code of the process and the files
    written, by name. *)
Record run := mkRun { exit_code : Z; files : list (string * workbook) }.

End Xlsx.

(** ** kimai_payroll_engineering.py *)

Module Kimai.

Import Xlsx.

(** Expected customers for Power BI consistency. *)
Definition EXPECTED_CUSTOMERS : list string :=
  [ "Bluewater Operations"; "Construction"; "DUKE"; "Fire Dragon"; "Flock";
    "General Admin"; "Lumen"; "Redspeed"; "SCC- Miami Dade"; "TECO"; "TDS" ]%string.

(** *** Raw API records

    Only the columns the script reads are kept.  [ts_begin] and [ts_end] hold
    what [pd.to_datetime(..., errors='coerce', utc=True)] makes of the
    [begin]/[end] strings: the UTC instant in seconds, or [None] for [NaT]. *)
Record timesheet := mkTimesheet {
  ts_activity : Z;
  ts_project : Z;
  ts_user : Z;
  ts_begin : option Z;
  ts_end : option Z;
  ts_duration : option Z
}.

Record activity := mkActivity { act_id : Z; act_name : option string }.
Record project := mkProject {
  prj_id : Z; prj_name : option string; prj_parentTitle : option string }.
Record user := mkUser { usr_id : Z; usr_alias : option string }.

(** A decoded JSON body: a list of records, or anything else. *)
Inductive json (R : Type) : Type :=
| JList (l : list R) : json R
| JOther : json R.
Arguments JList {R} l.
Arguments JOther {R}.

(** The remote API on the four endpoints of [fetch_api_data]; the timesheet
    endpoint is asked page by page. *)
Record Api := mkApi {
  get_timesheets : Z -> Http.result (json timesheet);
  get_activities : Http.result (json activity);
  get_projects : Http.result (json project);
  get_users : Http.result (json user)
}.

(** *** fetch_api_data *)

(** The state of the [while True] loop over pages: the page to ask next, the
    frames gathered, and (ghost) the pages asked so far. *)
Record page_state (R : Type) := mkPageState {
  page : Z;
  df_list : list (list R);
  requested : list Z
}.
Arguments mkPageState {R}.
Arguments page {R}.
Arguments df_list {R}.
Arguments requested {R}.

(** One turn of the loop: [inl] to go round again, [inr] on [break]. *)
Definition page_step {R : Type} (get : Z -> Http.result (json R))
    (st : page_state R) : page_state R + page_state R :=
  let asked := mkPageState (page st) (df_list st) (requested st ++ [page st]) in
  match get (page st) with
  | Http.Response code data =>
      if code =? 200 then
        match data with
        | JList (r :: l) =>
            inl (mkPageState (page st + 1) (df_list st ++ [r :: l])
                             (requested st ++ [page st]))
        | _ => inr asked
        end
      else inr asked
  | Http.Raised => inr asked
  end.

(** The loop has no bound of its own: [None] when [fuel] turns were not
    enough. *)
Fixpoint page_loop {R : Type} (fuel : nat) (get : Z -> Http.result (json R))
    (st : page_state R) : option (page_state R) :=
  match fuel with
  | O => None
  | S fuel' =>
      match page_step get st with
      | inl st' => page_loop fuel' get st'
      | inr st' => Some st'
      end
  end.

Definition fetch_paginated {R : Type} (fuel : nat) (get : Z -> Http.result (json R))
    : option (page_state R) :=
  page_loop fuel get (mkPageState 1 [] []).

Definition fetch_single {R : Type} (resp : Http.result (json R)) : list (list R) :=
  match resp with
  | Http.Response code data =>
      if code =? 200 then
        match data with
        | JList (r :: l) => [r :: l]
        | _ => []
        end
      else []
  | Http.Raised => []
  end.

(** [dataframes]: an endpoint has an entry only when something was fetched. *)
Record dataframes := mkFrames {
  Timesheets : option (list timesheet);
  Activities : option (list activity);
  Projects : option (list project);
  Users : option (list user)
}.

(** [pd.concat(df_list)] when [df_list] is not empty, no entry otherwise. *)
Definition frame_of {R : Type} (dfs : list (list R)) : option (list R) :=
  match dfs with
  | [] => None
  | _ => Some (concat dfs)
  end.

Definition fetch_api_data (fuel : nat) (api : Api) : option dataframes :=
  match fetch_paginated fuel (get_timesheets api) with
  | None => None
  | Some st =>
      Some (mkFrames (frame_of (df_list st))
                     (frame_of (fetch_single (get_activities api)))
                     (frame_of (fetch_single (get_projects api)))
                     (frame_of (fetch_single (get_users api))))
  end.

Definition frames_empty (d : dataframes) : bool :=
  match Timesheets d, Activities d, Projects d, Users d with
  | None, None, None, None => true
  | _, _, _, _ => false
  end.

(** *** calculate_breaks_from_raw_data *)

Record break_detail := mkBreakDetail {
  break_start : string;
  break_end : string;
  break_duration_hours : Q;
  break_duration_minutes : Q
}.

Record break_record := mkBreakRecord {
  br_user : option string;
  br_user_id : string;
  br_date : Z;                 (* the local calendar day, in days since 1970-01-01 *)
  date_formatted : string;
  total_breaks : nat;
  total_break_hours : Q;
  total_break_minutes : Q;
  break_details : list break_detail;
  first_work_start : string;
  last_work_end : string;
  total_work_entries : nat
}.

(** A timesheet row that survived [dropna]: user as a string, begin and end
    as UTC instants. *)
Record entry := mkEntry { e_user : string; e_begin : Z; e_end : Z }.

Section Local.
(** The UTC offset of US/Eastern, in seconds, at a UTC instant. *)
Variable utc_offset : Z -> Z.

(** [tz_convert('US/Eastern')]: the wall-clock reading, in seconds. *)
Definition local (t : Z) : Z := t + utc_offset t.
Definition hour (t : Z) : Z := (local t / 3600) mod 24.
Definition date_only (t : Z) : Z := local t / 86400.

(** [strftime('%H:%M:%S')]. *)
Definition strftime_HMS (t : Z) : string :=
  let s := local t mod 86400 in
  (Text.two_digits (s / 3600) ++ ":" ++ Text.two_digits ((s / 60) mod 60) ++ ":"
     ++ Text.two_digits (s mod 60))%string.

(** [date.strftime('%m/%d/%Y')] of a day number. *)
Definition strftime_mdY (days : Z) : string :=
  let d := Calendar.fromordinal (days + 719163) in
  (Text.two_digits (Calendar.month d) ++ "/" ++ Text.two_digits (Calendar.day d) ++ "/"
     ++ Text.four_digits (Calendar.year d))%string.

(** The rows left by [dropna(subset=['begin_local', 'end_local'])]. *)
Definition dropna_entries (raw : list timesheet) : list entry :=
  flat_map (fun r =>
    match ts_begin r, ts_end r with
    | Some b, Some e => [mkEntry (Py.str_of_Z (ts_user r)) b e]
    | _, _ => []
    end) raw.

Definition group_key (e : entry) : string * Z := (e_user e, date_only (e_begin e)).
Definition cmp_key : string * Z -> string * Z -> comparison :=
  Py.cmp_pair String.compare Z.compare.

(** [groupby(['user', 'date_only'])]: the groups in key order, each with
    its rows in frame order. *)
Definition groupby_user_date (rows : list entry) : list ((string * Z) * list entry) :=
  let keys := Py.stable_sort (Py.cmp_leb cmp_key)
                (Py.unique (Py.cmp_eqb cmp_key) (map group_key rows)) in
  map (fun k => (k, filter (fun e => Py.cmp_eqb cmp_key (group_key e) k) rows)) keys.

(** [group.sort_values('begin_local')].  The model sorts stably; pandas'
    default is quicksort, which may put entries that begin at the same
    instant in another order.  What is stated about the order of a group is
    therefore stated for any order by begin ([Terms.ordered_by_begin]). *)
Definition sort_values_begin (group : list entry) : list entry :=
  Py.stable_sort (fun a b => e_begin a <=? e_begin b) group.

(** The test of lines 197-198 on the gap between two consecutive entries. *)
Definition valid_break (current_end next_begin : Z) : bool :=
  let gap := next_begin - current_end in
  ((300 <=? gap) && (gap <=? 3600)) &&
  (((10 <=? hour current_end) && (hour current_end <=? 16)) &&
   ((10 <=? hour next_begin) && (hour next_begin <=? 16))).

Definition make_break (current_end next_begin : Z) : break_detail :=
  let gap := next_begin - current_end in
  mkBreakDetail (strftime_HMS current_end) (strftime_HMS next_begin)
                (Py.round (inject_Z gap / 3600) 2)
                (Py.round (inject_Z gap / 60) 1).

(** The body of [for i in range(len(group) - 1)], on the pair
    ([daily_breaks], [total_break_time]). *)
Definition scan_step (group : list entry) (acc : list break_detail * Z) (i : nat)
    : list break_detail * Z :=
  match nth_error group i, nth_error group (i + 1) with
  | Some cur, Some nxt =>
      let current_end := e_end cur in
      let next_begin := e_begin nxt in
      if valid_break current_end next_begin
      then (fst acc ++ [make_break current_end next_begin],
            snd acc + (next_begin - current_end))
      else acc
  | _, _ => acc
  end.

Definition scan_gaps (group : list entry) : list break_detail * Z :=
  fold_left (scan_step group) (seq 0 (length group - 1)) ([], 0).

(** One turn of the loop over the groups: the record appended to
    [break_records], if any. *)
Definition group_breaks (id_to_alias : list (string * option string))
    (user_id : string) (date : Z) (rows : list entry) : option break_record :=
  let user_alias :=
    match Py.dict_get String.eqb id_to_alias user_id with
    | Some a => a
    | None => Some ("User_" ++ user_id)%string
    end in
  let group := sort_values_begin rows in
  if (length group <? 2)%nat then None
  else
    let '(daily_breaks, total_break_time) := scan_gaps group in
    match daily_breaks with
    | [] => None
    | _ =>
        Some (mkBreakRecord user_alias user_id date (strftime_mdY date)
                (length daily_breaks)
                (Py.round (inject_Z total_break_time / 3600) 2)
                (Py.round (inject_Z total_break_time / 60) 1)
                daily_breaks
                (match hd_error group with
                 | Some e => strftime_HMS (e_begin e) | None => "" end)
                (match hd_error (rev group) with
                 | Some e => strftime_HMS (e_end e) | None => "" end)
                (length group))
    end.

Definition calculate_breaks_from_raw_data (raw_timesheets_df : list timesheet)
    (users_df : list user) : list break_record :=
  match raw_timesheets_df with
  | [] => []
  | _ =>
      let id_to_alias :=
        map (fun u => (Py.str_of_Z (usr_id u), usr_alias u)) users_df in
      flat_map (fun g =>
          match group_breaks id_to_alias (fst (fst g)) (snd (fst g)) (snd g) with
          | Some r => [r]
          | None => []
          end)
        (groupby_user_date (dropna_entries raw_timesheets_df))
  end.

End Local.

(** *** process_timesheet_mappings *)

(** A row of the processed [timesheets_df].  [m_customer] is the column
    [tags] renamed; [m_date] is the local day of [begin] (shown as
    [%m/%d/%Y]), [None] for [NaT]; [m_duration] is in hours.  The columns
    [Week], [price] and [total] play no part in the reports and are left out. *)
Record mapped := mkMapped {
  m_activity : option string;
  m_project : option string;
  m_user : option string;
  m_customer : option string;
  m_date : option Z;
  m_duration : option Q
}.

(** [Series.map(d)]: a key without entry gives [NaN], and so does an entry
    whose value is null. *)
Definition series_map {K : Type} (eqb : K -> K -> bool) (d : list (K * option string))
    (k : K) : option string :=
  match Py.dict_get eqb d k with
  | Some v => v
  | None => None
  end.

Section Mappings.
Variable utc_offset : Z -> Z.

Definition map_timesheet (id_to_name : list (Z * option string))
    (id_to_project_name id_to_parent_title id_to_alias : list (string * option string))
    (r : timesheet) : mapped :=
  let project := Py.str_of_Z (ts_project r) in
  let user := Py.str_of_Z (ts_user r) in
  mkMapped (series_map Z.eqb id_to_name (ts_activity r))
           (series_map String.eqb id_to_project_name project)
           (series_map String.eqb id_to_alias user)
           (series_map String.eqb id_to_parent_title project)
           (option_map (date_only utc_offset) (ts_begin r))
           (option_map (fun d => Py.round (inject_Z d / 3600) 2) (ts_duration r)).

Definition process_timesheet_mappings (frames : dataframes)
    : option (list mapped) * list break_record :=
  match Timesheets frames, Activities frames, Projects frames, Users frames with
  | Some timesheets_raw_df, Some activities_df, Some projects_df, Some users_df =>
      let breaks_df :=
        calculate_breaks_from_raw_data utc_offset timesheets_raw_df users_df in
      let id_to_name := map (fun a => (act_id a, act_name a)) activities_df in
      let id_to_project_name :=
        map (fun p => (Py.str_of_Z (prj_id p), prj_name p)) projects_df in
      let id_to_parent_title :=
        map (fun p => (Py.str_of_Z (prj_id p), prj_parentTitle p)) projects_df in
      let id_to_alias :=
        map (fun u => (Py.str_of_Z (usr_id u), usr_alias u)) users_df in
      (Some (map (map_timesheet id_to_name id_to_project_name id_to_parent_title
                    id_to_alias) timesheets_raw_df),
       breaks_df)
  | _, _, _, _ => (None, [])
  end.
End Mappings.

(** *** create_customer_reports *)

(** [df.groupby(keys).agg({"duration": "sum"}).reset_index()]: rows with a
    missing key are left out (pandas' [dropna=True]), the groups come in key
    order. *)
Section GroupBy.
Context {R K : Type} (cmp : K -> K -> comparison).
Variable key : R -> option K.
Variable value : R -> Q.

Definition keyed_rows (rows : list R) : list (K * Q) :=
  flat_map (fun r => match key r with
                     | Some k => [(k, value r)]
                     | None => []
                     end) rows.

Definition groupby_sum (rows : list R) : list (K * Q) :=
  let keyed := keyed_rows rows in
  let keys := Py.stable_sort (Py.cmp_leb cmp)
                (Py.unique (Py.cmp_eqb cmp) (map fst keyed)) in
  map (fun k =>
         (k, Py.Qsum (map snd (filter (fun kv => Py.cmp_eqb cmp (fst kv) k) keyed))))
      keys.
End GroupBy.

Definition opt_pair {A B : Type} (a : option A) (b : option B) : option (A * B) :=
  match a, b with
  | Some x, Some y => Some (x, y)
  | _, _ => None
  end.

(** [pd.to_numeric(..., errors="coerce").fillna(0)]. *)
Definition duration0 (r : mapped) : Q :=
  match m_duration r with Some q => q | None => 0%Q end.

Definition key_customer_user (r : mapped) : option (string * string) :=
  opt_pair (m_customer r) (m_user r).

Definition key_detailed (r : mapped)
    : option (string * string * string * string * Z) :=
  opt_pair (opt_pair (opt_pair (opt_pair (m_customer r) (m_user r)) (m_project r))
                     (m_activity r)) (m_date r).

Definition key_user_project_activity (r : mapped) : option (string * string * string) :=
  opt_pair (opt_pair (m_user r) (m_project r)) (m_activity r).

Definition cmp2 := Py.cmp_pair String.compare String.compare.
Definition cmp3 := Py.cmp_pair cmp2 String.compare.
Definition cmp5 := Py.cmp_pair (Py.cmp_pair cmp3 String.compare) Z.compare.

Definition customer_is (c : string) (r : mapped) : bool :=
  match m_customer r with
  | Some c' => String.eqb c' c
  | None => false
  end.

Definition customer_header : row :=
  [Str "EmployeeName"; Str "EmployeeHours"; Str "ProjectName"; Str "ActivityName";
   Str "ActivityHours"; Str "CustomerTotal"].

Definition placeholder_row : row :=
  [Str ""; Num 0; Str ""; Str ""; Num 0; Num 0].

(** With [None] (NaN) last, as [sort_values] puts it. *)
Definition cmp_option (a b : option string) : comparison :=
  match a, b with
  | Some x, Some y => String.compare x y
  | Some _, None => Lt
  | None, Some _ => Gt
  | None, None => Eq
  end.

Record individual_break := mkIndividual {
  ib_user : option string;
  ib_date : string;
  ib_break : break_detail;
  ib_work_day_start : string;
  ib_work_day_end : string
}.

(** [str(row['user'])]; how a missing alias prints ([None] or [nan])
    depends on the pandas version. *)
Definition str_option (s : option string) : string :=
  match s with Some x => x | None => "None" end.

Section Reports.
(** [datetime.now()], as the calendar day it falls on. *)
Variable today : Calendar.date.
(** The order in which a [for] loop runs through a Python set of strings,
    given its elements. *)
Variable set_iter : list string -> list string.

Definition now_mdY : string :=
  (Text.two_digits (Calendar.month today) ++ "/" ++ Text.two_digits (Calendar.day today)
     ++ "/" ++ Text.four_digits (Calendar.year today))%string.

Definition now_Ymd : string :=
  (Text.four_digits (Calendar.year today) ++ Text.two_digits (Calendar.month today)
     ++ Text.two_digits (Calendar.day today))%string.

(** [timesheets_df[timesheets_df["customer"] != "General Admin"]]: a
    missing customer differs from every string. *)
Definition df_customers (timesheets_df : list mapped) : list mapped :=
  filter (fun r => negb (customer_is "General Admin" r)) timesheets_df.

Definition grouped_total_ytd (df_ytd : list mapped) : list (string * string * Q) :=
  groupby_sum cmp2 key_customer_user duration0 df_ytd.

Definition employee_summary (grouped : list (string * string * Q)) : list row :=
  [Str "Customer"; Str "Employee"; Str "TotalHours"; Str "Date"] ::
  flat_map (fun customer =>
      map (fun r => [Str customer; Str (snd (fst r)); Num (Py.round (snd r) 2);
                     Stamp now_mdY])
          (filter (fun r => String.eqb (fst (fst r)) customer) grouped))
    (Py.unique String.eqb (map (fun r => fst (fst r)) grouped)).

Definition activity_details (df_ytd : list mapped) : list row :=
  let grouped := groupby_sum cmp5 key_detailed duration0 df_ytd in
  let customer_of (r : string * string * string * string * Z * Q) :=
    fst (fst (fst (fst (fst r)))) in
  [Str "Customer"; Str "Employee"; Str "Project"; Str "Activity"; Str "Hours"; Str "Date"] ::
  flat_map (fun customer =>
      map (fun r =>
             let '(_, user, project, activity, date, duration) := r in
             [Str customer; Str user; Str project; Str activity;
              Num (Py.round duration 2); Str (strftime_mdY date)])
          (filter (fun r => String.eqb (customer_of r) customer) grouped))
    (Py.unique String.eqb (map customer_of grouped)).

Definition customer_hours_summary (df_ytd : list mapped) : list row :=
  let customer_hours :=
    Py.stable_sort (fun a b : string * Q => Qle_bool (snd b) (snd a))
      (groupby_sum String.compare m_customer duration0 df_ytd) in
  let total_all_customers := Py.Qsum (map snd customer_hours) in
  [Str "Customer"; Str "TotalHours"; Str "Percentage"] ::
  map (fun r : string * Q =>
         [Str (fst r); Num (Py.round (snd r) 2);
          if negb (Qle_bool total_all_customers 0)
          then Num (Py.round ((snd r / total_all_customers) * 100) 1)
          else Int 0])
      customer_hours.

(** The sheet of a customer that has data (lines 386-412). *)
Definition customer_data_rows (grouped : list (string * string * Q))
    (df_ytd : list mapped) (customer : string) : list row :=
  let customer_total := filter (fun r => String.eqb (fst (fst r)) customer) grouped in
  let customer_detailed :=
    groupby_sum cmp3 key_user_project_activity duration0
      (filter (customer_is customer) df_ytd) in
  let customer_total_hours := Py.round (Py.Qsum (map snd customer_total)) 2 in
  customer_header ::
  flat_map (fun emp_row : string * string * Q =>
      let employee := snd (fst emp_row) in
      let total_hours := Py.round (snd emp_row) 2 in
      let emp_activities :=
        filter (fun a : string * string * string * Q =>
                  String.eqb (fst (fst (fst a))) employee) customer_detailed in
      match emp_activities with
      | [] => [[Str employee; Num total_hours; Str ""; Str ""; Num 0;
                Num customer_total_hours]]
      | _ =>
          map (fun a : string * string * string * Q =>
                 [Str employee; Num total_hours; Str (snd (fst (fst a)));
                  Str (snd (fst a)); Num (Py.round (snd a) 2);
                  Num customer_total_hours])
              emp_activities
      end)
    customer_total.

(** [set(EXPECTED_CUSTOMERS) - {"General Admin"}], in iteration order. *)
Definition all_expected_customers : list string :=
  set_iter (filter (fun c => negb (String.eqb c "General Admin"))
                   (Py.unique String.eqb EXPECTED_CUSTOMERS)).

(** The loop of lines 379-417: one sheet per expected customer. *)
Definition customer_sheets (grouped : list (string * string * Q))
    (df_ytd : list mapped) (wb : workbook) : workbook :=
  let customers_with_data := Py.unique String.eqb (map (fun r => fst (fst r)) grouped) in
  fold_left (fun wb customer =>
      let customer_name := Text.take 31 customer in
      if existsb (String.eqb customer) customers_with_data
      then create_sheet wb customer_name None
             (customer_data_rows grouped df_ytd customer)
      else create_sheet wb customer_name None [customer_header; placeholder_row])
    all_expected_customers wb.

Definition cmp_individual (a b : individual_break) : comparison :=
  match cmp_option (ib_user a) (ib_user b) with
  | Eq => match String.compare (ib_date a) (ib_date b) with
          | Eq => String.compare (break_start (ib_break a)) (break_start (ib_break b))
          | c => c
          end
  | c => c
  end.

Definition break_analysis (breaks_df : list break_record) : list row :=
  let individual_breaks :=
    flat_map (fun r =>
        map (fun b => mkIndividual (br_user r) (date_formatted r) b
                        (first_work_start r) (last_work_end r))
            (break_details r)) breaks_df in
  [Str "Employee"; Str "Date"; Str "BreakStart"; Str "BreakEnd"; Str "DurationMinutes";
   Str "DurationHours"; Str "WorkDayStart"; Str "WorkDayEnd"] ::
  map (fun b =>
         [Str (str_option (ib_user b)); Str (ib_date b);
          Str (break_start (ib_break b)); Str (break_end (ib_break b));
          Num (Py.round (break_duration_minutes (ib_break b)) 1);
          Num (Py.round (break_duration_hours (ib_break b)) 2);
          Str (ib_work_day_start b); Str (ib_work_day_end b)])
      (Py.stable_sort (Py.cmp_leb cmp_individual) individual_breaks).

(** The main workbook, as it stands when [wb.save] is called. *)
Definition customer_workbook (timesheets_df : list mapped)
    (breaks_df : list break_record) : workbook :=
  let df_ytd := df_customers timesheets_df in
  let grouped := grouped_total_ytd df_ytd in
  let wb := create_sheet [] "Employee Summary" (Some 0%nat) (employee_summary grouped) in
  let wb := create_sheet wb "Activity Details" (Some 1%nat) (activity_details df_ytd) in
  let wb := create_sheet wb "Customer Hours Summary" (Some 2%nat)
              (customer_hours_summary df_ytd) in
  let wb := customer_sheets grouped df_ytd wb in
  match breaks_df with
  | [] => wb
  | _ => create_sheet wb "YTD Break Analysis" (Some 3%nat) (break_analysis breaks_df)
  end.

(** *** create_summary_file *)
Definition summary_workbook (timesheets_df : list mapped) : workbook :=
  let df_hours_per_employee := groupby_sum String.compare m_user duration0 timesheets_df in
  let total_hours := Py.Qsum (map snd df_hours_per_employee) in
  let total_employees := length df_hours_per_employee in
  create_sheet [] "Weekly Summary" (Some 0%nat)
    (map (fun r : string * Q => [Str (fst r); Num (Py.round (snd r) 2)])
         df_hours_per_employee
     ++ [ [];
          [Str "METRIC"; Str "VALUE"];
          [Str "Total Hours"; Num (Py.round total_hours 2)];
          [Str "Total Employees"; Int (Z.of_nat total_employees)];
          [Str "Average Hours";
           if (0 <? total_employees)%nat
           then Num (Py.round (total_hours / inject_Z (Z.of_nat total_employees)) 2)
           else Int 0] ]).

(** The files written by [create_customer_reports], by name. *)
Definition create_customer_reports (timesheets_df : list mapped)
    (breaks_df : list break_record) : list (string * workbook) :=
  [ (("Kimai_Customer_Reports_YTD_" ++ now_Ymd ++ ".xlsx")%string,
     customer_workbook timesheets_df breaks_df);
    (("Kimai_Summary_YTD_" ++ now_Ymd ++ ".xlsx")%string,
     summary_workbook timesheets_df) ].

(** *** main *)

(** [None] when the pagination loop is still running after [fuel] pages.
    The debugging request of lines 522-574 changes nothing and is left out. *)
Definition main (fuel : nat) (utc_offset : Z -> Z) (KIMAI_API_TOKEN : option string)
    (api : Api) : option run :=
  match KIMAI_API_TOKEN with
  | None => Some (mkRun 1 [])
  | Some EmptyString => Some (mkRun 1 [])
  | Some _ =>
      match fetch_api_data fuel api with
      | None => None
      | Some frames =>
          if frames_empty frames then Some (mkRun 1 [])
          else
            match process_timesheet_mappings utc_offset frames with
            | (None, _) => Some (mkRun 1 [])
            | (Some timesheets_df, breaks_df) =>
                Some (mkRun 0 (create_customer_reports timesheets_df breaks_df))
            end
      end
  end.

End Reports.

End Kimai.

(** ** project-dashboard-ytd.py *)

Module ServiceFusion.

Import Xlsx.

(** *** JSON objects

    A key of a JSON object is absent, present with [null], or present with a
    value: [d.get(k)] makes no difference between the first two,
    [d.get(k, default)] does. *)
Inductive field (A : Type) : Type :=
| Absent : field A
| Null : field A
| Value (a : A) : field A.
Arguments Absent {A}.
Arguments Null {A}.
Arguments Value {A} a.

Definition get {A : Type} (f : field A) : option A :=
  match f with
  | Value a => Some a
  | _ => None
  end.

Definition get_default {A : Type} (f : field A) (default : A) : option A :=
  match f with
  | Absent => Some default
  | Null => None
  | Value a => Some a
  end.

(** The keys read anywhere in the script, on the records of all four
    endpoints (customers, jobs, estimates, invoices). *)
Record obj := mkObj {
  id : field Z;
  number : field string;
  description : field string;
  customer_id : field Z;
  customer_name : field string;
  customer : field string;
  total : field Q;
  created_at : field string;
  date : field string;
  start_date : field string;
  end_date : field string;
  category : field string;
  status : field string;
  payment_status : field string
}.

(** Truth value of an optional string: [None] and [''] are false. *)
Definition truthy (s : option string) : bool :=
  match s with
  | Some (String _ _) => true
  | _ => false
  end.

(** [x or y] on optional strings. *)
Definition or_else (x y : option string) : option string :=
  if truthy x then x else y.

(** [d.get('total', 0) or 0]. *)
Definition total_or_0 (o : obj) : Q :=
  match total o with
  | Value q => q
  | _ => 0%Q
  end.

(** *** The remote API *)

Inductive endpoint := customers | jobs | estimates | invoices.

Definition endpoint_name (e : endpoint) : string :=
  match e with
  | customers => "customers"
  | jobs => "jobs"
  | estimates => "estimates"
  | invoices => "invoices"
  end.

(** The query of a page request: whether [sort=-created_at] is sent, and the
    [page] parameter if any. *)
Record request := mkRequest { sorted_desc : bool; page_param : option Z }.

(** A decoded body: the envelope [{items, _meta: {currentPage, pageCount}}]
    (a missing or null [items] reads as no records), or something that is
    not an object. *)
Inductive body : Type :=
| Envelope (items : list obj) (currentPage pageCount : option Z)
| NotAnObject.

Record Api := mkApi {
  (** does the credential exchange of [authenticate] succeed *)
  auth_ok : bool;
  fetch : endpoint -> request -> Http.result body
}.

(** *** extract_with_forced_sort *)

Record extract_state := mkState {
  page : Z;
  all_records : list obj;
  requests : list request    (* ghost: the requests sent so far *)
}.

Definition is_windowed (date_range : string) : bool :=
  String.eqb date_range "Year to Date" || String.eqb date_range "Month to Date".

Section Extract.
(** [today.year] *)
Variable year : Z.

(** Is the record counted as old data (lines 145-155). *)
Definition is_old (record : obj) : bool :=
  let date_val := or_else (get (created_at record)) (get (date record)) in
  if truthy date_val
  then negb (Text.contains (Py.str_of_Z year)
               (match date_val with Some s => s | None => "" end))
  else false.

(** What the loop does with the decoded body of a page: [inl] to ask for
    the next page, [inr] on [break].  A [currentPage] or [pageCount] that is
    [null] is read here as an absent one; in the script the comparison of
    line 170 then raises and the extraction stops with the records of the
    pages so far, this one included. *)
Definition handle_page (date_range : string) (st : extract_state) (data : body)
    : extract_state + extract_state :=
  match data with
  | NotAnObject => inr st
  | Envelope records currentPage pageCount =>
      match records with
      | [] => inr st
      | _ =>
          let windowed := is_windowed date_range in
          let kept := if windowed then filter (fun r => negb (is_old r)) records
                      else records in
          let old_data_count := Z.of_nat (length (filter is_old records)) in
          let st1 := mkState (page st) (all_records st ++ kept) (requests st) in
          if windowed && (Z.of_nat (length records) <? 2 * old_data_count)
             && (1 <? page st)
          then inr st1
          else
            let current_page := match currentPage with Some c => c | None => page st end in
            let page_count := match pageCount with Some c => c | None => 999 end in
            if page_count <=? current_page then inr st1
            else if 50000 <=? Z.of_nat (length (all_records st1)) then inr st1
            else if 500 <? page st then inr st1
            else inl (mkState (page st + 1) (all_records st1) (requests st1))
      end
  end.

(** One turn of [while True]. *)
Definition extract_step (get_page : request -> Http.result body)
    (date_range : string) (st : extract_state) : extract_state + extract_state :=
  let req := mkRequest true (if 1 <? page st then Some (page st) else None) in
  let st1 := mkState (page st) (all_records st) (requests st ++ [req]) in
  match get_page req with
  | Http.Raised => inr st1
  | Http.Response code data =>
      if code =? 200 then handle_page date_range st1 data
      else if page st =? 1 then
        (* Try without sort on first page *)
        let req2 := mkRequest false None in
        let st2 := mkState (page st) (all_records st) (requests st1 ++ [req2]) in
        match get_page req2 with
        | Http.Raised => inr st2
        | Http.Response code2 data2 =>
            if code2 =? 200 then handle_page date_range st2 data2 else inr st2
        end
      else inr st1
  end.

Fixpoint extract_loop (fuel : nat) (get_page : request -> Http.result body)
    (date_range : string) (st : extract_state) : option extract_state :=
  match fuel with
  | O => None
  | S fuel' =>
      match extract_step get_page date_range st with
      | inl st' => extract_loop fuel' get_page date_range st'
      | inr st' => Some st'
      end
  end.

(** The safety limits bound the loop: 502 turns are always enough (see
    [extract_loop_terminates]). *)
Definition max_turns : nat := 502.

Definition extract_trace (api : Api) (endpoint_name : endpoint) (date_range : string)
    : option extract_state :=
  if auth_ok api
  then extract_loop max_turns (fetch api endpoint_name) date_range (mkState 1 [] [])
  else Some (mkState 1 [] []).

Definition extract_with_forced_sort (api : Api) (endpoint_name : endpoint)
    (date_range : string) : list obj :=
  match extract_trace api endpoint_name date_range with
  | Some st => all_records st
  | None => []
  end.

(** *** extract_all_data *)
Record all_data := mkData {
  d_customers : list obj;
  d_jobs : list obj;
  d_estimates : list obj;
  d_invoices : list obj
}.

Definition extract_all_data (api : Api) (date_range : string) : all_data :=
  mkData (extract_with_forced_sort api customers date_range)
         (extract_with_forced_sort api jobs date_range)
         (extract_with_forced_sort api estimates date_range)
         (extract_with_forced_sort api invoices date_range).
End Extract.

(** *** calculate_due_date *)

Record datetime := mkDatetime {
  dt_date : Calendar.date;
  dt_hour : Z;
  dt_minute : Z;
  dt_second : Z
}.

Definition all_digits (cs : list ascii) : bool := forallb Text.is_digit cs.

Definition int_of (cs : list ascii) : Z :=
  fold_left (fun acc c => acc * 10 + Text.digit_val c) cs 0.

Definition in_range (lo hi : Z) (c : ascii) : bool :=
  Text.is_digit c && (lo <=? Text.digit_val c) && (Text.digit_val c <=? hi).

(** The directive [%m]: [1[0-2]|0[1-9]|[1-9]]. *)
Definition parse_month (cs : list ascii) : option (Z * list ascii) :=
  match cs with
  | a :: b :: rest =>
      if (Ascii.eqb a "1" && in_range 0 2 b) || (Ascii.eqb a "0" && in_range 1 9 b)
      then Some (int_of [a; b], rest)
      else if in_range 1 9 a then Some (int_of [a], b :: rest)
      else None
  | [a] => if in_range 1 9 a then Some (int_of [a], []) else None
  | [] => None
  end.

(** The directive [%d]: [3[01]|[12]\d|0[1-9]|[1-9]| [1-9]]. *)
Definition parse_day (cs : list ascii) : option (Z * list ascii) :=
  match cs with
  | a :: b :: rest =>
      if (Ascii.eqb a "3" && in_range 0 1 b) || (in_range 1 2 a && Text.is_digit b)
         || (Ascii.eqb a "0" && in_range 1 9 b)
      then Some (int_of [a; b], rest)
      else if in_range 1 9 a then Some (int_of [a], b :: rest)
      else if Ascii.eqb a " " && in_range 1 9 b then Some (int_of [b], rest)
      else None
  | [a] => if in_range 1 9 a then Some (int_of [a], []) else None
  | [] => None
  end.

(** [datetime.strptime(s, '%Y-%m-%d')]; [None] for [ValueError]. *)
Definition strptime_Ymd (s : string) : option datetime :=
  match list_ascii_of_string s with
  | y1 :: y2 :: y3 :: y4 :: dash1 :: rest =>
      if all_digits [y1; y2; y3; y4] && Ascii.eqb dash1 "-" then
        match parse_month rest with
        | Some (m, dash2 :: rest') =>
            if Ascii.eqb dash2 "-" then
              match parse_day rest' with
              | Some (d, []) =>
                  let dt := Calendar.mkDate (int_of [y1; y2; y3; y4]) m d in
                  if Calendar.valid_date dt then Some (mkDatetime dt 0 0 0) else None
              | _ => None
              end
            else None
        | _ => None
        end
      else None
  | _ => None
  end.

(** [dt + timedelta(days=n)]; [None] for [OverflowError]. *)
Definition add_days (dt : datetime) (n : Z) : option datetime :=
  let ord := Calendar.toordinal (dt_date dt) + n in
  if (1 <=? ord) && (ord <=? Calendar.MAXORDINAL)
  then Some (mkDatetime (Calendar.fromordinal ord) (dt_hour dt) (dt_minute dt) (dt_second dt))
  else None.

(** [strftime('%Y-%m-%d')], for years from 1000 on.  Below 1000 the C
    library decides whether [%Y] is padded to four digits (glibc prints
    [999-12-31]); the model always pads. *)
Definition strftime_date (dt : datetime) : string :=
  let d := dt_date dt in
  (Text.four_digits (Calendar.year d) ++ "-" ++ Text.two_digits (Calendar.month d) ++ "-"
     ++ Text.two_digits (Calendar.day d))%string.

(** [strftime('%Y-%m-%dT%H:%M:%S+00:00')]. *)
Definition strftime_datetime (dt : datetime) : string :=
  (strftime_date dt ++ "T" ++ Text.two_digits (dt_hour dt) ++ ":"
     ++ Text.two_digits (dt_minute dt) ++ ":" ++ Text.two_digits (dt_second dt)
     ++ "+00:00")%string.

(** [s.replace('Z', '+00:00')]. *)
Fixpoint replace_Z (s : string) : string :=
  match s with
  | EmptyString => EmptyString
  | String c s' =>
      if Ascii.eqb c "Z" then ("+00:00" ++ replace_Z s')%string
      else String c (replace_Z s')
  end.

Section DueDate.
(** [datetime.fromisoformat(s).replace(tzinfo=None)]: the wall-clock
    reading of an ISO 8601 string, its UTC offset dropped; [None] for
    [ValueError].  Which strings are accepted depends on the Python
    version, so the parser is left open. *)
Variable fromisoformat : string -> option datetime.

Definition calculate_due_date (invoice_date : option string) : option string :=
  if negb (truthy invoice_date) then None
  else
    let date_str := Text.strip (match invoice_date with Some s => s | None => "" end) in
    let has_T := Text.contains "T" date_str in
    let invoice_dt :=
      if has_T then
        if Text.contains "Z" date_str then fromisoformat (replace_Z date_str)
        else fromisoformat date_str
      else strptime_Ymd (Text.take 10 date_str) in
    match invoice_dt with
    | None => None
    | Some dt =>
        match add_days dt 15 with
        | None => None
        | Some due_dt =>
            if has_T then Some (strftime_datetime due_dt)
            else Some (strftime_date due_dt)
        end
    end.
End DueDate.

(** *** create_powerbi_summary *)

(** A row of the summary, as built in lines 305-323. *)
Record summary := mkSummary {
  Job_ID : option Z;
  Job_Number : option string;
  Job_Name : option string;
  Customer_ID : option Z;
  Customer_Name : option string;
  Job_Created_Date : option string;
  ECD_Estimated_Completion_Date : option string;
  Invoice_Date : option string;
  Invoice_ECD_Due_Date : option string;
  Job_Project_Value : option Q;
  Invoice_Total : option Q;
  Business_Category : option string;
  Job_Status : option string;
  Payment_Status : option string;
  Has_Related_Invoices : bool;
  Invoice_Count : nat;
  Invoice_Match_Method : string
}.

(** "Using estimates as job data": an estimate without [end_date] gets its
    [start_date].  The dicts changed are those of [all_data]. *)
Definition patch_estimate (e : obj) : obj :=
  if truthy (get (end_date e)) then e
  else
    mkObj (id e) (number e) (description e) (customer_id e) (customer_name e)
          (customer e) (total e) (created_at e) (date e) (start_date e)
          (match get (start_date e) with Some s => Value s | None => Null end)
          (category e) (status e) (payment_status e).

(** [invoices_by_customer]: customer name to invoices, in the order met. *)
Fixpoint add_invoice (d : list (string * list obj)) (c : string) (inv : obj)
    : list (string * list obj) :=
  match d with
  | [] => [(c, [inv])]
  | (c', l) :: d' =>
      if String.eqb c c' then (c', l ++ [inv]) :: d'
      else (c', l) :: add_invoice d' c inv
  end.

Definition invoices_by_customer (invoices_data : list obj) : list (string * list obj) :=
  fold_left (fun d invoice =>
      let c := get_default (customer invoice) ""%string in
      if truthy c
      then add_invoice d (match c with Some n => n | None => ""%string end) invoice
      else d)
    invoices_data [].

(** [invoices_by_customer.get(customer_name, [])] *)
Definition customer_invoices_of (d : list (string * list obj))
    (customer_name : option string) : list obj :=
  match customer_name with
  | Some n =>
      match find (fun e => String.eqb (fst e) n) d with
      | Some e => snd e
      | None => []
      end
  | None => []
  end.

(** The first invoice of the scan of lines 288-295.  The model compares the
    exact quotient with 1/10; the script compares a binary64 quotient with
    the binary64 0.1, so that a pair exactly or almost exactly 10% apart
    (19.90 and 21.89) can fall on the other side. *)
Definition within_tolerance (job_total invoice_total : Q) : bool :=
  negb (Qle_bool invoice_total 0) &&
  Qle_bool (Qabs (invoice_total - job_total) / job_total) (1 # 10).

Definition amount_match (job_total : Q) (customer_invoices : list obj) : option obj :=
  find (fun invoice => within_tolerance job_total (total_or_0 invoice)) customer_invoices.

(** The key [x.get('date', '')]: [None] is Python's [None], which cannot be
    compared with anything. *)
Definition date_key (x : obj) : option string := get_default (date x) ""%string.

Definition key_string (x : obj) : string :=
  match date_key x with Some s => s | None => ""%string end.

(** [sorted(customer_invoices, key=..., reverse=True)[0]]: the sort is
    stable, so among the invoices with the greatest key the first in list
    order comes out.  Sorting two or more invoices compares every key with
    another one, and raises [TypeError] ([None] here) if one of them is
    [None]. *)
Definition most_recent (customer_invoices : list obj) : option obj :=
  match customer_invoices with
  | [] => None
  | [x] => Some x
  | _ =>
      if forallb (fun x => match date_key x with Some _ => true | None => false end)
                 customer_invoices
      then hd_error (Py.stable_sort (fun a b => String.leb (key_string b) (key_string a))
                       customer_invoices)
      else None
  end.

(** The outcome of the matching of lines 279-303: [MatchRaised] when the
    sort raises, else the invoice found (if any) and the method. *)
Inductive matching : Type :=
| MatchRaised
| Match (related_invoice : option obj) (invoice_match_method : string).

Definition match_invoice (job : obj) (customer_invoices : list obj) : matching :=
  match customer_invoices with
  | [] => Match None "None"%string
  | _ =>
      let job_total := total_or_0 job in
      let by_amount :=
        if negb (Qle_bool job_total 0) then amount_match job_total customer_invoices
        else None in
      match by_amount with
      | Some invoice => Match (Some invoice) "Amount Match"%string
      | None =>
          match most_recent customer_invoices with
          | Some invoice => Match (Some invoice) "Most Recent"%string
          | None => MatchRaised
          end
      end
  end.

Section Summary.
Variable fromisoformat : string -> option datetime.

(** The record of one job; [None] when the matching raises and the job is
    passed over (lines 327-329). *)
Definition job_record (by_customer : list (string * list obj)) (job : obj)
    : option summary :=
  let customer_name := get_default (customer_name job) "Unknown"%string in
  let customer_invoices := customer_invoices_of by_customer customer_name in
  match match_invoice job customer_invoices with
  | MatchRaised => None
  | Match related_invoice invoice_match_method =>
      let invoice_date :=
        match related_invoice with Some i => get (date i) | None => None end in
      Some (mkSummary
              (get (id job)) (get (number job))
              (get_default (description job) "No Description"%string)
              (get (customer_id job)) customer_name
              (get (created_at job)) (get (end_date job))
              invoice_date
              (calculate_due_date fromisoformat invoice_date)
              (get_default (total job) 0%Q)
              (match related_invoice with Some i => get (total i) | None => None end)
              (or_else (get (category job)) (Some "General"%string))
              (get (status job)) (get (payment_status job))
              (match related_invoice with Some _ => true | None => false end)
              (length customer_invoices)
              invoice_match_method)
  end.

(** [job_id in processed_job_ids] *)
Definition processed (ids : list Z) (job_id : option Z) : bool :=
  match job_id with
  | Some j => existsb (Z.eqb j) ids
  | None => false
  end.

(** The loop over the jobs, on the pair ([summary_records],
    [processed_job_ids]). *)
Definition job_step (by_customer : list (string * list obj))
    (acc : list summary * list Z) (job : obj) : list summary * list Z :=
  let job_id := get (id job) in
  if processed (snd acc) job_id then acc
  else
    let ids := match job_id with
               | Some j => if j =? 0 then snd acc else j :: snd acc
               | None => snd acc
               end in
    match job_record by_customer job with
    | Some record => (fst acc ++ [record], ids)
    | None => (fst acc, ids)
    end.

Definition option_Z_eqb (a b : option Z) : bool :=
  match a, b with
  | Some x, Some y => x =? y
  | None, None => true
  | _, _ => false
  end.

(** [df.drop_duplicates(subset=['Job_ID'], keep='first')]; two missing ids
    count as equal. *)
Fixpoint drop_duplicates (seen : list (option Z)) (rows : list summary) : list summary :=
  match rows with
  | [] => []
  | r :: rows' =>
      if existsb (option_Z_eqb (Job_ID r)) seen then drop_duplicates seen rows'
      else r :: drop_duplicates (Job_ID r :: seen) rows'
  end.

(** The jobs the summary is built from, and [all_data] as the function
    leaves it. *)
Definition jobs_of (data : all_data) : list obj * all_data :=
  match d_jobs data, d_estimates data with
  | [], _ :: _ =>
      let patched := map patch_estimate (d_estimates data) in
      (patched, mkData (d_customers data) (d_jobs data) patched (d_invoices data))
  | _, _ => (d_jobs data, data)
  end.

(** The frame returned, before its four date columns go through
    [pd.to_datetime(..., errors='coerce').dt.tz_localize(None)] (lines
    336-341), which is not modelled: it turns the date strings of the
    records into pandas timestamps, and when it raises (dates with
    different UTC offsets in one column) the outer [except] of lines
    345-347 returns an empty frame instead.  The date fields of a row are
    here the strings of the record as built. *)
Definition create_powerbi_summary (data : all_data) : list summary :=
  let jobs_data := fst (jobs_of data) in
  match jobs_data with
  | [] => []
  | _ =>
      let by_customer := invoices_by_customer (d_invoices data) in
      drop_duplicates []
        (fst (fold_left (job_step by_customer) jobs_data ([], [])))
  end.

(** *** save_to_excel *)

Definition powerbi_header : row :=
  map Str
    [ "Job_ID"; "Job_Number"; "Job_Name"; "Customer_ID"; "Customer_Name";
      "Job_Created_Date"; "ECD_Estimated_Completion_Date"; "Invoice_Date";
      "Invoice_ECD_Due_Date"; "Job_Project_Value"; "Invoice_Total";
      "Business_Category"; "Job_Status"; "Payment_Status";
      "Has_Related_Invoices"; "Invoice_Count"; "Invoice_Match_Method" ]%string.

Definition cell_str (s : option string) : cell :=
  match s with Some x => Str x | None => Blank end.
Definition cell_int (n : option Z) : cell :=
  match n with Some x => Int x | None => Blank end.
Definition cell_num (q : option Q) : cell :=
  match q with Some x => Num x | None => Blank end.

Definition powerbi_row (r : summary) : row :=
  [ cell_int (Job_ID r); cell_str (Job_Number r); cell_str (Job_Name r);
    cell_int (Customer_ID r); cell_str (Customer_Name r);
    cell_str (Job_Created_Date r); cell_str (ECD_Estimated_Completion_Date r);
    cell_str (Invoice_Date r); cell_str (Invoice_ECD_Due_Date r);
    cell_num (Job_Project_Value r); cell_num (Invoice_Total r);
    cell_str (Business_Category r); cell_str (Job_Status r);
    cell_str (Payment_Status r); Boolean (Has_Related_Invoices r);
    Int (Z.of_nat (Invoice_Count r)); Str (Invoice_Match_Method r) ].

(** A raw record as a row, on the keys of [obj].  [pd.DataFrame(data)
    .to_excel] writes one column per key that the records carry, in the
    order the keys are met; the model has a column for each of the fourteen
    keys the script reads.  Of a raw sheet only the number of rows is
    stated. *)
Definition raw_header : row :=
  map Str
    [ "id"; "number"; "description"; "customer_id"; "customer_name"; "customer";
      "total"; "created_at"; "date"; "start_date"; "end_date"; "category";
      "status"; "payment_status" ]%string.

Definition raw_row (o : obj) : row :=
  [ cell_int (get (id o)); cell_str (get (number o)); cell_str (get (description o));
    cell_int (get (customer_id o)); cell_str (get (customer_name o));
    cell_str (get (customer o)); cell_num (get (total o));
    cell_str (get (created_at o)); cell_str (get (date o));
    cell_str (get (start_date o)); cell_str (get (end_date o));
    cell_str (get (category o)); cell_str (get (status o));
    cell_str (get (payment_status o)) ].

(** [datetime.now().strftime('%Y-%m-%d %H:%M:%S')] and [today.year]: the
    wall clock, read once for the run. *)
Variable now : datetime.

Definition now_stamp : string :=
  (strftime_date now ++ " " ++ Text.two_digits (dt_hour now) ++ ":"
     ++ Text.two_digits (dt_minute now) ++ ":" ++ Text.two_digits (dt_second now))%string.

Definition endpoints_of (data : all_data) : list (endpoint * list obj) :=
  [ (customers, d_customers data); (jobs, d_jobs data);
    (estimates, d_estimates data); (invoices, d_invoices data) ].

Definition save_to_excel (data : all_data) : workbook :=
  let powerbi_df := create_powerbi_summary data in
  let data' := snd (jobs_of data) in
  let wb := create_sheet [] "PowerBI_Summary" None
              (powerbi_header :: map powerbi_row powerbi_df) in
  let wb := create_sheet wb "Extraction_Summary" None
              ([Str "Endpoint"; Str "Record Count"; Str "Extracted At"] ::
               map (fun e : endpoint * list obj =>
                      [Str (endpoint_name (fst e)); Int (Z.of_nat (length (snd e)));
                       Stamp now_stamp])
                   (endpoints_of data')) in
  fold_left (fun wb (e : endpoint * list obj) =>
      match snd e with
      | [] => wb
      | _ => create_sheet wb (Text.take 31 (endpoint_name (fst e))) None
               (raw_header :: map raw_row (snd e))
      end)
    (endpoints_of data') wb.

(** *** main *)
Definition main (SF_CLIENT_ID SF_CLIENT_SECRET DATE_RANGE : option string) (api : Api)
    : run :=
  if negb (truthy SF_CLIENT_ID) || negb (truthy SF_CLIENT_SECRET) then mkRun 1 []
  else
    let date_range := match DATE_RANGE with Some r => r | None => "Year to Date"%string end in
    let data := extract_all_data (Calendar.year (dt_date now)) api date_range in
    let filename :=
      ("ServiceFusion_YTD_" ++ Text.four_digits (Calendar.year (dt_date now))
         ++ Text.two_digits (Calendar.month (dt_date now))
         ++ Text.two_digits (Calendar.day (dt_date now)) ++ ".xlsx")%string in
    mkRun 0 [(filename, save_to_excel data)].
End Summary.

End ServiceFusion.


(** ** kimai_payroll_engineering.py: dates and the base URL *)

Module KimaiDates.

(** [date.weekday()]: Monday is 0 and Sunday is 6. *)
Definition weekday (d : Calendar.date) : Z := (Calendar.toordinal d + 6) mod 7.

(** [d1 < d2] on dates: year, then month, then day. *)
Definition date_ltb (d1 d2 : Calendar.date) : bool :=
  (Calendar.year d1 <? Calendar.year d2) ||
  ((Calendar.year d1 =? Calendar.year d2) &&
   ((Calendar.month d1 <? Calendar.month d2) ||
    ((Calendar.month d1 =? Calendar.month d2) && (Calendar.day d1 <? Calendar.day d2)))).

(** [d + timedelta(days=n)] on dates, for a sum that stays in the calendar. *)
Definition plus_days (d : Calendar.date) (n : Z) : Calendar.date :=
  Calendar.fromordinal (Calendar.toordinal d + n).

(** [(d1 - d2).days] *)
Definition days_between (d1 d2 : Calendar.date) : Z :=
  Calendar.toordinal d1 - Calendar.toordinal d2.

(** The first Sunday of the year of [date], as [calculate_week_number]
    finds it. *)
Definition first_sunday (date : Calendar.date) : Calendar.date :=
  let jan_1 := Calendar.mkDate (Calendar.year date) 1 1 in
  let days_to_first_sunday := (6 - weekday jan_1) mod 7 in
  let days_to_first_sunday := if weekday jan_1 =? 6 then 0 else days_to_first_sunday in
  plus_days jan_1 days_to_first_sunday.

(** Calculate week number (Sunday-based weeks). *)
Definition calculate_week_number (date : Calendar.date) : Z :=
  if date_ltb date (first_sunday date) then 1
  else
    let days_since_first_sunday := days_between date (first_sunday date) in
    days_since_first_sunday / 7 + 1.

(** A wall-clock reading. *)
Record datetime := mkDatetime {
  dt_date : Calendar.date;
  dt_hour : Z; dt_minute : Z; dt_second : Z; dt_microsecond : Z
}.

(** Calculate YTD date range: from the first instant of the year to the
    last microsecond of today. *)
Definition calculate_ytd_dates (today : datetime) : datetime * datetime :=
  (mkDatetime (Calendar.mkDate (Calendar.year (dt_date today)) 1 1) 0 0 0 0,
   mkDatetime (dt_date today) 23 59 59 999999).

(** [s.rstrip('/')] *)
Fixpoint rstrip_slash (s : string) : string :=
  match s with
  | EmptyString => EmptyString
  | String c s' =>
      match rstrip_slash s' with
      | EmptyString => if Ascii.eqb c "/" then EmptyString else String c EmptyString
      | r => String c r
      end
  end.

(** The URLs of [fetch_api_data], from the [base_url] given to
    [KimaiExtractor]. *)
Definition endpoint_url (base_url path : string) : string :=
  (rstrip_slash base_url ++ path)%string.

End KimaiDates.

(** ** project-dashboard-ytd.py: authenticate *)

Module ServiceFusionAuth.

(** The value of [expires_in] in the token response, as JSON gives it: a
    number (a float is kept as the exact rational), a boolean, a string, or
    anything else ([null], a list, an object). *)
Inductive scalar : Type :=
| SInt (n : Z)
| SFloat (q : Q)
| SBool (b : bool)
| SStr (s : string)
| SOther.

(** The decoded body of the token response when it is an object; the token
    is taken to be a string or [null]. *)
Record token_data := mkToken {
  access_token_field : ServiceFusion.field string;
  expires_in_field : ServiceFusion.field scalar
}.

(** What the extractor keeps between calls: the token, when it expires (in
    microseconds since 0001-01-01T00:00:00, on the clock of
    [datetime.now()]), and the [Authorization] header of the session. *)
Record session := mkSession {
  access_token : option string;
  token_expires_at : option Z;
  authorization : option string
}.

(** [ServiceFusionExtractor.__init__]. *)
Definition new_session : session := mkSession None None None.

(** The outcome of a call: the boolean returned, the state left, and whether
    the credential exchange was sent. *)
Record outcome := mkOutcome {
  ok : bool;
  after : session;
  posted : bool
}.

(** [datetime.max], in microseconds since [datetime.min]. *)
Definition DATETIME_MAX : Z := Calendar.MAXORDINAL * 86400 * 1000000 - 1.

(** [f'Bearer {self.access_token}'] *)
Definition bearer (tok : option string) : string :=
  ("Bearer " ++ match tok with Some t => t | None => "None" end)%string.

Section Authenticate.
(** [int(s)] on a string; [None] for [ValueError]. *)
Variable int_of_string : string -> option Z.

(** [expires_in = token_data.get('expires_in', 3600)] followed by
    [int(expires_in)], 3600 on [ValueError] or [TypeError]. *)
Definition expiry_seconds (f : ServiceFusion.field scalar) : Z :=
  match f with
  | ServiceFusion.Absent => 3600
  | ServiceFusion.Null => 3600
  | ServiceFusion.Value (SInt n) => n
  | ServiceFusion.Value (SFloat q) => if Qle_bool 0 q then Qfloor q else Qceiling q
  | ServiceFusion.Value (SBool b) => if b then 1 else 0
  | ServiceFusion.Value (SStr s) =>
      match int_of_string s with Some n => n | None => 3600 end
  | ServiceFusion.Value SOther => 3600
  end.

(** [authenticate]: [now] is the clock read by the test of the cached token,
    [now'] the clock read after the answer, [post] the answer the server
    gives to the credential exchange.  A body that is not an object, or has
    no [access_token] key, makes the method raise and return [False]; so
    does an expiry outside the range of [datetime], after the token has
    been stored. *)
Definition authenticate (now now' : Z) (post : Http.result (option token_data))
    (s : session) : outcome :=
  let cached :=
    ServiceFusion.truthy (access_token s) &&
    match token_expires_at s with
    | Some e => now <? e
    | None => false
    end in
  if cached then mkOutcome true s false
  else
    match post with
    | Http.Raised => mkOutcome false s true
    | Http.Response code data =>
        if code =? 200 then
          match data with
          | None => mkOutcome false s true
          | Some token =>
              match access_token_field token with
              | ServiceFusion.Absent => mkOutcome false s true
              | f =>
                  let tok := ServiceFusion.get f in
                  let expires_at :=
                    now' + 1000000 * expiry_seconds (expires_in_field token) in
                  if (0 <=? expires_at) && (expires_at <=? DATETIME_MAX)
                  then mkOutcome true
                         (mkSession tok (Some expires_at) (Some (bearer tok))) true
                  else mkOutcome false
                         (mkSession tok (token_expires_at s) (authorization s)) true
              end
          end
        else mkOutcome false s true
    end.
End Authenticate.

End ServiceFusionAuth.

(** ** Vocabulary of the statements *)

Module Claims.

(** The consecutive pairs of a list. *)
Fixpoint adjacent {A : Type} (l : list A) : list (A * A) :=
  match l with
  | x :: ((y :: _) as l') => (x, y) :: adjacent l'
  | _ => []
  end.

Section Breaks.
Variable utc_offset : Z -> Z.

(** The gap, in seconds, between the end of the first entry of a pair and
    the start of the second. *)
Definition gap (p : Kimai.entry * Kimai.entry) : Z :=
  Kimai.e_begin (snd p) - Kimai.e_end (fst p).

Definition accepted (p : Kimai.entry * Kimai.entry) : bool :=
  Kimai.valid_break utc_offset (Kimai.e_end (fst p)) (Kimai.e_begin (snd p)).

Definition break_of (p : Kimai.entry * Kimai.entry) : Kimai.break_detail :=
  Kimai.make_break utc_offset (Kimai.e_end (fst p)) (Kimai.e_begin (snd p)).

(** The accepted gaps of a group, in order. *)
Definition accepted_pairs (rows : list Kimai.entry) : list (Kimai.entry * Kimai.entry) :=
  filter accepted (adjacent (Kimai.sort_values_begin rows)).

Definition sum_Z (l : list Z) : Z := fold_right Z.add 0 l.
End Breaks.

(** *** Pagination *)

(** Kimai: a page that lets the loop go on, status 200 with a non-empty
    list. *)
Definition full_page {R : Type} (get : Z -> Http.result (Kimai.json R)) (p : Z) : bool :=
  match get p with
  | Http.Response code (Kimai.JList (_ :: _)) => code =? 200
  | _ => false
  end.

Definition page_rows {R : Type} (get : Z -> Http.result (Kimai.json R)) (p : Z) : list R :=
  match get p with
  | Http.Response _ (Kimai.JList l) => l
  | _ => []
  end.

(** The [n] page numbers from [first] on. *)
Definition pages_from (first : Z) (n : nat) : list Z :=
  map (fun i => first + Z.of_nat i) (seq 0 n).

(** The pagination loop is still running after any number of turns. *)
Definition never_returns {R : Type} (get : Z -> Http.result (Kimai.json R)) : Prop :=
  forall fuel : nat, Kimai.fetch_paginated fuel get = None.

(** Service Fusion: the request the loop sends first for a page. *)
Definition sorted_request (p : Z) : ServiceFusion.request :=
  ServiceFusion.mkRequest true (if 1 <? p then Some p else None).

(** What bounds the loop: the page number, which each turn raises and the
    page limit stops at 501. *)
Definition within_limits (st : ServiceFusion.extract_state) : Prop :=
  1 <= ServiceFusion.page st /\
  Z.of_nat (length (ServiceFusion.requests st))
    + (if ServiceFusion.page st =? 1 then 1 else 0) <= ServiceFusion.page st.

(** *** Reports *)

(** A loop over a Python set visits each element once, in an order the
    language does not fix. *)
Definition set_iteration (set_iter : list string -> list string) : Prop :=
  forall l, Permutation (set_iter l) l.

(** The sheet the customer loop adds for one customer. *)
Definition customer_sheet (grouped : list (string * string * Q))
    (df_ytd : list Kimai.mapped) (customer : string) : Xlsx.sheet :=
  (Text.take 31 customer,
   if existsb (String.eqb customer)
        (Py.unique String.eqb (map (fun r => fst (fst r)) grouped))
   then Kimai.customer_data_rows grouped df_ytd customer
   else [Kimai.customer_header; Kimai.placeholder_row]).

(** The customers that get a sheet: the roster without "General Admin". *)
Definition reported_customers : list string :=
  filter (fun c => negb (String.eqb c "General Admin")) Kimai.EXPECTED_CUSTOMERS.

(** The sheet [save_to_excel] writes for the raw records of an endpoint. *)
Definition raw_sheet (e : ServiceFusion.endpoint * list ServiceFusion.obj)
    : list Xlsx.sheet :=
  match snd e with
  | [] => []
  | _ => [(Text.take 31 (ServiceFusion.endpoint_name (fst e)),
           ServiceFusion.raw_header :: map ServiceFusion.raw_row (snd e))]
  end.

(** *** Two runs *)

(** Two workbooks hold the same values: with the wall-clock strings taken
    out they have the same sheets, up to the order of the sheets, and a
    title leads to the same sheet in both. *)
Definition same_values (wb1 wb2 : Xlsx.workbook) : Prop :=
  Permutation (Xlsx.erase_stamps wb1) (Xlsx.erase_stamps wb2) /\
  forall title : string,
    Xlsx.find_sheet (Xlsx.erase_stamps wb1) title
    = Xlsx.find_sheet (Xlsx.erase_stamps wb2) title.

(** Two runs end alike: both still running, or both ended with the same
    exit code and files holding the same values, file by file. *)
Definition same_outcome (r1 r2 : option Xlsx.run) : Prop :=
  match r1, r2 with
  | Some a, Some b =>
      Xlsx.exit_code a = Xlsx.exit_code b /\
      Forall2 (fun f1 f2 : string * Xlsx.workbook => same_values (snd f1) (snd f2))
              (Xlsx.files a) (Xlsx.files b)
  | None, None => True
  | _, _ => False
  end.

End Claims.

(** ** Further vocabulary *)

Module Terms.

(** The string of [n] slashes. *)
Fixpoint slashes (n : nat) : string :=
  match n with
  | O => EmptyString
  | S n' => String "/" (slashes n')
  end.

(** [s] ends with the character [c]. *)
Fixpoint ends_with (c : ascii) (s : string) : bool :=
  match s with
  | EmptyString => false
  | String a EmptyString => Ascii.eqb a c
  | String _ s' => ends_with c s'
  end.

(** The last element of [l] that satisfies [p]. *)
Definition last_with {A : Type} (p : A -> bool) (l : list A) : option A :=
  find p (rev l).

(** The timesheet rows of one user on one local day that have both a begin
    and an end. *)
Definition entries_of (utc_offset : Z -> Z) (raw : list Kimai.timesheet)
    (user_id : string) (date : Z) : list Kimai.entry :=
  filter (fun e => String.eqb (Kimai.e_user e) user_id
                   && (Kimai.date_only utc_offset (Kimai.e_begin e) =? date))
         (Kimai.dropna_entries raw).

(** The key of a break record: the user and the local day. *)
Definition break_key (r : Kimai.break_record) : string * Z :=
  (Kimai.br_user_id r, Kimai.br_date r).

(** The records of a page that the extraction keeps: all of them, or for
    the year-to-date and month-to-date ranges those not counted as old. *)
Definition page_kept (year : Z) (date_range : string) (data : ServiceFusion.body)
    : list ServiceFusion.obj :=
  match data with
  | ServiceFusion.Envelope records _ _ =>
      if ServiceFusion.is_windowed date_range
      then filter (fun r => negb (ServiceFusion.is_old year r)) records
      else records
  | ServiceFusion.NotAnObject => []
  end.

(** A record was among the items of a page that the server answered with
    status 200. *)
Definition served (get_page : ServiceFusion.request -> Http.result ServiceFusion.body)
    (r : ServiceFusion.obj) : Prop :=
  exists req items cur pc,
    get_page req = Http.Response 200 (ServiceFusion.Envelope items cur pc) /\
    In r items.

(** Every record of [l] was served, and for the windowed ranges none counts
    as old. *)
Definition records_ok (year : Z)
    (get_page : ServiceFusion.request -> Http.result ServiceFusion.body)
    (date_range : string) (l : list ServiceFusion.obj) : Prop :=
  forall r, In r l ->
    served get_page r /\
    (ServiceFusion.is_windowed date_range = true -> ServiceFusion.is_old year r = false).

(** The invoice names the customer [n], by a non-empty [customer]. *)
Definition names_customer (n : string) (inv : ServiceFusion.obj) : bool :=
  match ServiceFusion.customer inv with
  | ServiceFusion.Value (String a c) => String.eqb (String a c) n
  | _ => false
  end.

(** The records held for an endpoint. *)
Definition records_of (e : ServiceFusion.endpoint) (data : ServiceFusion.all_data)
    : list ServiceFusion.obj :=
  match e with
  | ServiceFusion.customers => ServiceFusion.d_customers data
  | ServiceFusion.jobs => ServiceFusion.d_jobs data
  | ServiceFusion.estimates => ServiceFusion.d_estimates data
  | ServiceFusion.invoices => ServiceFusion.d_invoices data
  end.

(** The sum of the values filed under the key [k] in a keyed list. *)
Definition group_sum {K : Type} (eqb : K -> K -> bool) (keyed : list (K * Q)) (k : K) : Q :=
  Py.Qsum (map snd (filter (fun kv => eqb (fst kv) k) keyed)).

(** A wall-clock reading as microseconds since 0001-01-01T00:00:00, and
    what makes its time of day well formed. *)
Definition instant (dt : KimaiDates.datetime) : Z :=
  ((((Calendar.toordinal (KimaiDates.dt_date dt) - 1) * 24 + KimaiDates.dt_hour dt) * 60
    + KimaiDates.dt_minute dt) * 60 + KimaiDates.dt_second dt) * 1000000
  + KimaiDates.dt_microsecond dt.

Definition valid_datetime (dt : KimaiDates.datetime) : Prop :=
  Calendar.valid_date (KimaiDates.dt_date dt) = true /\
  0 <= KimaiDates.dt_hour dt < 24 /\
  0 <= KimaiDates.dt_minute dt < 60 /\
  0 <= KimaiDates.dt_second dt < 60 /\
  0 <= KimaiDates.dt_microsecond dt < 1000000.

(** The row of the Employee Summary for a group. *)
Definition employee_row (today : Calendar.date) (g : string * string * Q) : Xlsx.row :=
  [Xlsx.Str (fst (fst g)); Xlsx.Str (snd (fst g)); Xlsx.Num (Py.round (snd g) 2);
   Xlsx.Stamp (Kimai.now_mdY today)].

(** [group] is [rows] put in order of begin.  Entries that begin at the same
    instant may come in any order: which one a sort yields depends on the
    sorting algorithm. *)
Definition ordered_by_begin (rows group : list Kimai.entry) : Prop :=
  Permutation group rows /\
  Sorted (fun a b => Kimai.e_begin a <= Kimai.e_begin b) group.

(** [q] is [x] rounded to a multiple of [1/unit]: such a multiple, at most
    half a unit away from [x].  At a tie both neighbours qualify. *)
Definition rounded_to (unit : positive) (x q : Q) : Prop :=
  (exists z : Z, q = Qmake z unit) /\
  (Qabs (q - x) <= Qmake 1 (2 * unit))%Q.

(** [q] is a multiple of [1/unit] at most one unit away from [x]: what
    is left of a rounding when the quotient that is rounded is itself
    computed in floating point. *)
Definition near_to (unit : positive) (x q : Q) : Prop :=
  (exists z : Z, q = Qmake z unit) /\ (Qabs (q - x) <= Qmake 1 unit)%Q.

(** [b] is the break recorded for the pair [p] of consecutive entries: from
    the end of the first to the begin of the second, with the gap printed in
    hours to 2 places and in minutes to 1 place. *)
Definition break_for (utc_offset : Z -> Z) (p : Kimai.entry * Kimai.entry)
    (b : Kimai.break_detail) : Prop :=
  Kimai.break_start b = Kimai.strftime_HMS utc_offset (Kimai.e_end (fst p)) /\
  Kimai.break_end b = Kimai.strftime_HMS utc_offset (Kimai.e_begin (snd p)) /\
  rounded_to 100 (inject_Z (Claims.gap p) / 3600) (Kimai.break_duration_hours b) /\
  rounded_to 10 (inject_Z (Claims.gap p) / 60) (Kimai.break_duration_minutes b).

End Terms.

(** ** Sample inputs *)

Definition sample_offset (_ : Z) : Z := -18000.

Definition sample_breaks_raw : list Kimai.timesheet :=
  [ Kimai.mkTimesheet 1 1 7 (Some 1709564400) (Some 1709568000) (Some 3600);
    Kimai.mkTimesheet 1 1 7 (Some 1709568600) (Some 1709571600) (Some 3000) ].


Definition sample_timesheet : Kimai.timesheet :=
  Kimai.mkTimesheet 1 1 7 (Some 1709564400) (Some 1709568000) (Some 3600).

(** A timesheet endpoint that answers every page with one more record. *)
Definition endless_timesheets (_ : Z) : Http.result (Kimai.json Kimai.timesheet) :=
  Http.Response 200 (Kimai.JList [sample_timesheet]).

(** A timesheet endpoint with two pages of records, then a server error. *)
Definition failing_timesheets (p : Z) : Http.result (Kimai.json Kimai.timesheet) :=
  if p <=? 2 then Http.Response 200 (Kimai.JList [sample_timesheet])
  else Http.Response 500 Kimai.JOther.

Definition sample_job : ServiceFusion.obj :=
  ServiceFusion.mkObj (ServiceFusion.Value 1) ServiceFusion.Absent ServiceFusion.Absent
    ServiceFusion.Absent (ServiceFusion.Value "acme"%string) ServiceFusion.Absent
    (ServiceFusion.Value 100%Q) (ServiceFusion.Value "2024-06-01T09:00:00+00:00"%string)
    ServiceFusion.Absent ServiceFusion.Absent ServiceFusion.Absent ServiceFusion.Absent
    ServiceFusion.Absent ServiceFusion.Absent.

(** A Service Fusion API that refuses the sorted request with a 500 and
    answers the plain one. *)
Definition retry_api : ServiceFusion.Api :=
  ServiceFusion.mkApi true
    (fun _ req =>
       if ServiceFusion.sorted_desc req then Http.Response 500 ServiceFusion.NotAnObject
       else Http.Response 200 (ServiceFusion.Envelope [sample_job] (Some 1) (Some 1))).

Definition sample_invoice (t : Q) (d : string) : ServiceFusion.obj :=
  ServiceFusion.mkObj ServiceFusion.Absent ServiceFusion.Absent ServiceFusion.Absent
    ServiceFusion.Absent ServiceFusion.Absent (ServiceFusion.Value "acme"%string)
    (ServiceFusion.Value t) ServiceFusion.Absent (ServiceFusion.Value d)
    ServiceFusion.Absent ServiceFusion.Absent ServiceFusion.Absent ServiceFusion.Absent
    ServiceFusion.Absent.

(** An invoice whose [date] is [null]. *)
Definition undated_invoice (t : Q) : ServiceFusion.obj :=
  ServiceFusion.mkObj ServiceFusion.Absent ServiceFusion.Absent ServiceFusion.Absent
    ServiceFusion.Absent ServiceFusion.Absent (ServiceFusion.Value "acme"%string)
    (ServiceFusion.Value t) ServiceFusion.Absent ServiceFusion.Null
    ServiceFusion.Absent ServiceFusion.Absent ServiceFusion.Absent ServiceFusion.Absent
    ServiceFusion.Absent.

(** An invoice that has no [date] key. *)
Definition dateless_invoice (t : Q) : ServiceFusion.obj :=
  ServiceFusion.mkObj ServiceFusion.Absent ServiceFusion.Absent ServiceFusion.Absent
    ServiceFusion.Absent ServiceFusion.Absent (ServiceFusion.Value "acme"%string)
    (ServiceFusion.Value t) ServiceFusion.Absent ServiceFusion.Absent
    ServiceFusion.Absent ServiceFusion.Absent ServiceFusion.Absent ServiceFusion.Absent
    ServiceFusion.Absent.

Definition sample_job_with_total (t : Q) : ServiceFusion.obj :=
  ServiceFusion.mkObj (ServiceFusion.Value 2) ServiceFusion.Absent ServiceFusion.Absent
    ServiceFusion.Absent (ServiceFusion.Value "acme"%string) ServiceFusion.Absent
    (ServiceFusion.Value t) ServiceFusion.Absent ServiceFusion.Absent ServiceFusion.Absent
    ServiceFusion.Absent ServiceFusion.Absent ServiceFusion.Absent ServiceFusion.Absent.

Definition sample_today : Calendar.date := Calendar.mkDate 2024 3 5.

(** Processed timesheet rows: one for TECO, one for General Admin, and one
    for TECO whose user id was not among the users. *)
Definition sample_mapped : list Kimai.mapped :=
  [ Kimai.mkMapped (Some "dev") (Some "grid") (Some "ann") (Some "TECO") (Some 19786)
      (Some 1.5%Q);
    Kimai.mkMapped (Some "admin") (Some "office") (Some "ann") (Some "General Admin")
      (Some 19786) (Some 2%Q);
    Kimai.mkMapped (Some "dev") (Some "grid") None (Some "TECO") (Some 19786)
      (Some 1%Q) ]%string.

(** What the Kimai API returned when the timesheet of user 8 has no entry
    among the users: one hour on project 1 of customer TECO. *)
Definition frames_with_unknown_user : Kimai.dataframes :=
  Kimai.mkFrames
    (Some [Kimai.mkTimesheet 1 1 8 (Some 1709564400) (Some 1709568000) (Some 3600)])
    (Some [Kimai.mkActivity 1 (Some "dev"%string)])
    (Some [Kimai.mkProject 1 (Some "grid"%string) (Some "TECO"%string)])
    (Some [Kimai.mkUser 7 (Some "ann"%string)]).

(** A Kimai API with no timesheet at all and all three lookups answered. *)
Definition api_without_timesheets : Kimai.Api :=
  Kimai.mkApi (fun _ => Http.Response 200 (Kimai.JList []))
    (Http.Response 200 (Kimai.JList [Kimai.mkActivity 1 (Some "dev"%string)]))
    (Http.Response 200 (Kimai.JList
       [Kimai.mkProject 1 (Some "grid"%string) (Some "TECO"%string)]))
    (Http.Response 200 (Kimai.JList [Kimai.mkUser 7 (Some "ann"%string)])).

(** A Service Fusion API with one job, created in 2024, on every endpoint's
    only page. *)
Definition one_job_api : ServiceFusion.Api :=
  ServiceFusion.mkApi true
    (fun e _ =>
       match e with
       | ServiceFusion.jobs =>
           Http.Response 200 (ServiceFusion.Envelope [sample_job] (Some 1) (Some 1))
       | _ => Http.Response 200 (ServiceFusion.Envelope [] (Some 1) (Some 1))
       end).

Definition no_isoformat (_ : string) : option ServiceFusion.datetime := None.

Definition last_day_of_2024 : ServiceFusion.datetime :=
  ServiceFusion.mkDatetime (Calendar.mkDate 2024 12 31) 23 0 0.

Definition first_day_of_2025 : ServiceFusion.datetime :=
  ServiceFusion.mkDatetime (Calendar.mkDate 2025 1 1) 1 0 0.

(** ** Further sample inputs *)

(** [int] on the strings used below. *)
Definition sample_int (s : string) : option Z :=
  if String.eqb s "7200" then Some 7200 else None.

(** A token answer: status 200, a token, and an expiry of one second. *)
Definition sample_token_response : Http.result (option ServiceFusionAuth.token_data) :=
  Http.Response 200
    (Some (ServiceFusionAuth.mkToken (ServiceFusion.Value "abc"%string)
             (ServiceFusion.Value (ServiceFusionAuth.SInt 1)))).

(** A Service Fusion API that refuses the credentials. *)
Definition unauthorized_api : ServiceFusion.Api :=
  ServiceFusion.mkApi false
    (fun _ _ => Http.Response 200 (ServiceFusion.Envelope [sample_job] (Some 1) (Some 1))).

Definition sample_now : ServiceFusion.datetime :=
  ServiceFusion.mkDatetime (Calendar.mkDate 2024 3 5) 12 0 0.

(** [fromisoformat] on the one string the sample needs: 10:30 on
    2024-02-20, at UTC. *)
Definition sample_isoformat (s : string) : option ServiceFusion.datetime :=
  if String.eqb s "2024-02-20T10:30:00+00:00"
  then Some (ServiceFusion.mkDatetime (Calendar.mkDate 2024 2 20) 10 30 0)
  else None.


(** * Properties *)

(** ** Sorting and rounding *)

Section SortFacts.
Context {A : Type} (leb : A -> A -> bool).

Lemma insert_sorted_perm (x : A) (l : list A) :
  Permutation (Py.insert_sorted leb x l) (x :: l).
Proof.
  induction l as [| y l IH]; simpl.
  - apply Permutation_refl.
  - destruct (leb x y).
    + apply Permutation_refl.
    + eapply perm_trans; [apply perm_skip, IH | apply perm_swap].
Qed.

Lemma stable_sort_perm (l : list A) : Permutation (Py.stable_sort leb l) l.
Proof.
  induction l as [| x l IH]; simpl.
  - constructor.
  - eapply perm_trans; [apply insert_sorted_perm | now apply perm_skip].
Qed.

Lemma stable_sort_length (l : list A) : length (Py.stable_sort leb l) = length l.
Proof. apply Permutation_length, stable_sort_perm. Qed.

Hypothesis leb_total : forall a b, leb a b = true \/ leb b a = true.

Lemma insert_sorted_sorted (x : A) (l : list A) :
  Sorted (fun a b => leb a b = true) l ->
  Sorted (fun a b => leb a b = true) (Py.insert_sorted leb x l).
Proof.
  induction 1 as [| y l Hs IH Hhd]; simpl.
  - repeat constructor.
  - destruct (leb x y) eqn:E.
    + constructor; [now constructor | now constructor].
    + constructor; [exact IH |].
      assert (Hyx : leb y x = true) by (destruct (leb_total x y); congruence).
      destruct l as [| z l]; simpl.
      * now constructor.
      * destruct (leb x z); constructor; [exact Hyx | now inversion Hhd].
Qed.

Lemma stable_sort_sorted (l : list A) :
  Sorted (fun a b => leb a b = true) (Py.stable_sort leb l).
Proof.
  induction l as [| x l IH]; simpl.
  - constructor.
  - now apply insert_sorted_sorted.
Qed.
End SortFacts.

Lemma unique_acc_incl {A : Type} (eqb : A -> A -> bool) (l seen : list A) (x : A) :
  In x (Py.unique_acc eqb seen l) -> In x l.
Proof.
  revert seen. induction l as [| y l IH]; intros seen; cbn [Py.unique_acc]; [auto |].
  destruct (existsb (eqb y) seen).
  - intros H. right. eapply IH; eassumption.
  - intros [<- | H]; [now left | right; eapply IH; eassumption].
Qed.

Lemma unique_incl {A : Type} (eqb : A -> A -> bool) (l : list A) (x : A) :
  In x (Py.unique eqb l) -> In x l.
Proof. apply unique_acc_incl. Qed.

Lemma round_half_even_near (q : Q) :
  (Qabs (inject_Z (Py.round_half_even q) - q) <= 1 # 2)%Q.
Proof.
  unfold Py.round_half_even.
  set (f := Qfloor q).
  pose proof (Qfloor_le q) as Hlo. pose proof (Qlt_floor q) as Hhi. fold f in Hlo, Hhi.
  set (d := (2 * q - inject_Z (2 * f))%Q).
  pose proof (Qfloor_le d) as Dlo. pose proof (Qlt_floor d) as Dhi.
  rewrite inject_Z_plus in Hhi, Dhi.
  change (inject_Z 1) with 1%Q in *.
  assert (E2 : (inject_Z (2 * f) == 2 * inject_Z f)%Q) by (rewrite inject_Z_mult; reflexivity).
  apply Qabs_Qle_condition.
  destruct (Z.eqb_spec (Qfloor d) 0) as [Hz | Hz].
  - rewrite Hz in Dhi. change (inject_Z 0) with 0%Q in Dhi.
    unfold d in Dhi. rewrite E2 in Dhi. clearbody f.
    split; lra.
  - assert (Hd1 : (1 <= d)%Q).
    { assert (H0 : 0 <= Qfloor d).
      { change 0 with (Qfloor 0). apply Qfloor_resp_le. unfold d. rewrite E2. lra. }
      assert (H1 : 1 <= Qfloor d) by lia.
      eapply Qle_trans; [| exact Dlo].
      change 1%Q with (inject_Z 1). now rewrite <- Zle_Qle. }
    unfold d in Hd1. rewrite E2 in Hd1. clear Dlo Dhi Hz. clearbody f.
    destruct (Qeq_bool (2 * q) (inject_Z (2 * f + 1))) eqn:Et.
    + apply Qeq_bool_eq in Et. rewrite inject_Z_plus, E2 in Et.
      change (inject_Z 1) with 1%Q in Et.
      destruct (Z.even f).
      * split; lra.
      * rewrite inject_Z_plus. change (inject_Z 1) with 1%Q. split; lra.
    + rewrite inject_Z_plus. change (inject_Z 1) with 1%Q. split; lra.
Qed.

Lemma round_near_2 (q : Q) : (Qabs (Py.round q 2 - q) <= 1 # 200)%Q.
Proof.
  unfold Py.round.
  change (Pos.pow 10 (Pos.of_nat 2)) with 100%positive.
  pose proof (round_half_even_near (q * inject_Z 100)) as H.
  set (z := Py.round_half_even (q * inject_Z 100)) in *.
  apply Qabs_Qle_condition in H. apply Qabs_Qle_condition.
  assert (E : (z # 100 == inject_Z z / 100)%Q) by apply Qmake_Qdiv.
  rewrite E. change (inject_Z 100) with 100%Q in H. clearbody z.
  unfold Qdiv. change (/ 100)%Q with (1 # 100)%Q.
  split; lra.
Qed.

Lemma round_near_1 (q : Q) : (Qabs (Py.round q 1 - q) <= 1 # 20)%Q.
Proof.
  unfold Py.round.
  change (Pos.pow 10 (Pos.of_nat 1)) with 10%positive.
  pose proof (round_half_even_near (q * inject_Z 10)) as H.
  set (z := Py.round_half_even (q * inject_Z 10)) in *.
  apply Qabs_Qle_condition in H. apply Qabs_Qle_condition.
  assert (E : (z # 10 == inject_Z z / 10)%Q) by apply Qmake_Qdiv.
  rewrite E. change (inject_Z 10) with 10%Q in H. clearbody z.
  unfold Qdiv. change (/ 10)%Q with (1 # 10)%Q.
  split; lra.
Qed.

(** Rounding to 2 and to 1 places gives the multiple of 0.01 or of 0.1 that
    is nearest, or one of the two nearest. *)
Lemma rounded_2 (q : Q) : Terms.rounded_to 100 q (Py.round q 2).
Proof.
  split; [| apply round_near_2].
  unfold Py.round. change (Pos.pow 10 (Pos.of_nat 2)) with 100%positive.
  eexists. reflexivity.
Qed.

Lemma rounded_1 (q : Q) : Terms.rounded_to 10 q (Py.round q 1).
Proof.
  split; [| apply round_near_1].
  unfold Py.round. change (Pos.pow 10 (Pos.of_nat 1)) with 10%positive.
  eexists. reflexivity.
Qed.

Lemma rounded_near (unit : positive) (x q : Q) :
  Terms.rounded_to unit x q -> Terms.near_to unit x q.
Proof.
  intros [Hz Hq]. split; [exact Hz |].
  eapply Qle_trans; [exact Hq |].
  unfold Qle. cbn [Qnum Qden]. lia.
Qed.

Lemma Forall2_map_right {A B : Type} (P : A -> B -> Prop) (f : A -> B) (l : list A) :
  (forall x, In x l -> P x (f x)) -> Forall2 P l (map f l).
Proof.
  induction l as [| x l IH]; intros H; cbn [map]; constructor.
  - apply H. now left.
  - apply IH. intros y Hy. apply H. now right.
Qed.


(** ** The calendar *)

Lemma shiftr5 n : Z.shiftr n 5 = n / 32.
Proof. rewrite Z.shiftr_div_pow2 by lia. reflexivity. Qed.

Lemma days_before_year_decomp n400 n100 n4 n1 :
  0 <= n100 <= 3 -> 0 <= n4 <= 24 -> 0 <= n1 <= 3 ->
  Calendar.days_before_year (n400 * 400 + 1 + n100 * 100 + n4 * 4 + n1)
  = n400 * 146097 + n100 * 36524 + n4 * 1461 + n1 * 365.
Proof.
  intros. unfold Calendar.days_before_year.
  replace (n400 * 400 + 1 + n100 * 100 + n4 * 4 + n1 - 1) with
    (n400 * 400 + n100 * 100 + n4 * 4 + n1) by lia.
  assert ((n400 * 400 + n100 * 100 + n4 * 4 + n1) / 4 = n400*100 + n100*25 + n4).
  { symmetry. apply Z.div_unique with (r := n1); lia. }
  assert ((n400 * 400 + n100 * 100 + n4 * 4 + n1) / 100 = n400*4 + n100).
  { symmetry. apply Z.div_unique with (r := n4 * 4 + n1); lia. }
  assert ((n400 * 400 + n100 * 100 + n4 * 4 + n1) / 400 = n400).
  { symmetry. apply Z.div_unique with (r := n100 * 100 + n4 * 4 + n1); lia. }
  lia.
Qed.

Lemma is_leap_decomp n400 n100 n4 n1 :
  0 <= n100 <= 3 -> 0 <= n4 <= 24 -> 0 <= n1 <= 3 ->
  Calendar.is_leap (n400 * 400 + 1 + n100 * 100 + n4 * 4 + n1)
  = (n1 =? 3) && (negb (n4 =? 24) || (n100 =? 3)).
Proof.
  intros. unfold Calendar.is_leap.
  set (y := n400 * 400 + 1 + n100 * 100 + n4 * 4 + n1).
  assert (y mod 4 = (n1 + 1) mod 4).
  { unfold y. replace (n400 * 400 + 1 + n100 * 100 + n4 * 4 + n1) with ((n1 + 1) + (n400*100 + n100*25 + n4) * 4) by lia.
    apply Z.mod_add. lia. }
  assert (y mod 100 = (n4 * 4 + n1 + 1) mod 100).
  { unfold y. replace (n400 * 400 + 1 + n100 * 100 + n4 * 4 + n1) with ((n4 * 4 + n1 + 1) + (n400*4 + n100) * 100) by lia.
    apply Z.mod_add. lia. }
  assert (y mod 400 = (n100 * 100 + n4 * 4 + n1 + 1) mod 400).
  { unfold y. replace (n400 * 400 + 1 + n100 * 100 + n4 * 4 + n1) with ((n100 * 100 + n4 * 4 + n1 + 1) + (n400) * 400) by lia.
    apply Z.mod_add. lia. }
  rewrite H2, H3, H4.
  assert (n1 = 0 \/ n1 = 1 \/ n1 = 2 \/ n1 = 3) as [-> | [-> | [-> | ->]]] by lia;
    try reflexivity.
  simpl (3 =? 3). simpl (3 + 1). rewrite Z.mod_same by lia. simpl.
  destruct (Z.eqb_spec n4 24) as [-> | Hn4].
  - simpl. assert (n100 = 0 \/ n100 = 1 \/ n100 = 2 \/ n100 = 3) as [-> | [-> | [-> | ->]]] by lia; reflexivity.
  - simpl. rewrite Z.mod_small by lia.
    destruct (Z.eqb_spec (n4 * 4 + 3 + 1) 0); [lia | reflexivity].
Qed.

Lemma toordinal_fromordinal n : Calendar.toordinal (Calendar.fromordinal n) = n.
Proof.
  unfold Calendar.fromordinal, Calendar.DI400Y, Calendar.DI100Y, Calendar.DI4Y.
  set (a := n - 1).
  pose proof (Z.div_mod a 146097 ltac:(lia)) as E400.
  pose proof (Z.mod_pos_bound a 146097 ltac:(lia)) as B400.
  set (n400 := a / 146097) in *. set (r400 := a mod 146097) in *.
  pose proof (Z.div_mod r400 36524 ltac:(lia)) as E100.
  pose proof (Z.mod_pos_bound r400 36524 ltac:(lia)) as B100.
  set (n100 := r400 / 36524) in *. set (r100 := r400 mod 36524) in *.
  pose proof (Z.div_mod r100 1461 ltac:(lia)) as E4.
  pose proof (Z.mod_pos_bound r100 1461 ltac:(lia)) as B4.
  set (n4 := r100 / 1461) in *. set (r4 := r100 mod 1461) in *.
  pose proof (Z.div_mod r4 365 ltac:(lia)) as E1.
  pose proof (Z.mod_pos_bound r4 365 ltac:(lia)) as B1.
  set (n1 := r4 / 365) in *. set (r1 := r4 mod 365) in *.
  assert (0 <= n100 <= 4) by lia.
  assert (0 <= n4 <= 24) by lia.
  assert (0 <= n1 <= 4) by lia.
  destruct (Z.eqb_spec n1 4) as [Hn1 | Hn1]; simpl orb.
  - (* last day of a 4-year cycle *)
    unfold Calendar.toordinal; cbn [Calendar.year Calendar.month Calendar.day].
    replace (n400 * 400 + 1 + n100 * 100 + n4 * 4 + n1 - 1) with
        (n400 * 400 + 1 + n100 * 100 + n4 * 4 + 3) by lia.
    assert (n100 <= 3) by lia.
    rewrite days_before_year_decomp by lia.
    unfold Calendar.days_before_month. rewrite is_leap_decomp by lia.
    simpl (3 =? 3). simpl (2 <? 12).
    assert (r1 = 0) by lia.
    destruct (Z.eqb_spec n4 24); [lia|]. simpl. lia.
  - destruct (Z.eqb_spec n100 4) as [Hn100 | Hn100].
    + unfold Calendar.toordinal; cbn [Calendar.year Calendar.month Calendar.day].
      assert (r100 = 0) by lia.
      assert (n4 = 0 /\ r4 = 0) as [? ?] by lia.
      assert (n1 = 0 /\ r1 = 0) as [? ?] by lia.
      replace (n400 * 400 + 1 + n100 * 100 + n4 * 4 + n1 - 1) with
        (n400 * 400 + 1 + 3 * 100 + 24 * 4 + 3) by lia.
      rewrite days_before_year_decomp by lia.
      unfold Calendar.days_before_month. rewrite is_leap_decomp by lia. simpl. lia.
    + assert (n100 <= 3) by lia. assert (n1 <= 3) by lia.
      set (leap := (n1 =? 3) && (negb (n4 =? 24) || (n100 =? 3))).
      rewrite shiftr5.
      assert (Hr1 : 0 <= r1 < 365) by lia.
      pose proof (Z.div_mod (r1 + 50) 32 ltac:(lia)) as Em.
      pose proof (Z.mod_pos_bound (r1 + 50) 32 ltac:(lia)) as Bm.
      set (m := (r1 + 50) / 32) in *.
      assert (Hm : 1 <= m <= 12) by lia.
      assert (Hy : forall mm dd, Calendar.toordinal (Calendar.mkDate (n400 * 400 + 1 + n100 * 100 + n4 * 4 + n1) mm dd)
                 = n - 1 - r1 + Calendar.DAYS_BEFORE_MONTH mm + (if (2 <? mm) && leap then 1 else 0) + dd).
      { intros. unfold Calendar.toordinal, Calendar.days_before_month; cbn [Calendar.year Calendar.month Calendar.day].
        rewrite days_before_year_decomp by lia. rewrite is_leap_decomp by lia. fold leap. lia. }
      clearbody m.
      assert (Hcases : In m [1;2;3;4;5;6;7;8;9;10;11;12]) by (simpl; lia).
      destruct leap; simpl in Hcases;
      repeat (destruct Hcases as [<- | Hcases]); try contradiction;
      cbn [Calendar.DAYS_BEFORE_MONTH Calendar.days_in_month andb];
      match goal with |- context [?x <? ?y] => destruct (Z.ltb_spec x y) end;
      rewrite Hy; cbn; lia.
Qed.

Lemma days_before_year_nonneg (y : Z) : 1 <= y -> 0 <= Calendar.days_before_year y.
Proof.
  intros Hy. unfold Calendar.days_before_year. cbv zeta.
  pose proof (Z.div_mod (y - 1) 4 ltac:(lia)).
  pose proof (Z.mod_pos_bound (y - 1) 4 ltac:(lia)).
  pose proof (Z.div_mod (y - 1) 100 ltac:(lia)).
  pose proof (Z.mod_pos_bound (y - 1) 100 ltac:(lia)).
  pose proof (Z.div_mod (y - 1) 400 ltac:(lia)).
  pose proof (Z.mod_pos_bound (y - 1) 400 ltac:(lia)).
  lia.
Qed.

Lemma days_before_month_nonneg (y m : Z) : 0 <= Calendar.days_before_month y m.
Proof.
  unfold Calendar.days_before_month.
  assert (H : 0 <= Calendar.DAYS_BEFORE_MONTH m).
  { destruct m as [| p | p]; cbn; try lia.
    do 4 (try (destruct p as [p | p |]; cbn; try lia)). }
  destruct ((2 <? m) && Calendar.is_leap y); lia.
Qed.

(** A valid date has a positive day number. *)
Lemma toordinal_valid_pos (d : Calendar.date) :
  Calendar.valid_date d = true -> 1 <= Calendar.toordinal d.
Proof.
  unfold Calendar.valid_date, Calendar.MINYEAR. rewrite !andb_true_iff, !Z.leb_le.
  intros [[[[[Hy _] _] _] Hd] _]. unfold Calendar.toordinal.
  pose proof (days_before_year_nonneg (Calendar.year d) Hy).
  pose proof (days_before_month_nonneg (Calendar.year d) (Calendar.month d)).
  lia.
Qed.

(** Folds the arithmetic on literals left by a case analysis on the month. *)
Ltac fold_literal op a b :=
  let v := eval vm_compute in (op a b) in change (op a b) with v.

Ltac fold_literals :=
  repeat (progress (
    cbn [Calendar.DAYS_BEFORE_MONTH Calendar.days_in_month andb];
    change (Calendar.is_leap 1) with false;
    repeat match goal with
    | |- context [Z.ltb (Zpos ?p) (Zpos ?q)] => fold_literal Z.ltb (Zpos p) (Zpos q)
    | |- context [Z.eqb (Zpos ?p) (Zpos ?q)] => fold_literal Z.eqb (Zpos p) (Zpos q)
    | |- context [Z.eqb 0 (Zpos ?q)] => fold_literal Z.eqb 0 (Zpos q)
    | |- context [Z.sub (Zpos ?p) (Zpos ?q)] => fold_literal Z.sub (Zpos p) (Zpos q)
    | |- context [Z.add (Zpos ?p) (Zpos ?q)] => fold_literal Z.add (Zpos p) (Zpos q)
    | |- context [Z.add (Zpos ?p) 0] => fold_literal Z.add (Zpos p) 0
    | |- context [Z.add 0 (Zpos ?p)] => fold_literal Z.add 0 (Zpos p)
    | |- context [Z.add 0 0] => fold_literal Z.add 0 0
    | |- context [Z.sub 0 (Zpos ?p)] => fold_literal Z.sub 0 (Zpos p)
    | |- context [Z.sub (Zpos ?p) 0] => fold_literal Z.sub (Zpos p) 0
    end)).

(** [fromordinal] gives a date of the calendar for every day number in
    range. *)
Lemma fromordinal_valid n :
  1 <= n <= Calendar.MAXORDINAL -> Calendar.valid_date (Calendar.fromordinal n) = true.
Proof.
  unfold Calendar.MAXORDINAL. intros Hn.
  unfold Calendar.fromordinal, Calendar.DI400Y, Calendar.DI100Y, Calendar.DI4Y.
  set (a := n - 1).
  pose proof (Z.div_mod a 146097 ltac:(lia)) as E400.
  pose proof (Z.mod_pos_bound a 146097 ltac:(lia)) as B400.
  set (n400 := a / 146097) in *. set (r400 := a mod 146097) in *.
  pose proof (Z.div_mod r400 36524 ltac:(lia)) as E100.
  pose proof (Z.mod_pos_bound r400 36524 ltac:(lia)) as B100.
  set (n100 := r400 / 36524) in *. set (r100 := r400 mod 36524) in *.
  pose proof (Z.div_mod r100 1461 ltac:(lia)) as E4.
  pose proof (Z.mod_pos_bound r100 1461 ltac:(lia)) as B4.
  set (n4 := r100 / 1461) in *. set (r4 := r100 mod 1461) in *.
  pose proof (Z.div_mod r4 365 ltac:(lia)) as E1.
  pose proof (Z.mod_pos_bound r4 365 ltac:(lia)) as B1.
  set (n1 := r4 / 365) in *. set (r1 := r4 mod 365) in *.
  assert (0 <= n400 <= 24) by (unfold a in *; lia).
  assert (0 <= n100 <= 4) by lia.
  assert (0 <= n4 <= 24) by lia.
  assert (0 <= n1 <= 4) by lia.
  unfold Calendar.valid_date, Calendar.MINYEAR, Calendar.MAXYEAR.
  destruct (Z.eqb_spec n1 4) as [Hn1 | Hn1]; cbn [orb].
  - cbn [Calendar.year Calendar.month Calendar.day Calendar.days_in_month].
    rewrite !andb_true_iff, !Z.leb_le. unfold a in *. repeat split; lia.
  - destruct (Z.eqb_spec n100 4) as [Hn100 | Hn100].
    + cbn [Calendar.year Calendar.month Calendar.day Calendar.days_in_month].
      rewrite !andb_true_iff, !Z.leb_le. unfold a in *. repeat split; lia.
    + assert (n100 <= 3) by lia. assert (n1 <= 3) by lia.
      rewrite shiftr5.
      assert (Hr1 : 0 <= r1 < 365) by lia.
      pose proof (Z.div_mod (r1 + 50) 32 ltac:(lia)) as Em.
      pose proof (Z.mod_pos_bound (r1 + 50) 32 ltac:(lia)) as Bm.
      set (m := (r1 + 50) / 32) in *.
      assert (Hm : 1 <= m <= 12) by lia.
      pose proof (is_leap_decomp n400 n100 n4 n1 ltac:(lia) ltac:(lia) ltac:(lia)) as Hleap.
      set (leap := (n1 =? 3) && (negb (n4 =? 24) || (n100 =? 3))) in *.
      set (y := n400 * 400 + 1 + n100 * 100 + n4 * 4 + n1) in *.
      assert (Hy : 1 <= y <= 9999).
      { unfold y, a in *. split; [lia |].
        destruct (Z.eq_dec n400 24); [| lia].
        destruct (Z.eq_dec n100 3); [| lia].
        destruct (Z.eq_dec n4 24); [| lia]. lia. }
      clearbody m y.
      assert (Hcases : In m [1;2;3;4;5;6;7;8;9;10;11;12]) by (simpl; lia).
      destruct leap; simpl in Hcases;
      repeat (destruct Hcases as [<- | Hcases]); try contradiction;
      fold_literals;
      match goal with |- context [?x <? ?z] => destruct (Z.ltb_spec x z) end;
      cbn [Calendar.year Calendar.month Calendar.day];
      fold_literals; rewrite ?Hleap;
      rewrite !andb_true_iff, !Z.leb_le; repeat split; lia.
Qed.

Lemma leap_days_monotone (a b : Z) :
  a <= b -> 0 <= b / 4 - a / 4 - (b / 100 - a / 100) + (b / 400 - a / 400).
Proof.
  intros Hab.
  pose proof (Z.div_mod a 400 ltac:(lia)). pose proof (Z.mod_pos_bound a 400 ltac:(lia)).
  pose proof (Z.div_mod b 400 ltac:(lia)). pose proof (Z.mod_pos_bound b 400 ltac:(lia)).
  set (qa := a / 400) in *. set (ra := a mod 400) in *.
  set (qb := b / 400) in *. set (rb := b mod 400) in *.
  assert (Ea4 : a / 4 = 100 * qa + ra / 4).
  { replace a with (ra + (100 * qa) * 4) at 1 by lia. rewrite Z.div_add by lia. lia. }
  assert (Ea100 : a / 100 = 4 * qa + ra / 100).
  { replace a with (ra + (4 * qa) * 100) at 1 by lia. rewrite Z.div_add by lia. lia. }
  assert (Eb4 : b / 4 = 100 * qb + rb / 4).
  { replace b with (rb + (100 * qb) * 4) at 1 by lia. rewrite Z.div_add by lia. lia. }
  assert (Eb100 : b / 100 = 4 * qb + rb / 100).
  { replace b with (rb + (4 * qb) * 100) at 1 by lia. rewrite Z.div_add by lia. lia. }
  rewrite Ea4, Ea100, Eb4, Eb100.
  pose proof (Z.div_mod ra 4 ltac:(lia)). pose proof (Z.mod_pos_bound ra 4 ltac:(lia)).
  pose proof (Z.div_mod rb 4 ltac:(lia)). pose proof (Z.mod_pos_bound rb 4 ltac:(lia)).
  pose proof (Z.div_mod ra 100 ltac:(lia)). pose proof (Z.mod_pos_bound ra 100 ltac:(lia)).
  pose proof (Z.div_mod rb 100 ltac:(lia)). pose proof (Z.mod_pos_bound rb 100 ltac:(lia)).
  assert (0 <= ra / 100 <= 3) by lia. assert (0 <= rb / 100 <= 3) by lia.
  lia.
Qed.

(** A later year starts at least 365 days later per year. *)
Lemma days_before_year_monotone (y1 y2 : Z) :
  y1 <= y2 ->
  Calendar.days_before_year y1 + 365 * (y2 - y1) <= Calendar.days_before_year y2.
Proof.
  intros H. unfold Calendar.days_before_year. cbv zeta.
  pose proof (leap_days_monotone (y1 - 1) (y2 - 1) ltac:(lia)). lia.
Qed.

(** The length of a year, from one first of January to the next. *)
Lemma days_before_next_year (y : Z) :
  Calendar.days_before_year (y + 1)
  = Calendar.days_before_year y + 365 + (if Calendar.is_leap y then 1 else 0).
Proof.
  unfold Calendar.days_before_year, Calendar.is_leap. cbv zeta.
  replace (y + 1 - 1) with y by lia.
  pose proof (Z.div_mod y 4 ltac:(lia)). pose proof (Z.mod_pos_bound y 4 ltac:(lia)).
  pose proof (Z.div_mod y 100 ltac:(lia)). pose proof (Z.mod_pos_bound y 100 ltac:(lia)).
  pose proof (Z.div_mod y 400 ltac:(lia)). pose proof (Z.mod_pos_bound y 400 ltac:(lia)).
  pose proof (Z.div_mod (y - 1) 4 ltac:(lia)).
  pose proof (Z.mod_pos_bound (y - 1) 4 ltac:(lia)).
  pose proof (Z.div_mod (y - 1) 100 ltac:(lia)).
  pose proof (Z.mod_pos_bound (y - 1) 100 ltac:(lia)).
  pose proof (Z.div_mod (y - 1) 400 ltac:(lia)).
  pose proof (Z.mod_pos_bound (y - 1) 400 ltac:(lia)).
  destruct (Z.eqb_spec (y mod 4) 0); destruct (Z.eqb_spec (y mod 100) 0);
    destruct (Z.eqb_spec (y mod 400) 0); cbn [negb andb orb]; lia.
Qed.

Lemma valid_date_inv (d : Calendar.date) :
  Calendar.valid_date d = true ->
  1 <= Calendar.year d <= 9999 /\
  In (Calendar.month d) [1; 2; 3; 4; 5; 6; 7; 8; 9; 10; 11; 12] /\
  1 <= Calendar.day d <= Calendar.days_in_month (Calendar.year d) (Calendar.month d).
Proof.
  unfold Calendar.valid_date, Calendar.MINYEAR, Calendar.MAXYEAR.
  rewrite !andb_true_iff, !Z.leb_le. intros [[[[[H1 H2] H3] H4] H5] H6].
  repeat split; try assumption. simpl. lia.
Qed.

(** The day number of a valid date lies within its year. *)
Lemma toordinal_within_year (d : Calendar.date) :
  Calendar.valid_date d = true ->
  Calendar.days_before_year (Calendar.year d) < Calendar.toordinal d
  <= Calendar.days_before_year (Calendar.year d + 1).
Proof.
  intros Hv. apply valid_date_inv in Hv. destruct Hv as (_ & Hm & Hd).
  rewrite days_before_next_year. unfold Calendar.toordinal, Calendar.days_before_month.
  destruct d as [y m dd]. cbn [Calendar.year Calendar.month Calendar.day] in *.
  simpl in Hm.
  repeat (destruct Hm as [<- | Hm]); try contradiction;
    cbn [Calendar.DAYS_BEFORE_MONTH Calendar.days_in_month] in *;
    fold_literals; destruct (Calendar.is_leap y); cbn [andb]; lia.
Qed.

(** Two valid dates with the same day number are the same date. *)
Lemma toordinal_injective (d1 d2 : Calendar.date) :
  Calendar.valid_date d1 = true -> Calendar.valid_date d2 = true ->
  Calendar.toordinal d1 = Calendar.toordinal d2 -> d1 = d2.
Proof.
  intros Hv1 Hv2 Heq.
  pose proof (toordinal_within_year d1 Hv1) as B1.
  pose proof (toordinal_within_year d2 Hv2) as B2.
  assert (Hy : Calendar.year d1 = Calendar.year d2).
  { destruct (Z.lt_trichotomy (Calendar.year d1) (Calendar.year d2)) as [Hlt | [He | Hgt]];
      [| exact He |].
    - pose proof (days_before_year_monotone (Calendar.year d1 + 1) (Calendar.year d2)
                    ltac:(lia)). lia.
    - pose proof (days_before_year_monotone (Calendar.year d2 + 1) (Calendar.year d1)
                    ltac:(lia)). lia. }
  apply valid_date_inv in Hv1, Hv2.
  destruct Hv1 as (_ & Hm1 & Hd1), Hv2 as (_ & Hm2 & Hd2).
  destruct d1 as [y1 m1 dd1], d2 as [y2 m2 dd2].
  cbn [Calendar.year Calendar.month Calendar.day] in *. subst y2.
  unfold Calendar.toordinal, Calendar.days_before_month in Heq.
  cbn [Calendar.year Calendar.month Calendar.day] in Heq.
  simpl in Hm1, Hm2.
  destruct (Calendar.is_leap y1) eqn:Hleap;
    repeat (destruct Hm1 as [<- | Hm1]); try contradiction;
    repeat (destruct Hm2 as [<- | Hm2]); try contradiction;
    cbn [Calendar.DAYS_BEFORE_MONTH Calendar.days_in_month] in *;
    rewrite ?Hleap in *; cbn [andb Z.ltb Z.compare Pos.compare Pos.compare_cont] in Heq;
    try (f_equal; lia); exfalso; lia.
Qed.

(** On valid dates [fromordinal] inverts [toordinal]. *)
Lemma fromordinal_toordinal (d : Calendar.date) :
  Calendar.valid_date d = true -> Calendar.fromordinal (Calendar.toordinal d) = d.
Proof.
  intros Hv. apply toordinal_injective; [| exact Hv | apply toordinal_fromordinal].
  apply fromordinal_valid. split; [now apply toordinal_valid_pos |].
  pose proof (toordinal_within_year d Hv) as [_ Hhi].
  apply valid_date_inv in Hv. destruct Hv as (Hy & _ & _).
  pose proof (days_before_year_monotone (Calendar.year d + 1) 10000 ltac:(lia)) as Hmono.
  change (Calendar.days_before_year 10000) with 3652059 in Hmono.
  unfold Calendar.MAXORDINAL. lia.
Qed.

(** ** The break detector *)

Section BreakDetector.
Variable utc_offset : Z -> Z.

Lemma valid_break_iff current_end next_begin :
  Kimai.valid_break utc_offset current_end next_begin = true <->
  300 <= next_begin - current_end <= 3600 /\
  10 <= Kimai.hour utc_offset current_end <= 16 /\
  10 <= Kimai.hour utc_offset next_begin <= 16.
Proof.
  unfold Kimai.valid_break. cbv zeta.
  rewrite !andb_true_iff, !Z.leb_le. tauto.
Qed.

Lemma scan_gaps_from (l pre : list Kimai.entry) (acc : list Kimai.break_detail * Z) :
  fold_left (Kimai.scan_step utc_offset (pre ++ l))
            (seq (length pre) (length l - 1)) acc
  = (fst acc ++ map (Claims.break_of utc_offset)
                    (filter (Claims.accepted utc_offset) (Claims.adjacent l)),
     snd acc + Claims.sum_Z (map Claims.gap
                    (filter (Claims.accepted utc_offset) (Claims.adjacent l)))).
Proof.
  revert pre acc. induction l as [| x l IH]; intros pre [bs t].
  - simpl. now rewrite app_nil_r, Z.add_0_r.
  - destruct l as [| y l'].
    + simpl. now rewrite app_nil_r, Z.add_0_r.
    + replace (length (x :: y :: l') - 1)%nat with (S (length (y :: l') - 1)) by (simpl; lia).
      cbn [seq fold_left].
      assert (Hx : nth_error (pre ++ x :: y :: l') (length pre) = Some x).
      { rewrite nth_error_app2 by lia. now rewrite Nat.sub_diag. }
      assert (Hy : nth_error (pre ++ x :: y :: l') (length pre + 1) = Some y).
      { rewrite nth_error_app2 by lia.
        now replace (length pre + 1 - length pre)%nat with 1%nat by lia. }
      unfold Kimai.scan_step at 2. rewrite Hx, Hy.
      specialize (IH (pre ++ [x])).
      rewrite <- app_assoc in IH. cbn [app] in IH.
      rewrite length_app in IH. cbn [length] in IH.
      replace (length pre + 1)%nat with (S (length pre)) in IH by lia.
      rewrite IH. clear IH.
      change (Claims.adjacent (x :: y :: l')) with ((x, y) :: Claims.adjacent (y :: l')).
      set (rest := Claims.adjacent (y :: l')).
      cbn [filter].
      change (Kimai.valid_break utc_offset (Kimai.e_end x) (Kimai.e_begin y))
        with (Claims.accepted utc_offset (x, y)).
      change (Kimai.make_break utc_offset (Kimai.e_end x) (Kimai.e_begin y))
        with (Claims.break_of utc_offset (x, y)).
      change (Kimai.e_begin y - Kimai.e_end x) with (Claims.gap (x, y)).
      destruct (Claims.accepted utc_offset (x, y));
        cbn [fst snd map Claims.sum_Z fold_right].
      * rewrite <- app_assoc. cbn [app]. f_equal.
        fold (Claims.sum_Z (map Claims.gap (filter (Claims.accepted utc_offset) rest))).
        lia.
      * reflexivity.
Qed.

Lemma scan_gaps_spec (group : list Kimai.entry) :
  Kimai.scan_gaps utc_offset group
  = (map (Claims.break_of utc_offset)
         (filter (Claims.accepted utc_offset) (Claims.adjacent group)),
     Claims.sum_Z (map Claims.gap
         (filter (Claims.accepted utc_offset) (Claims.adjacent group)))).
Proof.
  unfold Kimai.scan_gaps.
  exact (scan_gaps_from group [] ([], 0)).
Qed.
End BreakDetector.

Section BreakClaims.
Variable utc_offset : Z -> Z.

Lemma sort_values_begin_perm (rows : list Kimai.entry) :
  Permutation (Kimai.sort_values_begin rows) rows.
Proof. apply stable_sort_perm. Qed.

Lemma sort_values_begin_sorted (rows : list Kimai.entry) :
  Sorted (fun a b => Kimai.e_begin a <= Kimai.e_begin b) (Kimai.sort_values_begin rows).
Proof.
  pose proof (stable_sort_sorted (fun a b => Kimai.e_begin a <=? Kimai.e_begin b)) as H.
  assert (Htot : forall a b : Kimai.entry,
             (Kimai.e_begin a <=? Kimai.e_begin b) = true \/
             (Kimai.e_begin b <=? Kimai.e_begin a) = true).
  { intros a b. rewrite !Z.leb_le. lia. }
  specialize (H Htot rows). unfold Kimai.sort_values_begin.
  induction H as [| x l Hs IH Hhd]; constructor; auto.
  destruct Hhd; constructor. now apply Z.leb_le.
Qed.

(** What one group contributes: no record without an accepted gap, and
    otherwise a record whose breaks are the accepted gaps, one each and
    in order. *)
Lemma group_breaks_spec id_to_alias user_id date rows :
  match Kimai.group_breaks utc_offset id_to_alias user_id date rows with
  | Some r =>
      Claims.accepted_pairs utc_offset rows <> [] /\
      Kimai.break_details r
        = map (Claims.break_of utc_offset) (Claims.accepted_pairs utc_offset rows) /\
      Kimai.total_breaks r = length (Kimai.break_details r) /\
      Kimai.total_break_hours r
        = Py.round (inject_Z (Claims.sum_Z (map Claims.gap
                      (Claims.accepted_pairs utc_offset rows))) / 3600) 2 /\
      Kimai.total_break_minutes r
        = Py.round (inject_Z (Claims.sum_Z (map Claims.gap
                      (Claims.accepted_pairs utc_offset rows))) / 60) 1 /\
      Kimai.br_user_id r = user_id /\ Kimai.br_date r = date
  | None => Claims.accepted_pairs utc_offset rows = []
  end.
Proof.
  unfold Kimai.group_breaks, Claims.accepted_pairs.
  set (group := Kimai.sort_values_begin rows).
  destruct (Nat.ltb_spec (length group) 2) as [Hlen | Hlen].
  - destruct group as [| x [| y g]]; simpl in Hlen; try lia; reflexivity.
  - rewrite scan_gaps_spec.
    set (acc := filter (Claims.accepted utc_offset) (Claims.adjacent group)).
    destruct acc as [| p acc']; cbn [map].
    + reflexivity.
    + cbn [Kimai.break_details Kimai.total_breaks Kimai.total_break_hours
           Kimai.total_break_minutes Kimai.br_user_id Kimai.br_date].
      repeat split; try reflexivity. discriminate.
Qed.

Lemma string_compare_refl (s : string) : String.compare s s = Eq.
Proof.
  pose proof (String.compare_antisym s s) as H.
  destruct (String.compare s s); [reflexivity | discriminate | discriminate].
Qed.

Lemma cmp_key_eq (k1 k2 : string * Z) :
  Py.cmp_eqb Kimai.cmp_key k1 k2 = true <-> k1 = k2.
Proof.
  unfold Py.cmp_eqb, Kimai.cmp_key, Py.cmp_pair.
  destruct k1 as [u1 d1], k2 as [u2 d2]. cbn [fst snd]. split.
  - destruct (String.compare u1 u2) eqn:Eu; try discriminate.
    apply String.compare_eq_iff in Eu.
    destruct (Z.compare d1 d2) eqn:Ed; try discriminate.
    apply Z.compare_eq_iff in Ed. now subst.
  - intros [= -> ->]. now rewrite string_compare_refl, Z.compare_refl.
Qed.

(** The groups of [groupby(['user', 'date_only'])]: the entries of one user
    on one local day, none of them empty. *)
Lemma groupby_user_date_spec (rows : list Kimai.entry) (k : string * Z)
    (g : list Kimai.entry) :
  In (k, g) (Kimai.groupby_user_date utc_offset rows) ->
  g <> [] /\
  forall e, In e g <->
            In e rows /\ Kimai.e_user e = fst k /\
            Kimai.date_only utc_offset (Kimai.e_begin e) = snd k.
Proof.
  unfold Kimai.groupby_user_date. cbv zeta. intros H.
  apply in_map_iff in H. destruct H as (k' & [= -> <-] & Hk).
  assert (Hmem : forall e,
             In e (filter (fun e => Py.cmp_eqb Kimai.cmp_key (Kimai.group_key utc_offset e) k)
                          rows) <->
             In e rows /\ Kimai.e_user e = fst k /\
             Kimai.date_only utc_offset (Kimai.e_begin e) = snd k).
  { intros e. rewrite filter_In, cmp_key_eq. unfold Kimai.group_key.
    destruct k as [u d]. cbn [fst snd]. split.
    - intros [He [= -> ->]]. auto.
    - intros (He & -> & ->). auto. }
  split; [| exact Hmem].
  apply (Permutation_in _ (stable_sort_perm _ _)) in Hk.
  apply unique_incl in Hk. apply in_map_iff in Hk. destruct Hk as (e & <- & He).
  intros Hnil.
  assert (Hin : In e (filter (fun e0 => Py.cmp_eqb Kimai.cmp_key
                                           (Kimai.group_key utc_offset e0)
                                           (Kimai.group_key utc_offset e)) rows)).
  { apply filter_In. split; [exact He | now apply cmp_key_eq]. }
  rewrite Hnil in Hin. destruct Hin.
Qed.

(** The detector is the rule for one group, run over the groups. *)
Lemma calculate_breaks_by_group raw users :
  Kimai.calculate_breaks_from_raw_data utc_offset raw users
  = flat_map (fun g : (string * Z) * list Kimai.entry =>
                match Kimai.group_breaks utc_offset
                        (map (fun u => (Py.str_of_Z (Kimai.usr_id u), Kimai.usr_alias u))
                             users)
                        (fst (fst g)) (snd (fst g)) (snd g) with
                | Some r => [r]
                | None => []
                end)
             (Kimai.groupby_user_date utc_offset (Kimai.dropna_entries raw)).
Proof. destruct raw; reflexivity. Qed.

Lemma in_calculate_breaks raw users r :
  In r (Kimai.calculate_breaks_from_raw_data utc_offset raw users) ->
  exists id_to_alias rows,
    In ((Kimai.br_user_id r, Kimai.br_date r), rows)
       (Kimai.groupby_user_date utc_offset (Kimai.dropna_entries raw)) /\
    Kimai.group_breaks utc_offset id_to_alias (Kimai.br_user_id r) (Kimai.br_date r) rows
    = Some r.
Proof.
  unfold Kimai.calculate_breaks_from_raw_data.
  destruct raw as [| t raw']; [intros [] |].
  set (raw := t :: raw'). intros Hin.
  apply in_flat_map in Hin. destruct Hin as ([[u d] rows] & Hg & Hr).
  cbn [fst snd] in Hr.
  match type of Hr with
  | In _ (match Kimai.group_breaks _ ?a _ _ _ with _ => _ end) =>
      pose proof (group_breaks_spec a u d rows) as Hs;
      destruct (Kimai.group_breaks utc_offset a u d rows) as [r' |] eqn:E; [| destruct Hr];
      exists a, rows
  end.
  destruct Hr as [<- | []].
  destruct Hs as (_ & _ & _ & _ & _ & Hu & Hd). rewrite Hu, Hd. auto.
Qed.

End BreakClaims.

(** ** Pagination *)

Section KimaiPages.
Context {R : Type} (get : Z -> Http.result (Kimai.json R)).

Lemma page_step_spec (st : Kimai.page_state R) :
  Kimai.page_step get st =
  if Claims.full_page get (Kimai.page st)
  then inl (Kimai.mkPageState (Kimai.page st + 1)
              (Kimai.df_list st ++ [Claims.page_rows get (Kimai.page st)])
              (Kimai.requested st ++ [Kimai.page st]))
  else inr (Kimai.mkPageState (Kimai.page st) (Kimai.df_list st)
              (Kimai.requested st ++ [Kimai.page st])).
Proof.
  unfold Kimai.page_step, Claims.full_page, Claims.page_rows.
  destruct (get (Kimai.page st)) as [| code data]; [reflexivity |].
  destruct data as [[| r l] |]; destruct (code =? 200); reflexivity.
Qed.

Lemma pages_from_S (first : Z) (n : nat) :
  Claims.pages_from first (S n) = first :: Claims.pages_from (first + 1) n.
Proof.
  unfold Claims.pages_from. cbn [seq map]. rewrite Z.add_0_r. f_equal.
  rewrite <- seq_shift, map_map. apply map_ext. intros i. lia.
Qed.

(** The loop runs through the full pages and stops on the first page that
    is not one. *)
Lemma page_loop_run (n : nat) :
  forall (st : Kimai.page_state R) (fuel : nat),
    (forall i, (i < n)%nat -> Claims.full_page get (Kimai.page st + Z.of_nat i) = true) ->
    Claims.full_page get (Kimai.page st + Z.of_nat n) = false ->
    (n < fuel)%nat ->
    Kimai.page_loop fuel get st
    = Some (Kimai.mkPageState (Kimai.page st + Z.of_nat n)
              (Kimai.df_list st
                 ++ map (Claims.page_rows get) (Claims.pages_from (Kimai.page st) n))
              (Kimai.requested st ++ Claims.pages_from (Kimai.page st) (S n))).
Proof.
  induction n as [| n IH]; intros st fuel Hfull Hstop Hfuel;
    (destruct fuel as [| fuel]; [lia |]); cbn [Kimai.page_loop];
    rewrite page_step_spec.
  - cbn [Z.of_nat] in *. rewrite Z.add_0_r in Hstop. rewrite Hstop.
    unfold Claims.pages_from. cbn [seq map]. now rewrite app_nil_r, !Z.add_0_r.
  - assert (E0 : Claims.full_page get (Kimai.page st) = true).
    { specialize (Hfull 0%nat ltac:(lia)). cbn [Z.of_nat] in Hfull.
      now rewrite Z.add_0_r in Hfull. }
    rewrite E0.
    rewrite IH; cbn [Kimai.page Kimai.df_list Kimai.requested].
    + rewrite !pages_from_S. cbn [map]. rewrite <- !app_assoc. cbn [app].
      do 2 f_equal. lia.
    + intros i Hi. replace (Kimai.page st + 1 + Z.of_nat i)
        with (Kimai.page st + Z.of_nat (S i)) by lia. apply Hfull. lia.
    + replace (Kimai.page st + 1 + Z.of_nat n)
        with (Kimai.page st + Z.of_nat (S n)) by lia. exact Hstop.
    + lia.
Qed.

(** Conversely, a loop that returned has stopped on the first page that is
    not full. *)
Lemma page_loop_returns (fuel : nat) :
  forall (st st' : Kimai.page_state R),
    Kimai.page_loop fuel get st = Some st' ->
    exists n : nat,
      (n < fuel)%nat /\
      (forall i, (i < n)%nat -> Claims.full_page get (Kimai.page st + Z.of_nat i) = true) /\
      Claims.full_page get (Kimai.page st + Z.of_nat n) = false /\
      st' = Kimai.mkPageState (Kimai.page st + Z.of_nat n)
              (Kimai.df_list st
                 ++ map (Claims.page_rows get) (Claims.pages_from (Kimai.page st) n))
              (Kimai.requested st ++ Claims.pages_from (Kimai.page st) (S n)).
Proof.
  induction fuel as [| fuel IH]; intros st st' H; [discriminate |].
  cbn [Kimai.page_loop] in H. rewrite page_step_spec in H.
  destruct (Claims.full_page get (Kimai.page st)) eqn:E.
  - apply IH in H. destruct H as (n & Hn & Hfull & Hstop & ->).
    cbn [Kimai.page Kimai.df_list Kimai.requested] in *.
    exists (S n). split; [lia |]. split; [| split].
    + intros [| i] Hi.
      * cbn [Z.of_nat]. now rewrite Z.add_0_r.
      * replace (Kimai.page st + Z.of_nat (S i))
          with (Kimai.page st + 1 + Z.of_nat i) by lia. apply Hfull. lia.
    + replace (Kimai.page st + Z.of_nat (S n))
        with (Kimai.page st + 1 + Z.of_nat n) by lia. exact Hstop.
    + rewrite !pages_from_S. cbn [map]. rewrite <- !app_assoc. cbn [app].
      f_equal. lia.
  - injection H as <-. exists 0%nat. split; [lia |]. split; [intros i Hi; lia |].
    cbn [Z.of_nat]. rewrite Z.add_0_r. split; [exact E |].
    unfold Claims.pages_from. cbn [seq map]. now rewrite app_nil_r, Z.add_0_r.
Qed.

(** An API that always has one more full page keeps the loop busy for
    ever. *)
Lemma page_loop_endless (fuel : nat) :
  forall st : Kimai.page_state R,
    (forall p, Kimai.page st <= p -> Claims.full_page get p = true) ->
    Kimai.page_loop fuel get st = None.
Proof.
  induction fuel as [| fuel IH]; intros st Hfull; [reflexivity |].
  cbn [Kimai.page_loop]. rewrite page_step_spec, Hfull by lia.
  apply IH. cbn [Kimai.page]. intros p Hp. apply Hfull. lia.
Qed.
End KimaiPages.

Section ServiceFusionPages.
Variable year : Z.
Variable get_page : ServiceFusion.request -> Http.result ServiceFusion.body.
Variable date_range : string.

Lemma handle_page_cases (st : ServiceFusion.extract_state) (data : ServiceFusion.body) :
  match ServiceFusion.handle_page year date_range st data with
  | inl st' =>
      ServiceFusion.page st' = ServiceFusion.page st + 1 /\
      ServiceFusion.page st <= 500 /\
      Z.of_nat (length (ServiceFusion.all_records st')) < 50000 /\
      ServiceFusion.requests st' = ServiceFusion.requests st /\
      exists r l cur pc, data = ServiceFusion.Envelope (r :: l) cur pc
  | inr st' =>
      ServiceFusion.page st' = ServiceFusion.page st /\
      ServiceFusion.requests st' = ServiceFusion.requests st
  end.
Proof.
  unfold ServiceFusion.handle_page.
  destruct data as [records cur pc |]; [| auto].
  destruct records as [| r l]; [auto |].
  match goal with |- context [if ?c then inr ?a else _] => destruct c end; [auto |].
  match goal with |- context [if ?c then inr ?a else _] => destruct c end; [auto |].
  match goal with |- context [if ?c <=? ?d then inr ?a else _] =>
    destruct (Z.leb_spec c d) end; [auto |].
  match goal with |- context [if ?c <? ?d then inr ?a else _] =>
    destruct (Z.ltb_spec c d) end; [auto |].
  cbn [ServiceFusion.page ServiceFusion.all_records ServiceFusion.requests] in *.
  repeat split; try lia. eauto.
Qed.

(** One turn of the loop: going on to the next page takes a 200 response
    with records, a page number of at most 500 and fewer than 50,000
    records gathered; a turn sends one request, or two on page 1. *)
Lemma extract_step_cases (st : ServiceFusion.extract_state) :
  match ServiceFusion.extract_step year get_page date_range st with
  | inl st' =>
      ServiceFusion.page st' = ServiceFusion.page st + 1 /\
      ServiceFusion.page st <= 500 /\
      Z.of_nat (length (ServiceFusion.all_records st')) < 50000 /\
      exists sent req r l cur pc,
        ServiceFusion.requests st' = ServiceFusion.requests st ++ sent /\
        (sent = [Claims.sorted_request (ServiceFusion.page st)] \/
         ServiceFusion.page st = 1 /\
         sent = [Claims.sorted_request 1; ServiceFusion.mkRequest false None]) /\
        last sent req = req /\
        get_page req = Http.Response 200 (ServiceFusion.Envelope (r :: l) cur pc)
  | inr st' =>
      ServiceFusion.page st' = ServiceFusion.page st /\
      exists sent,
        ServiceFusion.requests st' = ServiceFusion.requests st ++ sent /\
        (sent = [Claims.sorted_request (ServiceFusion.page st)] \/
         ServiceFusion.page st = 1 /\
         sent = [Claims.sorted_request 1; ServiceFusion.mkRequest false None])
  end.
Proof.
  unfold ServiceFusion.extract_step.
  fold (Claims.sorted_request (ServiceFusion.page st)).
  set (req := Claims.sorted_request (ServiceFusion.page st)).
  destruct (get_page req) as [| code data] eqn:E1.
  - cbn [ServiceFusion.page ServiceFusion.requests]. eauto.
  - destruct (Z.eqb_spec code 200) as [-> | Hcode].
    + match goal with |- context [ServiceFusion.handle_page _ _ ?s data] =>
        pose proof (handle_page_cases s data) as H;
        destruct (ServiceFusion.handle_page year date_range s data) as [st' | st']
      end; cbn [ServiceFusion.page ServiceFusion.requests ServiceFusion.all_records] in H.
      * destruct H as (Hp & Hcap & Hrec & Hreq & r & l & cur & pc & ->).
        repeat split; try assumption.
        exists [req], req, r, l, cur, pc. rewrite Hreq. auto.
      * destruct H as (Hp & Hreq). split; [assumption |].
        exists [req]. rewrite Hreq. auto.
    + destruct (Z.eqb_spec (ServiceFusion.page st) 1) as [Hp1 | Hp1].
      * assert (Hreq1 : req = Claims.sorted_request 1) by (unfold req; now rewrite Hp1).
        set (req2 := ServiceFusion.mkRequest false None).
        destruct (get_page req2) as [| code2 data2] eqn:E2.
        -- cbn [ServiceFusion.page ServiceFusion.requests].
           split; [reflexivity |]. exists [req; req2].
           rewrite <- app_assoc. cbn [app]. rewrite Hreq1. auto.
        -- destruct (Z.eqb_spec code2 200) as [-> | Hcode2].
           ++ match goal with |- context [ServiceFusion.handle_page _ _ ?s data2] =>
                pose proof (handle_page_cases s data2) as H;
                destruct (ServiceFusion.handle_page year date_range s data2) as [st' | st']
              end; cbn [ServiceFusion.page ServiceFusion.requests
                        ServiceFusion.all_records] in H.
              ** destruct H as (Hp & Hcap & Hrec & Hreq & r & l & cur & pc & ->).
                 repeat split; try assumption.
                 exists [req; req2], req2, r, l, cur, pc. rewrite Hreq.
                 rewrite <- app_assoc. cbn [app]. rewrite Hreq1. auto.
              ** destruct H as (Hp & Hreq). split; [assumption |].
                 exists [req; req2]. rewrite Hreq.
                 rewrite <- app_assoc. cbn [app]. rewrite Hreq1. auto.
           ++ cbn [ServiceFusion.page ServiceFusion.requests].
              split; [reflexivity |]. exists [req; req2].
              rewrite <- app_assoc. cbn [app]. rewrite Hreq1. auto.
      * cbn [ServiceFusion.page ServiceFusion.requests]. eauto.
Qed.

Lemma extract_loop_terminates (fuel : nat) :
  forall st : ServiceFusion.extract_state,
    Claims.within_limits st ->
    (1 <= fuel)%nat -> 502 - ServiceFusion.page st <= Z.of_nat fuel ->
    exists st',
      ServiceFusion.extract_loop year fuel get_page date_range st = Some st' /\
      ServiceFusion.page st' <= Z.max 501 (ServiceFusion.page st) /\
      Z.of_nat (length (ServiceFusion.requests st')) <= ServiceFusion.page st' + 1.
Proof.
  induction fuel as [| fuel IH]; intros st [Hp Hlen] H1 Hfuel; [lia |].
  cbn [ServiceFusion.extract_loop].
  pose proof (extract_step_cases st) as Hstep.
  destruct (ServiceFusion.extract_step year get_page date_range st) as [st' | st'].
  - destruct Hstep as (Hp' & Hcap & _ & sent & req & r & l & cur & pc & Hreq & Hsent & _).
    destruct (IH st') as (st'' & Hloop & Hpage & Hrq).
    + split; [lia |]. rewrite Hreq, length_app.
      destruct (Z.eqb_spec (ServiceFusion.page st') 1); [lia |].
      destruct Hsent as [-> | [Hp1 ->]]; cbn [length].
      * destruct (Z.eqb_spec (ServiceFusion.page st) 1); lia.
      * rewrite Hp1 in Hlen. cbn in Hlen. lia.
    + lia.
    + lia.
    + exists st''. split; [exact Hloop |]. split; lia.
  - destruct Hstep as (Hp' & sent & Hreq & Hsent).
    exists st'. split; [reflexivity |]. split; [lia |].
    rewrite Hreq, length_app.
    destruct Hsent as [-> | [Hp1 ->]]; cbn [length].
    * destruct (Z.eqb_spec (ServiceFusion.page st) 1); lia.
    * rewrite Hp1 in Hlen. cbn in Hlen. lia.
Qed.
End ServiceFusionPages.

(** C6, as amended.  Only the Service Fusion extractor has safety limits:
    going on to another page takes a page number of at most 500 and fewer
    than 50,000 records gathered, so whatever the API answers the extraction
    returns, after at most 501 pages and 502 requests.  The Kimai loop has no
    limit: against an API whose every page is a 200 response with records it
    never returns. *)
Theorem service_fusion_extraction_is_capped :
  forall (year : Z) (api : ServiceFusion.Api) (endpoint : ServiceFusion.endpoint)
         (date_range : string),
    (exists st : ServiceFusion.extract_state,
        ServiceFusion.extract_trace year api endpoint date_range = Some st /\
        ServiceFusion.extract_with_forced_sort year api endpoint date_range
        = ServiceFusion.all_records st /\
        ServiceFusion.page st <= 501 /\
        (length (ServiceFusion.requests st) <= 502)%nat) /\
    (forall st st' : ServiceFusion.extract_state,
        ServiceFusion.extract_step year (ServiceFusion.fetch api endpoint) date_range st
        = inl st' ->
        ServiceFusion.page st' = ServiceFusion.page st + 1 /\
        ServiceFusion.page st <= 500 /\
        Z.of_nat (length (ServiceFusion.all_records st')) < 50000) /\
    (forall get : Z -> Http.result (Kimai.json Kimai.timesheet),
        (forall p, 1 <= p -> Claims.full_page get p = true) ->
        Claims.never_returns get).
Proof.
  intros year api endpoint date_range. split; [| split].
  - unfold ServiceFusion.extract_with_forced_sort, ServiceFusion.extract_trace.
    destruct (ServiceFusion.auth_ok api).
    + destruct (extract_loop_terminates year (ServiceFusion.fetch api endpoint) date_range
                  ServiceFusion.max_turns (ServiceFusion.mkState 1 [] []))
        as (st & Hloop & Hpage & Hreq).
      * split; cbn; lia.
      * unfold ServiceFusion.max_turns. lia.
      * unfold ServiceFusion.max_turns. cbn. lia.
      * exists st. rewrite Hloop. cbn [ServiceFusion.page] in Hpage.
        repeat split; lia.
    + eexists. split; [reflexivity |]. cbn. repeat split; lia.
  - intros st st' Hstep.
    pose proof (extract_step_cases year (ServiceFusion.fetch api endpoint) date_range st) as H.
    rewrite Hstep in H. tauto.
  - intros get Hfull fuel. apply page_loop_endless. exact Hfull.
Qed.

(** C6 as stated fails on the Kimai pipeline: against an API whose every
    page has a record its pagination loop never returns, and whatever the
    page number and the records gathered, a turn of the loop goes on to the
    next page. *)
Lemma kimai_pagination_has_no_cap :
  Claims.never_returns endless_timesheets /\
  (forall st : Kimai.page_state Kimai.timesheet,
      Kimai.page_step endless_timesheets st
      = inl (Kimai.mkPageState (Kimai.page st + 1)
               (Kimai.df_list st ++ [[sample_timesheet]])
               (Kimai.requested st ++ [Kimai.page st]))).
Proof.
  split.
  - intros fuel. apply page_loop_endless. reflexivity.
  - intros st. reflexivity.
Qed.

(** C7, as amended.  Kimai: the pages asked are 1, 2, ... up to the first
    page that is not a 200 response with a non-empty list, every page before
    it was such a response, and the frames of those pages are what is
    returned; in particular a non-200 response ends the loop with the pages
    fetched before it.  Service Fusion: the loop goes on to page N+1 only
    after a 200 response with records for page N; a non-200 response for a
    page after the first ends the loop with the records gathered; a non-200
    response for page 1 is followed by a second request without the sort
    parameter, and the loop ends only if that one fails too. *)
Theorem pagination_next_page_and_first_failure :
  (forall (get : Z -> Http.result (Kimai.json Kimai.timesheet)) (fuel : nat)
          (st : Kimai.page_state Kimai.timesheet),
      Kimai.fetch_paginated fuel get = Some st ->
      exists n : nat,
        Kimai.requested st = Claims.pages_from 1 (S n) /\
        (forall i, (i < n)%nat -> Claims.full_page get (1 + Z.of_nat i) = true) /\
        Claims.full_page get (1 + Z.of_nat n) = false /\
        Kimai.df_list st = map (Claims.page_rows get) (Claims.pages_from 1 n)) /\
  (forall (get : Z -> Http.result (Kimai.json Kimai.timesheet)) (n : nat) (code : Z)
          (data : Kimai.json Kimai.timesheet) (fuel : nat),
      (forall i, (i < n)%nat -> Claims.full_page get (1 + Z.of_nat i) = true) ->
      get (1 + Z.of_nat n) = Http.Response code data ->
      code <> 200 ->
      (n < fuel)%nat ->
      Kimai.fetch_paginated fuel get
      = Some (Kimai.mkPageState (1 + Z.of_nat n)
                (map (Claims.page_rows get) (Claims.pages_from 1 n))
                (Claims.pages_from 1 (S n)))) /\
  (forall (year : Z) (get_page : ServiceFusion.request -> Http.result ServiceFusion.body)
          (date_range : string) (st st' : ServiceFusion.extract_state),
      ServiceFusion.extract_step year get_page date_range st = inl st' ->
      ServiceFusion.page st' = ServiceFusion.page st + 1 /\
      exists sent req r l cur pc,
        ServiceFusion.requests st' = ServiceFusion.requests st ++ sent /\
        last sent req = req /\
        get_page req = Http.Response 200 (ServiceFusion.Envelope (r :: l) cur pc)) /\
  (forall (year : Z) (get_page : ServiceFusion.request -> Http.result ServiceFusion.body)
          (date_range : string) (st : ServiceFusion.extract_state) (code : Z)
          (data : ServiceFusion.body) (fuel : nat),
      ServiceFusion.page st <> 1 ->
      get_page (Claims.sorted_request (ServiceFusion.page st)) = Http.Response code data ->
      code <> 200 ->
      ServiceFusion.extract_loop year (S fuel) get_page date_range st
      = Some (ServiceFusion.mkState (ServiceFusion.page st) (ServiceFusion.all_records st)
                (ServiceFusion.requests st
                   ++ [Claims.sorted_request (ServiceFusion.page st)]))) /\
  (forall (year : Z) (get_page : ServiceFusion.request -> Http.result ServiceFusion.body)
          (date_range : string) (st : ServiceFusion.extract_state) (code : Z)
          (data : ServiceFusion.body) (fuel : nat),
      ServiceFusion.page st = 1 ->
      get_page (Claims.sorted_request 1) = Http.Response code data ->
      code <> 200 ->
      (forall st', ServiceFusion.extract_step year get_page date_range st = inl st'
                   \/ ServiceFusion.extract_step year get_page date_range st = inr st' ->
         ServiceFusion.requests st'
         = ServiceFusion.requests st
             ++ [Claims.sorted_request 1; ServiceFusion.mkRequest false None]) /\
      (match get_page (ServiceFusion.mkRequest false None) with
       | Http.Raised => True
       | Http.Response code2 _ => code2 <> 200
       end ->
       ServiceFusion.extract_loop year (S fuel) get_page date_range st
       = Some (ServiceFusion.mkState 1 (ServiceFusion.all_records st)
                 (ServiceFusion.requests st
                    ++ [Claims.sorted_request 1; ServiceFusion.mkRequest false None])))).
Proof.
  split; [| split; [| split; [| split]]].
  - intros get fuel st H. unfold Kimai.fetch_paginated in H.
    apply page_loop_returns in H. destruct H as (n & _ & Hfull & Hstop & ->).
    exists n. cbn [Kimai.page Kimai.df_list Kimai.requested app] in *. auto.
  - intros get n code data fuel Hfull Hget Hcode Hfuel.
    unfold Kimai.fetch_paginated.
    rewrite (page_loop_run get n); cbn [Kimai.page Kimai.df_list Kimai.requested app]; auto.
    unfold Claims.full_page. rewrite Hget.
    destruct data as [[| r l] |]; try reflexivity.
    now apply Z.eqb_neq.
  - intros year get_page date_range st st' Hstep.
    pose proof (extract_step_cases year get_page date_range st) as H.
    rewrite Hstep in H.
    destruct H as (Hp & _ & _ & sent & req & r & l & cur & pc & Hreq & _ & Hlast & Hget).
    split; [exact Hp |]. exists sent, req, r, l, cur, pc. auto.
  - intros year get_page date_range st code data fuel Hp Hget Hcode.
    cbn [ServiceFusion.extract_loop]. unfold ServiceFusion.extract_step.
    fold (Claims.sorted_request (ServiceFusion.page st)). rewrite Hget.
    apply Z.eqb_neq in Hcode. rewrite Hcode.
    apply Z.eqb_neq in Hp. rewrite Hp. reflexivity.
  - intros year get_page date_range st code data fuel Hp Hget Hcode.
    apply Z.eqb_neq in Hcode.
    assert (Hstep : ServiceFusion.extract_step year get_page date_range st =
              let st2 := ServiceFusion.mkState (ServiceFusion.page st)
                           (ServiceFusion.all_records st)
                           ((ServiceFusion.requests st ++ [Claims.sorted_request 1])
                              ++ [ServiceFusion.mkRequest false None]) in
              match get_page (ServiceFusion.mkRequest false None) with
              | Http.Raised => inr st2
              | Http.Response code2 data2 =>
                  if code2 =? 200
                  then ServiceFusion.handle_page year date_range st2 data2
                  else inr st2
              end).
    { unfold ServiceFusion.extract_step.
      fold (Claims.sorted_request (ServiceFusion.page st)).
      rewrite Hp, Hget, Hcode. reflexivity. }
    split.
    + intros st' Hst'. rewrite Hstep in Hst'. cbv zeta in Hst'.
      rewrite <- app_assoc in Hst'. cbn [app] in Hst'.
      destruct (get_page (ServiceFusion.mkRequest false None)) as [| code2 data2].
      * destruct Hst' as [Hst' | Hst']; [discriminate | now injection Hst' as <-].
      * destruct (code2 =? 200).
        -- match type of Hst' with
           | context [ServiceFusion.handle_page _ _ ?s data2] =>
               pose proof (handle_page_cases year date_range s data2) as H;
               destruct (ServiceFusion.handle_page year date_range s data2) as [s' | s']
           end; cbn [ServiceFusion.requests] in H.
           ++ destruct Hst' as [Hst' | Hst']; [| discriminate].
              injection Hst' as <-. tauto.
           ++ destruct Hst' as [Hst' | Hst']; [discriminate |].
              injection Hst' as <-. tauto.
        -- destruct Hst' as [Hst' | Hst']; [discriminate | now injection Hst' as <-].
    + intros H2. cbn [ServiceFusion.extract_loop]. rewrite Hstep. cbv zeta.
      rewrite <- app_assoc. cbn [app]. rewrite Hp.
      destruct (get_page (ServiceFusion.mkRequest false None)) as [| code2 data2];
        [reflexivity |].
      apply Z.eqb_neq in H2. now rewrite H2.
Qed.

(** C7 as stated fails on the Service Fusion extractor: the first response
    is a 500, and the extractor sends a second request and returns the record
    of its answer. *)
Lemma service_fusion_retries_after_first_failure :
  ServiceFusion.fetch retry_api ServiceFusion.jobs (Claims.sorted_request 1)
  = Http.Response 500 ServiceFusion.NotAnObject /\
  ServiceFusion.extract_trace 2024 retry_api ServiceFusion.jobs "Year to Date"
  = Some (ServiceFusion.mkState 1 [sample_job]
            [Claims.sorted_request 1; ServiceFusion.mkRequest false None]) /\
  ServiceFusion.extract_with_forced_sort 2024 retry_api ServiceFusion.jobs "Year to Date"
  = [sample_job].
Proof. repeat split; vm_compute; reflexivity. Qed.

(** ** The invoice matcher *)

Lemma find_none_iff {A : Type} (f : A -> bool) (l : list A) :
  find f l = None <-> forall y, In y l -> f y = false.
Proof.
  split.
  - intros H y Hy. now apply (find_none _ _ H).
  - induction l as [| y l IH]; [reflexivity |]. intros H. cbn [find].
    rewrite (H y) by now left. apply IH. intros z Hz. apply H. now right.
Qed.

Lemma add_invoice_lookup (d : list (string * list ServiceFusion.obj)) (c n : string)
    (inv : ServiceFusion.obj) :
  ServiceFusion.customer_invoices_of (ServiceFusion.add_invoice d c inv) (Some n)
  = ServiceFusion.customer_invoices_of d (Some n) ++ (if String.eqb c n then [inv] else []).
Proof.
  unfold ServiceFusion.customer_invoices_of.
  induction d as [| [c' l] d IH]; cbn [ServiceFusion.add_invoice find fst snd].
  - destruct (String.eqb c n); reflexivity.
  - destruct (String.eqb_spec c c') as [<- | Hcc'].
    + cbn [find fst snd]. destruct (String.eqb c n); [reflexivity |].
      rewrite app_nil_r. reflexivity.
    + cbn [find fst snd]. destruct (String.eqb_spec c' n) as [-> | Hc'n].
      * destruct (String.eqb_spec c n) as [-> | _]; [contradiction |].
        now rewrite app_nil_r.
      * exact IH.
Qed.

(** C2.  The matcher on the specification's two examples, and on the input
    where it departs from the specification.  With job total 100 and
    invoice totals 85, 130 and 109 it takes 109, the first within 10%
    ("Amount Match"); with job total 0 and invoices dated 2024-01-01 and
    2024-03-01 it takes the later one ("Most Recent"); an invoice without a
    [date] key counts as dated [''] and loses to a dated one; with no
    invoice there is no match.  But when one of two invoices has a [null]
    date, [x.get('date', '')] hands [None] to [sorted], the comparison
    raises, and the job gets no match and no summary row at all, where the
    specification has the most recent invoice selected. *)
Theorem null_date_defeats_most_recent :
  ServiceFusion.match_invoice (sample_job_with_total 100)
    [sample_invoice 85 "2024-01-05"; sample_invoice 130 "2024-03-05";
     sample_invoice 109 "2024-02-05"]
  = ServiceFusion.Match (Some (sample_invoice 109 "2024-02-05")) "Amount Match" /\
  ServiceFusion.match_invoice (sample_job_with_total 0)
    [sample_invoice 50 "2024-01-01"; sample_invoice 60 "2024-03-01"]
  = ServiceFusion.Match (Some (sample_invoice 60 "2024-03-01")) "Most Recent" /\
  ServiceFusion.match_invoice (sample_job_with_total 0)
    [dateless_invoice 50; sample_invoice 60 "2024-03-01"]
  = ServiceFusion.Match (Some (sample_invoice 60 "2024-03-01")) "Most Recent" /\
  ServiceFusion.match_invoice (sample_job_with_total 0) []
  = ServiceFusion.Match None "None" /\
  ServiceFusion.match_invoice (sample_job_with_total 0)
    [undated_invoice 50; sample_invoice 60 "2024-03-01"]
  = ServiceFusion.MatchRaised /\
  ServiceFusion.create_powerbi_summary no_isoformat
    (ServiceFusion.mkData [] [sample_job_with_total 0] []
       [undated_invoice 50; sample_invoice 60 "2024-03-01"])
  = [] /\
  length (ServiceFusion.create_powerbi_summary no_isoformat
            (ServiceFusion.mkData [] [sample_job_with_total 0] []
               [dateless_invoice 50; sample_invoice 60 "2024-03-01"]))
  = 1%nat.
Proof. repeat split; vm_compute; reflexivity. Qed.

(** ** The due date *)

Lemma truthy_nonempty (s : string) :
  s <> ""%string -> ServiceFusion.truthy (Some s) = true.
Proof. destruct s; [congruence | reflexivity]. Qed.

Lemma strptime_Ymd_valid (s : string) (dt : ServiceFusion.datetime) :
  ServiceFusion.strptime_Ymd s = Some dt ->
  Calendar.valid_date (ServiceFusion.dt_date dt) = true.
Proof.
  unfold ServiceFusion.strptime_Ymd.
  repeat match goal with
         | |- context [match ?x with _ => _ end] => destruct x eqn:?; try discriminate
         end.
  intros [= <-]. assumption.
Qed.

(** Adding days moves the day number by as much, keeps the time of day, and
    stays in the calendar. *)
Lemma add_days_spec (dt : ServiceFusion.datetime) (n : Z) :
  1 <= Calendar.toordinal (ServiceFusion.dt_date dt) + n <= Calendar.MAXORDINAL ->
  exists due,
    ServiceFusion.add_days dt n = Some due /\
    Calendar.valid_date (ServiceFusion.dt_date due) = true /\
    Calendar.toordinal (ServiceFusion.dt_date due)
    = Calendar.toordinal (ServiceFusion.dt_date dt) + n /\
    ServiceFusion.dt_hour due = ServiceFusion.dt_hour dt /\
    ServiceFusion.dt_minute due = ServiceFusion.dt_minute dt /\
    ServiceFusion.dt_second due = ServiceFusion.dt_second dt.
Proof.
  intros Hrange. unfold ServiceFusion.add_days. cbv zeta.
  destruct (Z.leb_spec 1 (Calendar.toordinal (ServiceFusion.dt_date dt) + n)); [| lia].
  destruct (Z.leb_spec (Calendar.toordinal (ServiceFusion.dt_date dt) + n)
              Calendar.MAXORDINAL); [| lia].
  cbn [andb]. eexists. split; [reflexivity |].
  cbn [ServiceFusion.dt_date ServiceFusion.dt_hour ServiceFusion.dt_minute
       ServiceFusion.dt_second].
  split; [now apply fromordinal_valid |]. split; [apply toordinal_fromordinal |]. auto.
Qed.

Lemma add_days_overflow (dt : ServiceFusion.datetime) (n : Z) :
  Calendar.MAXORDINAL < Calendar.toordinal (ServiceFusion.dt_date dt) + n ->
  ServiceFusion.add_days dt n = None.
Proof.
  intros H. unfold ServiceFusion.add_days. cbv zeta.
  destruct (Z.leb_spec (Calendar.toordinal (ServiceFusion.dt_date dt) + n)
              Calendar.MAXORDINAL); [lia |].
  now rewrite andb_false_r.
Qed.

(** C9, as amended.  For an invoice date from year 1000 on, which [%Y]
    prints with four digits, the due date is the invoice date plus 15
    calendar days (the one date of the calendar whose day number is 15 more)
    whenever that
    day is not past 9999-12-31: printed as a date
    ([YYYY-MM-DD], read from the first ten characters) when the stripped
    string has no letter T, and as [YYYY-MM-DDTHH:MM:SS+00:00], with the time
    of day of the invoice kept and its UTC offset dropped, when it has one.
    The field is [None] when no invoice matched, when the date is missing,
    empty or does not parse, and when the due date would be past
    9999-12-31. *)
Theorem due_date_is_fifteen_days_after_invoice_date :
  forall (fromisoformat : string -> option ServiceFusion.datetime) (invoice_date : string),
    let date_str := Text.strip invoice_date in
    let parsed :=
      if Text.contains "T" date_str
      then fromisoformat (if Text.contains "Z" date_str
                          then ServiceFusion.replace_Z date_str else date_str)
      else ServiceFusion.strptime_Ymd (Text.take 10 date_str) in
    (forall dt : ServiceFusion.datetime,
        invoice_date <> ""%string ->
        parsed = Some dt ->
        Calendar.valid_date (ServiceFusion.dt_date dt) = true ->
        1000 <= Calendar.year (ServiceFusion.dt_date dt) ->
        Calendar.toordinal (ServiceFusion.dt_date dt) + 15 <= Calendar.MAXORDINAL ->
        exists due : ServiceFusion.datetime,
          ServiceFusion.calculate_due_date fromisoformat (Some invoice_date)
          = Some (if Text.contains "T" date_str
                  then ServiceFusion.strftime_datetime due
                  else ServiceFusion.strftime_date due) /\
          Calendar.valid_date (ServiceFusion.dt_date due) = true /\
          Calendar.toordinal (ServiceFusion.dt_date due)
          = Calendar.toordinal (ServiceFusion.dt_date dt) + 15 /\
          (forall d : Calendar.date,
              Calendar.valid_date d = true ->
              Calendar.toordinal d = Calendar.toordinal (ServiceFusion.dt_date dt) + 15 ->
              d = ServiceFusion.dt_date due) /\
          ServiceFusion.dt_hour due = ServiceFusion.dt_hour dt /\
          ServiceFusion.dt_minute due = ServiceFusion.dt_minute dt /\
          ServiceFusion.dt_second due = ServiceFusion.dt_second dt) /\
    (forall dt : ServiceFusion.datetime,
        Text.contains "T" date_str = false -> parsed = Some dt ->
        Calendar.valid_date (ServiceFusion.dt_date dt) = true /\
        ServiceFusion.dt_hour dt = 0 /\ ServiceFusion.dt_minute dt = 0 /\
        ServiceFusion.dt_second dt = 0) /\
    (parsed = None ->
       ServiceFusion.calculate_due_date fromisoformat (Some invoice_date) = None) /\
    (forall dt : ServiceFusion.datetime,
        parsed = Some dt ->
        Calendar.MAXORDINAL < Calendar.toordinal (ServiceFusion.dt_date dt) + 15 ->
        ServiceFusion.calculate_due_date fromisoformat (Some invoice_date) = None) /\
    ServiceFusion.calculate_due_date fromisoformat None = None /\
    ServiceFusion.calculate_due_date fromisoformat (Some ""%string) = None /\
    (forall (by_customer : list (string * list ServiceFusion.obj)) (job : ServiceFusion.obj)
            (r : ServiceFusion.summary),
        ServiceFusion.job_record fromisoformat by_customer job = Some r ->
        ServiceFusion.Invoice_ECD_Due_Date r
        = ServiceFusion.calculate_due_date fromisoformat (ServiceFusion.Invoice_Date r) /\
        (ServiceFusion.Has_Related_Invoices r = false ->
         ServiceFusion.Invoice_ECD_Due_Date r = None)).
Proof.
  intros fromisoformat invoice_date date_str parsed.
  assert (Hdef : forall s, s <> ""%string ->
            ServiceFusion.calculate_due_date fromisoformat (Some s) =
            match (if Text.contains "T" (Text.strip s)
                   then fromisoformat (if Text.contains "Z" (Text.strip s)
                                       then ServiceFusion.replace_Z (Text.strip s)
                                       else Text.strip s)
                   else ServiceFusion.strptime_Ymd (Text.take 10 (Text.strip s))) with
            | None => None
            | Some dt =>
                match ServiceFusion.add_days dt 15 with
                | None => None
                | Some due_dt =>
                    if Text.contains "T" (Text.strip s)
                    then Some (ServiceFusion.strftime_datetime due_dt)
                    else Some (ServiceFusion.strftime_date due_dt)
                end
            end).
  { intros s Hs. unfold ServiceFusion.calculate_due_date.
    rewrite (truthy_nonempty s Hs). cbn [negb]. cbv zeta.
    destruct (Text.contains "T" (Text.strip s)); [| reflexivity].
    destruct (Text.contains "Z" (Text.strip s)); reflexivity. }
  split; [| split; [| split; [| split; [| split; [| split]]]]].
  - intros dt Hne Hparsed Hvalid _ Hmax.
    destruct (add_days_spec dt 15) as (due & Hadd & Hv & Hord & Hh & Hm & Hs).
    { pose proof (toordinal_valid_pos _ Hvalid). lia. }
    exists due. rewrite (Hdef _ Hne). fold date_str. fold parsed.
    rewrite Hparsed, Hadd.
    assert (Huniq : forall d : Calendar.date,
               Calendar.valid_date d = true ->
               Calendar.toordinal d = Calendar.toordinal (ServiceFusion.dt_date dt) + 15 ->
               d = ServiceFusion.dt_date due).
    { intros d Hd Hdo. apply toordinal_injective; [assumption | assumption | lia]. }
    destruct (Text.contains "T" date_str); repeat split; assumption.
  - intros dt HT Hparsed. unfold parsed in Hparsed. rewrite HT in Hparsed.
    split; [eapply strptime_Ymd_valid; eassumption |].
    unfold ServiceFusion.strptime_Ymd in Hparsed.
    repeat match type of Hparsed with
           | context [match ?x with _ => _ end] => destruct x eqn:?; try discriminate
           end.
    injection Hparsed as <-. auto.
  - intros Hparsed. destruct (string_dec invoice_date "") as [-> | Hne]; [reflexivity |].
    rewrite (Hdef _ Hne). fold date_str. fold parsed. now rewrite Hparsed.
  - intros dt Hparsed Hover.
    destruct (string_dec invoice_date "") as [-> | Hne]; [reflexivity |].
    rewrite (Hdef _ Hne). fold date_str. fold parsed.
    now rewrite Hparsed, add_days_overflow.
  - reflexivity.
  - reflexivity.
  - intros by_customer job r Hr. unfold ServiceFusion.job_record in Hr.
    destruct (ServiceFusion.match_invoice job _) as [| related method]; [discriminate |].
    injection Hr as <-. cbn [ServiceFusion.Invoice_ECD_Due_Date ServiceFusion.Invoice_Date
                              ServiceFusion.Has_Related_Invoices].
    split; [reflexivity |]. destruct related; [discriminate | reflexivity].
Qed.

(** C9 as stated fails at both ends.  The date 9999-12-20 parses, but the
    due date is past the last day of Python's calendar and the field is
    [None]; and a date with a time of day after a space, not after the letter
    T, parses and gets a due date without time. *)
Lemma due_date_overflow_and_time_without_T :
  ServiceFusion.strptime_Ymd "9999-12-20"
  = Some (ServiceFusion.mkDatetime (Calendar.mkDate 9999 12 20) 0 0 0) /\
  (forall fromisoformat,
      ServiceFusion.calculate_due_date fromisoformat (Some "9999-12-20"%string) = None) /\
  (forall fromisoformat,
      ServiceFusion.calculate_due_date fromisoformat (Some "2024-01-20 10:30:00"%string)
      = Some "2024-02-04"%string).
Proof.
  split; [reflexivity |]. split; intros fromisoformat; reflexivity.
Qed.

(** ** The customer reports *)

Section ReportShape.
Variable today : Calendar.date.
Variable set_iter : list string -> list string.

Lemma customer_sheets_spec grouped df_ytd (wb : Xlsx.workbook) :
  Kimai.customer_sheets set_iter grouped df_ytd wb
  = wb ++ map (Claims.customer_sheet grouped df_ytd) (Kimai.all_expected_customers set_iter).
Proof.
  unfold Kimai.customer_sheets.
  generalize (Kimai.all_expected_customers set_iter). intros l. revert wb.
  induction l as [| c l IH]; intros wb; cbn [fold_left map].
  - now rewrite app_nil_r.
  - rewrite IH. unfold Claims.customer_sheet at 2.
    destruct (existsb _ _); unfold Xlsx.create_sheet;
      rewrite <- app_assoc; reflexivity.
Qed.

Lemma all_expected_customers_eq :
  Kimai.all_expected_customers set_iter = set_iter Claims.reported_customers.
Proof. reflexivity. Qed.

(** The sheets of the main workbook, in order: the three summaries, the
    break analysis if there are breaks, and one sheet per customer of the
    roster other than "General Admin". *)
Lemma customer_workbook_shape timesheets_df breaks_df :
  let df_ytd := Kimai.df_customers timesheets_df in
  let grouped := Kimai.grouped_total_ytd df_ytd in
  Kimai.customer_workbook today set_iter timesheets_df breaks_df
  = [ ("Employee Summary"%string, Kimai.employee_summary today grouped);
      ("Activity Details"%string, Kimai.activity_details df_ytd);
      ("Customer Hours Summary"%string, Kimai.customer_hours_summary df_ytd) ]
    ++ match breaks_df with
       | [] => []
       | _ => [("YTD Break Analysis"%string, Kimai.break_analysis breaks_df)]
       end
    ++ map (Claims.customer_sheet grouped df_ytd) (set_iter Claims.reported_customers).
Proof.
  intros df_ytd grouped. unfold Kimai.customer_workbook. fold df_ytd. fold grouped.
  rewrite customer_sheets_spec, all_expected_customers_eq.
  destruct breaks_df; reflexivity.
Qed.
End ReportShape.

(** A group of [groupby] has a row with its key. *)
Lemma groupby_sum_key {R K : Type} (cmp : K -> K -> comparison) (key : R -> option K)
    (value : R -> Q) (rows : list R) (k : K) (v : Q) :
  In (k, v) (Kimai.groupby_sum cmp key value rows) ->
  exists r, In r rows /\ key r = Some k.
Proof.
  unfold Kimai.groupby_sum. cbv zeta. intros H.
  apply in_map_iff in H. destruct H as (k' & [= -> _] & Hk).
  apply (Permutation_in _ (stable_sort_perm _ _)) in Hk.
  apply unique_incl in Hk. apply in_map_iff in Hk.
  destruct Hk as ([k0 v0] & Hfst & Hin). cbn [fst] in Hfst. subst k0.
  unfold Kimai.keyed_rows in Hin. apply in_flat_map in Hin.
  destruct Hin as (r & Hr & Hkv). exists r. split; [exact Hr |].
  destruct (key r) as [k1 |]; [| destruct Hkv].
  destruct Hkv as [[= -> _] | []]. reflexivity.
Qed.

(** Rows without a missing key are all that [groupby] sees. *)
Lemma groupby_sum_drops_missing {R K : Type} (cmp : K -> K -> comparison)
    (key : R -> option K) (value : R -> Q) (rows : list R) :
  Kimai.groupby_sum cmp key value rows
  = Kimai.groupby_sum cmp key value
      (filter (fun r => match key r with Some _ => true | None => false end) rows).
Proof.
  unfold Kimai.groupby_sum. cbv zeta.
  assert (E : Kimai.keyed_rows key value rows
              = Kimai.keyed_rows key value
                  (filter (fun r => match key r with Some _ => true | None => false end)
                          rows)).
  { unfold Kimai.keyed_rows. induction rows as [| r rows IH]; [reflexivity |].
    cbn [flat_map filter]. destruct (key r) eqn:Ek; cbn [flat_map]; rewrite ?Ek, IH;
      reflexivity. }
  now rewrite <- E.
Qed.

Lemma roster_titles_fit :
  Forall (fun c => Text.take 31 c = c) Kimai.EXPECTED_CUSTOMERS.
Proof. repeat constructor. Qed.

Lemma reported_customers_in (c : string) :
  In c Claims.reported_customers <->
  In c Kimai.EXPECTED_CUSTOMERS /\ c <> "General Admin"%string.
Proof.
  unfold Claims.reported_customers. rewrite filter_In, negb_true_iff, String.eqb_neq.
  reflexivity.
Qed.

Lemma find_customer_sheet grouped df_ytd (l : list string) (c : string) :
  In c l -> Forall (fun x => Text.take 31 x = x) l ->
  find (fun s : Xlsx.sheet => String.eqb (fst s) c)
       (map (Claims.customer_sheet grouped df_ytd) l)
  = Some (Claims.customer_sheet grouped df_ytd c).
Proof.
  intros Hin Hfit. induction l as [| x l IH]; [destruct Hin |].
  cbn [map find]. inversion Hfit as [| ? ? Hx Hl]; subst.
  unfold Claims.customer_sheet at 1. cbn [fst]. rewrite Hx.
  destruct (String.eqb_spec x c) as [-> | Hne].
  - reflexivity.
  - destruct Hin as [-> | Hin]; [contradiction |]. now apply IH.
Qed.

Lemma find_app_skip {A : Type} (f : A -> bool) (l1 l2 : list A) :
  Forall (fun x => f x = false) l1 -> find f (l1 ++ l2) = find f l2.
Proof.
  induction 1 as [| x l1 Hx _ IH]; [reflexivity |]. cbn [app find]. now rewrite Hx.
Qed.

(** ** The customer roster *)

Lemma roster_not_summary_titles :
  Forall (fun c => c <> "Employee Summary" /\ c <> "Activity Details" /\
                   c <> "Customer Hours Summary" /\ c <> "YTD Break Analysis")%string
         Kimai.EXPECTED_CUSTOMERS.
Proof. repeat constructor; discriminate. Qed.

Lemma fixed_titles_NoDup (with_breaks : bool) :
  NoDup (["Employee Summary"; "Activity Details"; "Customer Hours Summary"]%string
           ++ (if with_breaks then ["YTD Break Analysis"%string] else [])
           ++ Claims.reported_customers).
Proof.
  destruct with_breaks; vm_compute;
    repeat (constructor;
            [ cbn [In]; intros H;
              repeat (destruct H as [H | H]; [discriminate H |]); exact H |]);
    constructor.
Qed.

Section Roster.
Variable today : Calendar.date.
Variable set_iter : list string -> list string.
Hypothesis set_iter_perm : Claims.set_iteration set_iter.

Lemma iterated_customers_fit :
  Forall (fun x => Text.take 31 x = x) (set_iter Claims.reported_customers).
Proof.
  apply Forall_forall. intros c Hc.
  apply (Permutation_in _ (set_iter_perm _)) in Hc.
  apply reported_customers_in in Hc. destruct Hc as [Hc _].
  pose proof roster_titles_fit as H. rewrite Forall_forall in H. now apply H.
Qed.

Lemma customer_sheet_titles grouped df_ytd :
  map fst (map (Claims.customer_sheet grouped df_ytd) (set_iter Claims.reported_customers))
  = set_iter Claims.reported_customers.
Proof.
  pose proof iterated_customers_fit as H.
  induction H as [| c l Hc _ IH]; [reflexivity |].
  cbn [map]. rewrite IH. unfold Claims.customer_sheet at 1. cbn [fst]. now rewrite Hc.
Qed.

(** No two sheets of the main workbook have the same title, so openpyxl
    never has to rename one. *)
Lemma sheet_titles_NoDup timesheets_df breaks_df :
  NoDup (Xlsx.titles (Kimai.customer_workbook today set_iter timesheets_df breaks_df)).
Proof.
  rewrite customer_workbook_shape. cbv zeta. unfold Xlsx.titles.
  rewrite !map_app, customer_sheet_titles.
  set (with_breaks := match breaks_df with [] => false | _ => true end).
  eapply Permutation_NoDup; [| apply (fixed_titles_NoDup with_breaks)].
  apply Permutation_app_head.
  replace (map fst match breaks_df with
                   | [] => []
                   | _ :: _ => [("YTD Break Analysis"%string, Kimai.break_analysis breaks_df)]
                   end)
    with (if with_breaks then ["YTD Break Analysis"%string] else [])
    by (unfold with_breaks; destruct breaks_df; reflexivity).
  apply Permutation_app_head. apply Permutation_sym, set_iter_perm.
Qed.

Lemma no_data_no_group timesheets_df (customer : string) :
  (forall r, In r timesheets_df -> Kimai.m_customer r <> Some customer) ->
  existsb (String.eqb customer)
    (Py.unique String.eqb
       (map (fun r : string * string * Q => fst (fst r))
            (Kimai.grouped_total_ytd (Kimai.df_customers timesheets_df)))) = false.
Proof.
  intros Hnone.
  destruct (existsb _ _) eqn:E; [| reflexivity]. exfalso.
  apply existsb_exists in E. destruct E as (x & Hx & Heq).
  apply String.eqb_eq in Heq. subst x.
  apply unique_incl in Hx. apply in_map_iff in Hx.
  destruct Hx as ([[c u] v] & Hc & Hin). cbn [fst] in Hc. subst c.
  unfold Kimai.grouped_total_ytd in Hin.
  apply groupby_sum_key in Hin. destruct Hin as (r & Hr & Hkey).
  unfold Kimai.df_customers in Hr. apply filter_In in Hr. destruct Hr as [Hr _].
  apply (Hnone r Hr).
  unfold Kimai.key_customer_user, Kimai.opt_pair in Hkey.
  destruct (Kimai.m_customer r); [| discriminate].
  destruct (Kimai.m_user r); [| discriminate]. now injection Hkey as -> _.
Qed.

(** C3, as amended.  Every customer of the roster other than "General
    Admin" has a sheet of its own in the report workbook, whatever the data
    and whatever the order in which the roster is run through; the sheet
    starts with the fixed header row, and when no record carries the
    customer it holds the header and the one placeholder row of zeros.
    "General Admin" is in the roster and never has a sheet. *)
Theorem every_reported_customer_has_a_sheet :
  forall (timesheets_df : list Kimai.mapped) (breaks_df : list Kimai.break_record)
         (customer : string),
    In customer Kimai.EXPECTED_CUSTOMERS ->
    customer <> "General Admin"%string ->
    let wb := Kimai.customer_workbook today set_iter timesheets_df breaks_df in
    NoDup (Xlsx.titles wb) /\
    (exists rows : list Xlsx.row,
        Xlsx.find_sheet wb customer = Some (Kimai.customer_header :: rows) /\
        ((forall r, In r timesheets_df -> Kimai.m_customer r <> Some customer) ->
         rows = [Kimai.placeholder_row])) /\
    In "General Admin"%string Kimai.EXPECTED_CUSTOMERS /\
    Xlsx.find_sheet wb "General Admin" = None.
Proof.
  intros timesheets_df breaks_df customer Hin Hne wb.
  split; [apply sheet_titles_NoDup |].
  assert (Hshape := customer_workbook_shape today set_iter timesheets_df breaks_df).
  cbv zeta in Hshape. fold wb in Hshape.
  set (df_ytd := Kimai.df_customers timesheets_df) in *.
  set (grouped := Kimai.grouped_total_ytd df_ytd) in *.
  pose proof roster_not_summary_titles as Hfixed. rewrite Forall_forall in Hfixed.
  split; [| split].
  - destruct (Hfixed customer Hin) as (H1 & H2 & H3 & H4).
    assert (Hfind : Xlsx.find_sheet wb customer
                    = Some (snd (Claims.customer_sheet grouped df_ytd customer))).
    { unfold Xlsx.find_sheet. rewrite Hshape.
      rewrite find_app_skip.
      2:{ repeat constructor; cbn [fst]; now apply String.eqb_neq. }
      rewrite find_app_skip.
      2:{ destruct breaks_df; repeat constructor; cbn [fst]; now apply String.eqb_neq. }
      rewrite find_customer_sheet; [reflexivity | | apply iterated_customers_fit].
      apply (Permutation_in _ (Permutation_sym (set_iter_perm _))).
      now apply reported_customers_in. }
    unfold Claims.customer_sheet in Hfind. cbn [snd] in Hfind.
    destruct (existsb (String.eqb customer) _) eqn:E.
    + unfold Kimai.customer_data_rows in Hfind. eexists. split; [exact Hfind |].
      intros Hnone. pose proof (no_data_no_group timesheets_df customer Hnone) as Hno.
      fold df_ytd in Hno. fold grouped in Hno. congruence.
    + exists [Kimai.placeholder_row]. split; [exact Hfind | reflexivity].
  - vm_compute. tauto.
  - unfold Xlsx.find_sheet. rewrite Hshape.
    rewrite find_app_skip by (repeat constructor).
    rewrite find_app_skip by (destruct breaks_df; repeat constructor).
    match goal with |- option_map _ ?f = None => assert (Hnone : f = None) end;
      [| now rewrite Hnone].
    apply find_none_iff. intros s Hs.
    apply String.eqb_neq. intros Heq.
    assert (Ht : In (fst s) (set_iter Claims.reported_customers)).
    { rewrite <- (customer_sheet_titles grouped df_ytd). now apply in_map. }
    apply (Permutation_in _ (set_iter_perm _)) in Ht.
    apply reported_customers_in in Ht. tauto.
Qed.
End Roster.

Lemma every_reported_customer_has_a_sheet_witness :
  exists rows : list Xlsx.row,
    Xlsx.find_sheet (Kimai.customer_workbook sample_today (fun l => l) sample_mapped [])
      "DUKE" = Some (Kimai.customer_header :: rows) /\
    rows = [Kimai.placeholder_row].
Proof.
  destruct (every_reported_customer_has_a_sheet sample_today (fun l => l)
              (fun l => Permutation_refl l) sample_mapped [] "DUKE"%string)
    as (_ & (rows & Hfind & Hrows) & _).
  - vm_compute. tauto.
  - discriminate.
  - exists rows. split; [exact Hfind |]. apply Hrows.
    intros r Hr. vm_compute in Hr.
    repeat (destruct Hr as [<- | Hr]; [discriminate |]). destruct Hr.
Defined.

(** C3 as stated fails for "General Admin": it is in the roster, and the
    workbook has no sheet for it, with or without records of its own. *)
Lemma general_admin_has_no_sheet :
  In "General Admin"%string Kimai.EXPECTED_CUSTOMERS /\
  Xlsx.find_sheet (Kimai.customer_workbook sample_today (fun l => l) sample_mapped [])
    "General Admin" = None /\
  Xlsx.find_sheet (Kimai.customer_workbook sample_today (fun l => l) [] [])
    "General Admin" = None.
Proof. split; [vm_compute; tauto | split; reflexivity]. Qed.

(** ** Unresolved names, and runs without records *)

(** The grouping by customer and employee sees only the rows that have
    both. *)
Lemma grouped_total_ignores_missing_names (df_ytd : list Kimai.mapped) :
  Kimai.grouped_total_ytd df_ytd
  = Kimai.grouped_total_ytd
      (filter (fun r => match Kimai.m_customer r, Kimai.m_user r with
                        | Some _, Some _ => true
                        | _, _ => false
                        end) df_ytd).
Proof.
  unfold Kimai.grouped_total_ytd. rewrite groupby_sum_drops_missing at 1.
  f_equal. apply filter_ext. intros r.
  unfold Kimai.key_customer_user, Kimai.opt_pair.
  destruct (Kimai.m_customer r), (Kimai.m_user r); reflexivity.
Qed.

(** C5, the code at the failing input.  The user id 8 has no entry among the
    users: the resolver gives the row a missing user name and raises
    nothing, but the reports then lose the row instead of putting it in an
    "unknown" bucket.  Its hour is in no row of the Employee Summary, of the
    Activity Details or of the Weekly Summary, the sheet of its customer
    holds the placeholder of zeros, and only the Customer Hours Summary
    counts it. *)
Theorem unknown_user_hours_are_dropped :
  let result := Kimai.process_timesheet_mappings sample_offset frames_with_unknown_user in
  let timesheets_df := match fst result with Some df => df | None => [] end in
  let wb := Kimai.customer_workbook sample_today (fun l => l) timesheets_df (snd result) in
  fst result
  = Some [Kimai.mkMapped (Some "dev") (Some "grid") None (Some "TECO") (Some 19786)
            (Some (Py.round 1 2))]%string /\
  Xlsx.find_sheet wb "Employee Summary"
  = Some [[Xlsx.Str "Customer"; Xlsx.Str "Employee"; Xlsx.Str "TotalHours";
           Xlsx.Str "Date"]] /\
  Xlsx.find_sheet wb "Activity Details"
  = Some [[Xlsx.Str "Customer"; Xlsx.Str "Employee"; Xlsx.Str "Project";
           Xlsx.Str "Activity"; Xlsx.Str "Hours"; Xlsx.Str "Date"]] /\
  Xlsx.find_sheet wb "TECO" = Some [Kimai.customer_header; Kimai.placeholder_row] /\
  Xlsx.find_sheet wb "Customer Hours Summary"
  = Some [[Xlsx.Str "Customer"; Xlsx.Str "TotalHours"; Xlsx.Str "Percentage"];
          [Xlsx.Str "TECO"; Xlsx.Num (Py.round 1 2); Xlsx.Num (Py.round 100 1)]] /\
  Xlsx.find_sheet (Kimai.summary_workbook timesheets_df) "Weekly Summary"
  = Some [[]; [Xlsx.Str "METRIC"; Xlsx.Str "VALUE"];
          [Xlsx.Str "Total Hours"; Xlsx.Num (Py.round 0 2)];
          [Xlsx.Str "Total Employees"; Xlsx.Int 0];
          [Xlsx.Str "Average Hours"; Xlsx.Int 0]] /\
  (forall s, In s wb -> forall row, In row (snd s) -> ~ In (Xlsx.Str "None") row).
Proof.
  cbv zeta. repeat split; try (vm_compute; reflexivity).
  intros s Hs row Hrow Hcell. vm_compute in Hs.
  repeat (destruct Hs as [<- | Hs];
          [ cbn [snd] in Hrow;
            repeat (destruct Hrow as [<- | Hrow];
                    [ cbn [In] in Hcell;
                      repeat (destruct Hcell as [Hcell | Hcell]; [discriminate Hcell |]);
                      exact Hcell |]);
            exact Hrow |]).
  exact Hs.
Qed.

Section EmptyRuns.
Variable fromisoformat : string -> option ServiceFusion.datetime.
Variable now : ServiceFusion.datetime.

Lemma raw_sheets_fold (l : list (ServiceFusion.endpoint * list ServiceFusion.obj))
    (wb : Xlsx.workbook) :
  fold_left (fun wb (e : ServiceFusion.endpoint * list ServiceFusion.obj) =>
      match snd e with
      | [] => wb
      | _ => Xlsx.create_sheet wb (Text.take 31 (ServiceFusion.endpoint_name (fst e))) None
               (ServiceFusion.raw_header :: map ServiceFusion.raw_row (snd e))
      end) l wb
  = wb ++ flat_map Claims.raw_sheet l.
Proof.
  revert wb. induction l as [| e l IH]; intros wb; cbn [fold_left flat_map].
  - now rewrite app_nil_r.
  - rewrite IH. unfold Claims.raw_sheet at 2.
    destruct (snd e); cbn [app]; [reflexivity |].
    unfold Xlsx.create_sheet. now rewrite <- app_assoc.
Qed.

Lemma save_to_excel_shape (data : ServiceFusion.all_data) :
  ServiceFusion.save_to_excel fromisoformat now data
  = [ ("PowerBI_Summary"%string,
       ServiceFusion.powerbi_header
         :: map ServiceFusion.powerbi_row
              (ServiceFusion.create_powerbi_summary fromisoformat data));
      ("Extraction_Summary"%string,
       [Xlsx.Str "Endpoint"; Xlsx.Str "Record Count"; Xlsx.Str "Extracted At"]
         :: map (fun e : ServiceFusion.endpoint * list ServiceFusion.obj =>
                   [Xlsx.Str (ServiceFusion.endpoint_name (fst e));
                    Xlsx.Int (Z.of_nat (length (snd e)));
                    Xlsx.Stamp (ServiceFusion.now_stamp now)])
                (ServiceFusion.endpoints_of (snd (ServiceFusion.jobs_of data)))) ]
    ++ flat_map Claims.raw_sheet
         (ServiceFusion.endpoints_of (snd (ServiceFusion.jobs_of data))).
Proof.
  unfold ServiceFusion.save_to_excel. cbv zeta.
  rewrite raw_sheets_fold. reflexivity.
Qed.

(** C4, as amended.  The two pipelines differ.  Service Fusion: with its
    credentials present a run always completes with exit code 0 and one
    workbook, and when neither jobs nor estimates came back the
    PowerBI_Summary sheet holds the header row alone.  Kimai: when the first
    timesheet page brings no record the run fails, with exit code 1 and no
    file at all, whatever the lookup endpoints answer. *)
Theorem empty_extraction_completes_for_service_fusion_only :
  (forall (SF_CLIENT_ID SF_CLIENT_SECRET DATE_RANGE : option string)
          (api : ServiceFusion.Api),
      ServiceFusion.truthy SF_CLIENT_ID = true ->
      ServiceFusion.truthy SF_CLIENT_SECRET = true ->
      let date_range := match DATE_RANGE with
                        | Some r => r | None => "Year to Date"%string end in
      let data := ServiceFusion.extract_all_data
                    (Calendar.year (ServiceFusion.dt_date now)) api date_range in
      exists filename : string,
        ServiceFusion.main fromisoformat now SF_CLIENT_ID SF_CLIENT_SECRET DATE_RANGE api
        = Xlsx.mkRun 0 [(filename, ServiceFusion.save_to_excel fromisoformat now data)] /\
        exists summary_rows extraction_rows,
          Xlsx.find_sheet (ServiceFusion.save_to_excel fromisoformat now data)
            "PowerBI_Summary" = Some (ServiceFusion.powerbi_header :: summary_rows) /\
          Xlsx.find_sheet (ServiceFusion.save_to_excel fromisoformat now data)
            "Extraction_Summary" = Some extraction_rows /\
          length extraction_rows = 5%nat /\
          (ServiceFusion.d_jobs data = [] -> ServiceFusion.d_estimates data = [] ->
           summary_rows = [])) /\
  (forall (today : Calendar.date) (set_iter : list string -> list string) (fuel : nat)
          (utc_offset : Z -> Z) (KIMAI_API_TOKEN : option string) (api : Kimai.Api),
      Claims.full_page (Kimai.get_timesheets api) 1 = false ->
      (0 < fuel)%nat ->
      Kimai.main today set_iter fuel utc_offset KIMAI_API_TOKEN api
      = Some (Xlsx.mkRun 1 [])).
Proof.
  split.
  - intros id secret dr api Hid Hsecret date_range data.
    unfold ServiceFusion.main. rewrite Hid, Hsecret. cbn [negb orb].
    fold date_range. fold data. eexists. split; [reflexivity |].
    rewrite save_to_excel_shape. unfold Xlsx.find_sheet. cbn [app find fst String.eqb].
    do 2 eexists. split; [reflexivity |]. split; [reflexivity |].
    split; [reflexivity |].
    intros Hjobs Hest. unfold ServiceFusion.create_powerbi_summary, ServiceFusion.jobs_of.
    rewrite Hjobs, Hest. reflexivity.
  - intros today set_iter fuel utc_offset token api Hempty Hfuel.
    unfold Kimai.main.
    destruct token as [[| c s] |]; try reflexivity.
    unfold Kimai.fetch_api_data, Kimai.fetch_paginated.
    rewrite (page_loop_run (Kimai.get_timesheets api) 0); cbn [Kimai.page Z.of_nat];
      [| intros i Hi; lia | now rewrite Z.add_0_r | lia].
    cbn [Kimai.df_list map Claims.pages_from seq app Kimai.frame_of].
    destruct (Kimai.frames_empty _); [reflexivity |].
    unfold Kimai.process_timesheet_mappings. cbn [Kimai.Timesheets]. reflexivity.
Qed.
End EmptyRuns.

(** C4 as stated fails on the Kimai pipeline: no timesheet, every lookup
    answered, and the run ends with exit code 1 and no file. *)
Lemma kimai_fails_without_timesheets :
  Kimai.fetch_single (Kimai.get_activities api_without_timesheets) <> [] /\
  Kimai.fetch_single (Kimai.get_projects api_without_timesheets) <> [] /\
  Kimai.fetch_single (Kimai.get_users api_without_timesheets) <> [] /\
  Kimai.main sample_today (fun l => l) 10 sample_offset (Some "token"%string)
    api_without_timesheets
  = Some (Xlsx.mkRun 1 []).
Proof. repeat split; try discriminate. Qed.

(** ** Two runs on the same API responses *)

Lemma find_by_title_perm (l1 l2 : Xlsx.workbook) (title : string) :
  Permutation l1 l2 -> NoDup (Xlsx.titles l1) ->
  find (fun s : Xlsx.sheet => String.eqb (fst s) title) l1
  = find (fun s : Xlsx.sheet => String.eqb (fst s) title) l2.
Proof.
  unfold Xlsx.titles.
  induction 1 as [| x l l' Hp IH | x y l | l l' l'' Hp1 IH1 Hp2 IH2]; intros Hnd.
  - reflexivity.
  - cbn [find]. destruct (String.eqb (fst x) title); [reflexivity |].
    apply IH. now inversion Hnd.
  - cbn [find]. destruct (String.eqb_spec (fst y) title) as [Ey | Ey];
      destruct (String.eqb_spec (fst x) title) as [Ex | Ex]; try reflexivity.
    exfalso. cbn [map] in Hnd. inversion Hnd as [| ? ? Hnotin _]; subst.
    apply Hnotin. left. congruence.
  - rewrite IH1 by assumption. apply IH2.
    eapply Permutation_NoDup; [apply Permutation_map; exact Hp1 | exact Hnd].
Qed.

Lemma erase_stamps_titles (wb : Xlsx.workbook) :
  Xlsx.titles (Xlsx.erase_stamps wb) = Xlsx.titles wb.
Proof.
  unfold Xlsx.titles, Xlsx.erase_stamps. rewrite map_map. reflexivity.
Qed.

Lemma same_values_of_perm (wb1 wb2 : Xlsx.workbook) :
  Permutation (Xlsx.erase_stamps wb1) (Xlsx.erase_stamps wb2) ->
  NoDup (Xlsx.titles wb1) ->
  Claims.same_values wb1 wb2.
Proof.
  intros Hp Hnd. split; [exact Hp |]. intros title. unfold Xlsx.find_sheet. f_equal.
  apply find_by_title_perm; [exact Hp |]. now rewrite erase_stamps_titles.
Qed.

Lemma same_values_refl (wb : Xlsx.workbook) : Claims.same_values wb wb.
Proof. split; [apply Permutation_refl | reflexivity]. Qed.

Lemma map_flat_map {A B C : Type} (f : B -> C) (g : A -> list B) (l : list A) :
  map f (flat_map g l) = flat_map (fun x => map f (g x)) l.
Proof.
  induction l as [| x l IH]; [reflexivity |]. cbn [flat_map].
  now rewrite map_app, IH.
Qed.

(** With the date stamp taken out, the Employee Summary does not depend
    on the clock. *)
Lemma employee_summary_without_stamps (today today' : Calendar.date)
    (grouped : list (string * string * Q)) :
  map (map Xlsx.erase_stamp) (Kimai.employee_summary today grouped)
  = map (map Xlsx.erase_stamp) (Kimai.employee_summary today' grouped).
Proof.
  unfold Kimai.employee_summary. cbn [map]. f_equal.
  rewrite !map_flat_map. apply flat_map_ext. intros customer.
  rewrite !map_map. apply map_ext. intros r. reflexivity.
Qed.

Section TwoRuns.
Variables today1 today2 : Calendar.date.
Variables iter1 iter2 : list string -> list string.
Hypothesis iter1_perm : Claims.set_iteration iter1.
Hypothesis iter2_perm : Claims.set_iteration iter2.

Lemma customer_workbook_same_values timesheets_df breaks_df :
  Claims.same_values
    (Kimai.customer_workbook today1 iter1 timesheets_df breaks_df)
    (Kimai.customer_workbook today2 iter2 timesheets_df breaks_df).
Proof.
  apply same_values_of_perm; [| now apply sheet_titles_NoDup].
  rewrite !customer_workbook_shape. cbv zeta.
  unfold Xlsx.erase_stamps. rewrite !map_app. cbn [map fst snd].
  rewrite (employee_summary_without_stamps today1 today2).
  apply Permutation_app_head. apply Permutation_app_head.
  apply Permutation_map. apply Permutation_map.
  eapply perm_trans; [apply iter1_perm | apply Permutation_sym, iter2_perm].
Qed.

Lemma kimai_runs_same_outcome fuel utc_offset KIMAI_API_TOKEN api :
  Claims.same_outcome
    (Kimai.main today1 iter1 fuel utc_offset KIMAI_API_TOKEN api)
    (Kimai.main today2 iter2 fuel utc_offset KIMAI_API_TOKEN api).
Proof.
  unfold Kimai.main, Claims.same_outcome.
  destruct KIMAI_API_TOKEN as [[| c s] |]; cbn [Xlsx.exit_code Xlsx.files]; auto.
  destruct (Kimai.fetch_api_data fuel api) as [frames |]; [| exact I].
  destruct (Kimai.frames_empty frames); cbn [Xlsx.exit_code Xlsx.files]; auto.
  destruct (Kimai.process_timesheet_mappings utc_offset frames) as [[df |] breaks];
    cbn [Xlsx.exit_code Xlsx.files]; auto.
  split; [reflexivity |]. unfold Kimai.create_customer_reports.
  constructor; [apply customer_workbook_same_values |].
  constructor; [apply same_values_refl | constructor].
Qed.
End TwoRuns.

Section TwoServiceFusionRuns.
Variable fromisoformat : string -> option ServiceFusion.datetime.
Variables now1 now2 : ServiceFusion.datetime.

Lemma save_to_excel_without_stamps (data : ServiceFusion.all_data) :
  Xlsx.erase_stamps (ServiceFusion.save_to_excel fromisoformat now1 data)
  = Xlsx.erase_stamps (ServiceFusion.save_to_excel fromisoformat now2 data).
Proof.
  rewrite !save_to_excel_shape. unfold Xlsx.erase_stamps.
  rewrite !map_app. apply (f_equal (fun l => l ++ _)).
  cbn [map fst snd]. rewrite !map_map. reflexivity.
Qed.
End TwoServiceFusionRuns.

(** C8, as amended.  Two runs against the same API responses write the same
    values, apart from the strings printed from the wall clock (file names,
    the Date column of the Employee Summary, the Extracted At column) and
    from two more things.  Kimai: the sheets of the roster customers come in
    the order of a loop over a Python set, so the two workbooks have the same
    sheets under the same titles, but not always in the same order.  Service
    Fusion: the extractor keeps the records of the current year, so the two
    runs must fall in the same year; then their workbooks are equal once
    the Extracted At stamps are taken out. *)
Theorem reruns_write_the_same_values :
  (forall (today1 today2 : Calendar.date) (iter1 iter2 : list string -> list string)
          (fuel : nat) (utc_offset : Z -> Z) (KIMAI_API_TOKEN : option string)
          (api : Kimai.Api),
      Claims.set_iteration iter1 -> Claims.set_iteration iter2 ->
      Claims.same_outcome
        (Kimai.main today1 iter1 fuel utc_offset KIMAI_API_TOKEN api)
        (Kimai.main today2 iter2 fuel utc_offset KIMAI_API_TOKEN api)) /\
  (forall (fromisoformat : string -> option ServiceFusion.datetime)
          (now1 now2 : ServiceFusion.datetime)
          (SF_CLIENT_ID SF_CLIENT_SECRET DATE_RANGE : option string)
          (api : ServiceFusion.Api),
      Calendar.year (ServiceFusion.dt_date now1) = Calendar.year (ServiceFusion.dt_date now2) ->
      let run1 := ServiceFusion.main fromisoformat now1 SF_CLIENT_ID SF_CLIENT_SECRET
                    DATE_RANGE api in
      let run2 := ServiceFusion.main fromisoformat now2 SF_CLIENT_ID SF_CLIENT_SECRET
                    DATE_RANGE api in
      Xlsx.exit_code run1 = Xlsx.exit_code run2 /\
      map (fun f : string * Xlsx.workbook => Xlsx.erase_stamps (snd f)) (Xlsx.files run1)
      = map (fun f : string * Xlsx.workbook => Xlsx.erase_stamps (snd f)) (Xlsx.files run2)).
Proof.
  split.
  - intros. now apply kimai_runs_same_outcome.
  - intros fromisoformat now1 now2 id secret dr api Hyear run1 run2.
    unfold run1, run2, ServiceFusion.main. rewrite Hyear.
    destruct (negb (ServiceFusion.truthy id) || negb (ServiceFusion.truthy secret));
      cbn [Xlsx.exit_code Xlsx.files map snd]; [auto |].
    split; [reflexivity |]. f_equal. apply save_to_excel_without_stamps.
Qed.

Lemma reruns_write_the_same_values_witness :
  Claims.same_outcome
    (Kimai.main sample_today (fun l => l) 10 sample_offset (Some "token"%string)
       api_without_timesheets)
    (Kimai.main (Calendar.mkDate 2024 3 6) (@rev string) 10 sample_offset
       (Some "token"%string) api_without_timesheets) /\
  Xlsx.exit_code (ServiceFusion.main no_isoformat last_day_of_2024 (Some "id"%string)
                    (Some "secret"%string) None one_job_api)
  = Xlsx.exit_code (ServiceFusion.main no_isoformat
                      (ServiceFusion.mkDatetime (Calendar.mkDate 2024 1 1) 0 0 0)
                      (Some "id"%string) (Some "secret"%string) None one_job_api).
Proof.
  split.
  - apply (proj1 reruns_write_the_same_values).
    + intros l. apply Permutation_refl.
    + intros l. apply Permutation_sym, Permutation_rev.
  - apply (proj2 reruns_write_the_same_values). reflexivity.
Defined.

(** C8 as stated fails twice.  Service Fusion: the same API responses read
    on the last day of 2024 and on the first day of 2025 give a summary with
    the job and a summary without it.  Kimai: on the same day and the same
    rows, two orders of the loop over the customer set give two different
    workbooks, wall-clock strings taken out. *)
Lemma reruns_differ_across_years_and_set_orders :
  Xlsx.find_sheet
    (ServiceFusion.save_to_excel no_isoformat last_day_of_2024
       (ServiceFusion.extract_all_data 2024 one_job_api "Year to Date"))
    "PowerBI_Summary"
  <> Xlsx.find_sheet
       (ServiceFusion.save_to_excel no_isoformat first_day_of_2025
          (ServiceFusion.extract_all_data 2025 one_job_api "Year to Date"))
       "PowerBI_Summary" /\
  map (fun f : string * Xlsx.workbook => Xlsx.erase_stamps (snd f))
      (Xlsx.files (ServiceFusion.main no_isoformat last_day_of_2024 (Some "id"%string)
                     (Some "secret"%string) None one_job_api))
  <> map (fun f : string * Xlsx.workbook => Xlsx.erase_stamps (snd f))
       (Xlsx.files (ServiceFusion.main no_isoformat first_day_of_2025 (Some "id"%string)
                      (Some "secret"%string) None one_job_api)) /\
  Xlsx.erase_stamps (Kimai.customer_workbook sample_today (fun l => l) sample_mapped [])
  <> Xlsx.erase_stamps (Kimai.customer_workbook sample_today (@rev string) sample_mapped []).
Proof.
  split; [| split]; vm_compute; discriminate.
Qed.

(** ** Week numbers and URLs (kimai_payroll_engineering.py) *)

(** On valid dates the order of dates is the order of their day numbers. *)
Lemma date_ltb_toordinal (d1 d2 : Calendar.date) :
  Calendar.valid_date d1 = true -> Calendar.valid_date d2 = true ->
  (KimaiDates.date_ltb d1 d2 = true <-> Calendar.toordinal d1 < Calendar.toordinal d2).
Proof.
  intros Hv1 Hv2.
  pose proof (toordinal_within_year d1 Hv1) as B1.
  pose proof (toordinal_within_year d2 Hv2) as B2.
  unfold KimaiDates.date_ltb.
  destruct (Z.lt_trichotomy (Calendar.year d1) (Calendar.year d2)) as [Hlt | [He | Hgt]].
  - pose proof (days_before_year_monotone (Calendar.year d1 + 1) (Calendar.year d2)
                  ltac:(lia)).
    destruct (Z.ltb_spec (Calendar.year d1) (Calendar.year d2)); [| lia].
    cbn [orb]. split; [lia | reflexivity].
  - destruct (Z.ltb_spec (Calendar.year d1) (Calendar.year d2)); [lia |].
    destruct (Z.eqb_spec (Calendar.year d1) (Calendar.year d2)); [| lia].
    cbn [orb andb].
    apply valid_date_inv in Hv1, Hv2.
    destruct Hv1 as (_ & Hm1 & Hd1), Hv2 as (_ & Hm2 & Hd2).
    destruct d1 as [y1 m1 dd1], d2 as [y2 m2 dd2].
    cbn [Calendar.year Calendar.month Calendar.day] in *. subst y2.
    unfold Calendar.toordinal, Calendar.days_before_month.
    cbn [Calendar.year Calendar.month Calendar.day].
    simpl in Hm1, Hm2.
    destruct (Calendar.is_leap y1) eqn:Hleap;
      repeat (destruct Hm1 as [<- | Hm1]); try contradiction;
      repeat (destruct Hm2 as [<- | Hm2]); try contradiction;
      cbn [Calendar.DAYS_BEFORE_MONTH Calendar.days_in_month] in *;
      rewrite ?Hleap in *;
      cbn [andb orb Z.ltb Z.eqb Z.compare Pos.compare Pos.compare_cont Pos.eqb];
      try (destruct (Z.ltb_spec dd1 dd2));
      split; intros; try reflexivity; try discriminate; lia.
  - pose proof (days_before_year_monotone (Calendar.year d2 + 1) (Calendar.year d1)
                  ltac:(lia)).
    destruct (Z.ltb_spec (Calendar.year d1) (Calendar.year d2)); [lia |].
    destruct (Z.eqb_spec (Calendar.year d1) (Calendar.year d2)); [lia |].
    cbn [orb andb]. split; [discriminate | lia].
Qed.

Lemma weekday_eq (d : Calendar.date) :
  KimaiDates.weekday d = (Calendar.toordinal d + 6) mod 7.
Proof. reflexivity. Qed.

Lemma weekday_range (d : Calendar.date) : 0 <= KimaiDates.weekday d <= 6.
Proof.
  unfold KimaiDates.weekday.
  pose proof (Z.mod_pos_bound (Calendar.toordinal d + 6) 7 ltac:(lia)). lia.
Qed.

(** The first Sunday found for a year is a Sunday among its first seven
    days. *)
Lemma first_sunday_spec (date : Calendar.date) :
  1 <= Calendar.year date <= 9999 ->
  exists k : Z,
    0 <= k <= 6 /\
    KimaiDates.first_sunday date = Calendar.mkDate (Calendar.year date) 1 (1 + k) /\
    Calendar.toordinal (KimaiDates.first_sunday date)
    = Calendar.days_before_year (Calendar.year date) + 1 + k /\
    KimaiDates.weekday (KimaiDates.first_sunday date) = 6.
Proof.
  intros Hy. unfold KimaiDates.first_sunday. cbv zeta.
  set (jan_1 := Calendar.mkDate (Calendar.year date) 1 1).
  set (k := if KimaiDates.weekday jan_1 =? 6 then 0
            else (6 - KimaiDates.weekday jan_1) mod 7).
  pose proof (weekday_range jan_1) as Hw.
  assert (Hk : 0 <= k <= 6 /\ (Calendar.toordinal jan_1 + k + 6) mod 7 = 6).
  { unfold k. unfold KimaiDates.weekday in *.
    set (o := Calendar.toordinal jan_1) in *.
    pose proof (Z.div_mod (o + 6) 7 ltac:(lia)).
    destruct (Z.eqb_spec ((o + 6) mod 7) 6) as [E | E].
    - split; [lia |]. now rewrite Z.add_0_r.
    - pose proof (Z.mod_pos_bound (6 - (o + 6) mod 7) 7 ltac:(lia)).
      rewrite (Z.mod_small (6 - (o + 6) mod 7) 7) by lia.
      split; [lia |].
      replace (o + (6 - (o + 6) mod 7) + 6) with (6 + ((o + 6) / 7) * 7) by lia.
      rewrite Z.mod_add by lia. reflexivity. }
  destruct Hk as [Hk Hsun].
  assert (Hord : Calendar.toordinal jan_1
                 = Calendar.days_before_year (Calendar.year date) + 1).
  { unfold Calendar.toordinal, jan_1, Calendar.days_before_month.
    cbn [Calendar.year Calendar.month Calendar.day Calendar.DAYS_BEFORE_MONTH].
    change (2 <? 1) with false. cbn [andb]. lia. }
  exists k. split; [exact Hk |].
  assert (Hdate : KimaiDates.plus_days jan_1 k
                  = Calendar.mkDate (Calendar.year date) 1 (1 + k)).
  { unfold KimaiDates.plus_days.
    replace (Calendar.toordinal jan_1 + k)
      with (Calendar.toordinal (Calendar.mkDate (Calendar.year date) 1 (1 + k))).
    - apply fromordinal_toordinal.
      unfold Calendar.valid_date, Calendar.MINYEAR, Calendar.MAXYEAR.
      cbn [Calendar.year Calendar.month Calendar.day Calendar.days_in_month].
      rewrite !andb_true_iff, !Z.leb_le. repeat split; lia.
    - rewrite Hord. unfold Calendar.toordinal, Calendar.days_before_month.
      cbn [Calendar.year Calendar.month Calendar.day Calendar.DAYS_BEFORE_MONTH].
      change (2 <? 1) with false. cbn [andb]. lia. }
  split; [exact Hdate |].
  unfold KimaiDates.weekday, KimaiDates.plus_days in *.
  rewrite toordinal_fromordinal. split; [lia | exact Hsun].
Qed.

(** The week number as arithmetic on day numbers. *)
Lemma calculate_week_number_eq (date : Calendar.date) :
  Calendar.valid_date date = true ->
  KimaiDates.calculate_week_number date
  = Z.max 0 ((Calendar.toordinal date
              - Calendar.toordinal (KimaiDates.first_sunday date)) / 7) + 1.
Proof.
  intros Hv. pose proof (valid_date_inv date Hv) as (Hy & _ & _).
  destruct (first_sunday_spec date Hy) as (k & Hk & Hfs & Hord & _).
  unfold KimaiDates.calculate_week_number. cbv zeta.
  assert (Hvfs : Calendar.valid_date (KimaiDates.first_sunday date) = true).
  { rewrite Hfs. unfold Calendar.valid_date, Calendar.MINYEAR, Calendar.MAXYEAR.
    cbn [Calendar.year Calendar.month Calendar.day Calendar.days_in_month].
    rewrite !andb_true_iff, !Z.leb_le. repeat split; lia. }
  pose proof (date_ltb_toordinal date (KimaiDates.first_sunday date) Hv Hvfs) as Hlt.
  unfold KimaiDates.days_between.
  set (o := Calendar.toordinal date) in *.
  set (f := Calendar.toordinal (KimaiDates.first_sunday date)) in *.
  pose proof (Z.div_mod (o - f) 7 ltac:(lia)).
  pose proof (Z.mod_pos_bound (o - f) 7 ltac:(lia)).
  destruct (KimaiDates.date_ltb date (KimaiDates.first_sunday date)).
  - assert (o < f) by now apply Hlt. lia.
  - assert (~ o < f) by (intros Hc; apply Hlt in Hc; discriminate). lia.
Qed.

(** X1.  The week number of a date is between 1 and 53. *)
Theorem week_number_between_1_and_53 :
  forall date : Calendar.date,
    Calendar.valid_date date = true ->
    1 <= KimaiDates.calculate_week_number date <= 53.
Proof.
  intros date Hv. rewrite (calculate_week_number_eq date Hv).
  pose proof (valid_date_inv date Hv) as (Hy & _ & _).
  destruct (first_sunday_spec date Hy) as (k & Hk & _ & Hord & _).
  pose proof (toordinal_within_year date Hv) as B.
  rewrite days_before_next_year in B. rewrite Hord.
  set (o := Calendar.toordinal date) in *.
  set (b := Calendar.days_before_year (Calendar.year date)) in *.
  pose proof (Z.div_mod (o - (b + 1 + k)) 7 ltac:(lia)).
  pose proof (Z.mod_pos_bound (o - (b + 1 + k)) 7 ltac:(lia)).
  destruct (Calendar.is_leap (Calendar.year date)); lia.
Qed.

Lemma week_number_between_1_and_53_witness :
  1 <= KimaiDates.calculate_week_number (Calendar.mkDate 2024 12 31) <= 53.
Proof.
  apply (week_number_between_1_and_53 (Calendar.mkDate 2024 12 31)). reflexivity.
Defined.

Lemma first_sunday_same_year (d1 d2 : Calendar.date) :
  Calendar.year d1 = Calendar.year d2 ->
  KimaiDates.first_sunday d1 = KimaiDates.first_sunday d2.
Proof.
  intros H. unfold KimaiDates.first_sunday. rewrite H. reflexivity.
Qed.

Lemma first_sunday_valid (date : Calendar.date) :
  1 <= Calendar.year date <= 9999 ->
  Calendar.valid_date (KimaiDates.first_sunday date) = true /\
  Calendar.year (KimaiDates.first_sunday date) = Calendar.year date.
Proof.
  intros Hy. destruct (first_sunday_spec date Hy) as (k & Hk & Hfs & _).
  rewrite Hfs. split; [| reflexivity].
  unfold Calendar.valid_date, Calendar.MINYEAR, Calendar.MAXYEAR.
  cbn [Calendar.year Calendar.month Calendar.day Calendar.days_in_month].
  rewrite !andb_true_iff, !Z.leb_le. repeat split; lia.
Qed.

(** The first Sunday itself is in week 1. *)
Lemma first_sunday_week (date : Calendar.date) :
  1 <= Calendar.year date <= 9999 ->
  KimaiDates.calculate_week_number (KimaiDates.first_sunday date) = 1.
Proof.
  intros Hy. destruct (first_sunday_valid date Hy) as [Hv Hyear].
  rewrite (calculate_week_number_eq _ Hv).
  rewrite (first_sunday_same_year _ _ Hyear), Z.sub_diag. reflexivity.
Qed.

(** From one day to the next, in terms of day numbers. *)
Lemma week_step_arith (o f w1 w2 : Z) (sunday later : bool) :
  (f + 6) mod 7 = 6 ->
  w1 = Z.max 0 ((o - f) / 7) + 1 ->
  w2 = Z.max 0 ((o + 1 - f) / 7) + 1 ->
  (sunday = true <-> (o + 1 + 6) mod 7 = 6) ->
  (later = true <-> f < o + 1) ->
  w2 = w1 + (if sunday && later then 1 else 0).
Proof.
  intros Hf -> -> Hs Hl.
  pose proof (Z.div_mod (o - f) 7 ltac:(lia)).
  pose proof (Z.mod_pos_bound (o - f) 7 ltac:(lia)).
  pose proof (Z.div_mod (o + 1 - f) 7 ltac:(lia)).
  pose proof (Z.mod_pos_bound (o + 1 - f) 7 ltac:(lia)).
  pose proof (Z.div_mod (f + 6) 7 ltac:(lia)).
  pose proof (Z.div_mod (o + 1 + 6) 7 ltac:(lia)).
  pose proof (Z.mod_pos_bound (o + 1 + 6) 7 ltac:(lia)).
  destruct sunday, later; cbn [andb].
  - assert (f < o + 1) by now apply Hl.
    assert ((o + 1 + 6) mod 7 = 6) by now apply Hs. lia.
  - assert (~ f < o + 1) by (intros Hc; apply Hl in Hc; discriminate).
    lia.
  - assert ((o + 1 + 6) mod 7 <> 6) by (intros Hc; apply Hs in Hc; discriminate).
    lia.
  - assert ((o + 1 + 6) mod 7 <> 6) by (intros Hc; apply Hs in Hc; discriminate).
    lia.
Qed.

(** X2.  Weeks run from Sunday to Saturday.  From one day of a year to the
    next, the week number goes up by one when the second day is a Sunday
    after the year's first Sunday, and stays the same otherwise; so the days
    before the first Sunday are in week 1, and so is the week that the first
    Sunday starts. *)
Theorem week_number_changes_on_sundays :
  forall d1 d2 : Calendar.date,
    Calendar.valid_date d1 = true -> Calendar.valid_date d2 = true ->
    Calendar.year d1 = Calendar.year d2 ->
    Calendar.toordinal d2 = Calendar.toordinal d1 + 1 ->
    KimaiDates.weekday (KimaiDates.first_sunday d1) = 6 /\
    KimaiDates.calculate_week_number (KimaiDates.first_sunday d1) = 1 /\
    KimaiDates.calculate_week_number d2
    = KimaiDates.calculate_week_number d1
      + (if (KimaiDates.weekday d2 =? 6)
            && KimaiDates.date_ltb (KimaiDates.first_sunday d1) d2
         then 1 else 0).
Proof.
  intros d1 d2 Hv1 Hv2 Hyear Hnext.
  pose proof (valid_date_inv d1 Hv1) as (Hy & _ & _).
  destruct (first_sunday_spec d1 Hy) as (k & Hk & Hfs & Hord & Hsun).
  destruct (first_sunday_valid d1 Hy) as [Hvfs _].
  split; [exact Hsun |]. split; [exact (first_sunday_week d1 Hy) |].
  pose proof (calculate_week_number_eq d1 Hv1) as Hw1.
  pose proof (calculate_week_number_eq d2 Hv2) as Hw2.
  rewrite (first_sunday_same_year d2 d1 (eq_sym Hyear)), Hnext in Hw2.
  pose proof (date_ltb_toordinal _ _ Hvfs Hv2) as Hlater.
  rewrite Hnext in Hlater.
  assert (Hsunday : (KimaiDates.weekday d2 =? 6) = true
                    <-> (Calendar.toordinal d1 + 1 + 6) mod 7 = 6).
  { rewrite Z.eqb_eq, weekday_eq, Hnext. tauto. }
  rewrite weekday_eq in Hsun.
  exact (week_step_arith _ _ _ _ _ _ Hsun Hw1 Hw2 Hsunday Hlater).
Qed.

Lemma week_number_changes_on_sundays_witness :
  KimaiDates.calculate_week_number (Calendar.mkDate 2024 1 14)
  = KimaiDates.calculate_week_number (Calendar.mkDate 2024 1 13) + 1.
Proof.
  pose proof (week_number_changes_on_sundays (Calendar.mkDate 2024 1 13)
                (Calendar.mkDate 2024 1 14) eq_refl eq_refl eq_refl eq_refl) as H.
  exact (proj2 (proj2 H)).
Defined.

(** ** The base URL *)

Lemma rstrip_slash_slashes (n : nat) : KimaiDates.rstrip_slash (Terms.slashes n) = EmptyString.
Proof.
  induction n as [| n IH]; [reflexivity |].
  cbn [Terms.slashes KimaiDates.rstrip_slash]. rewrite IH. reflexivity.
Qed.

Lemma rstrip_slash_app_slashes (s : string) (n : nat) :
  KimaiDates.rstrip_slash (s ++ Terms.slashes n) = KimaiDates.rstrip_slash s.
Proof.
  induction s as [| c s IH]; cbn [append KimaiDates.rstrip_slash].
  - apply rstrip_slash_slashes.
  - rewrite IH. reflexivity.
Qed.

Lemma rstrip_slash_no_trailing (s : string) :
  Terms.ends_with "/" (KimaiDates.rstrip_slash s) = false.
Proof.
  induction s as [| c s IH]; [reflexivity |].
  cbn [KimaiDates.rstrip_slash].
  destruct (KimaiDates.rstrip_slash s) as [| a r] eqn:E.
  - destruct (Ascii.eqb c "/") eqn:Ec; [reflexivity |].
    cbn [Terms.ends_with]. exact Ec.
  - exact IH.
Qed.

Lemma rstrip_slash_decompose (s : string) :
  exists n : nat, s = (KimaiDates.rstrip_slash s ++ Terms.slashes n)%string.
Proof.
  induction s as [| c s [n IH]]; [exists 0%nat; reflexivity |].
  cbn [KimaiDates.rstrip_slash].
  destruct (KimaiDates.rstrip_slash s) as [| a r] eqn:E.
  - destruct (Ascii.eqb_spec c "/") as [-> | Hc].
    + exists (S n). cbn [append Terms.slashes]. f_equal. exact IH.
    + exists n. cbn [append]. f_equal. exact IH.
  - exists n. cbn [append]. f_equal. exact IH.
Qed.

(** X3.  The base URL loses its trailing slashes, all of them and nothing
    else, so the request URLs do not depend on how many slashes the
    configured URL ends with. *)
Theorem base_url_trailing_slashes_are_dropped :
  forall (base_url path : string) (n : nat),
    KimaiDates.endpoint_url (base_url ++ Terms.slashes n) path
    = KimaiDates.endpoint_url base_url path /\
    Terms.ends_with "/" (KimaiDates.rstrip_slash base_url) = false /\
    (exists k : nat,
        base_url = (KimaiDates.rstrip_slash base_url ++ Terms.slashes k)%string) /\
    (Terms.ends_with "/" base_url = false ->
     KimaiDates.endpoint_url base_url path = (base_url ++ path)%string).
Proof.
  intros base_url path n. unfold KimaiDates.endpoint_url.
  rewrite rstrip_slash_app_slashes.
  split; [reflexivity |]. split; [apply rstrip_slash_no_trailing |].
  split; [apply rstrip_slash_decompose |].
  intros Hend. f_equal.
  induction base_url as [| c s IH]; [reflexivity |].
  cbn [KimaiDates.rstrip_slash].
  destruct s as [| a r].
  - cbn [KimaiDates.rstrip_slash]. cbn [Terms.ends_with] in Hend. rewrite Hend. reflexivity.
  - rewrite IH by exact Hend. reflexivity.
Qed.

(** ** Authentication (project-dashboard-ytd.py) *)

Section AuthenticateFacts.
Variable int_of_string : string -> option Z.

(** The credential exchange is sent exactly when no unexpired token is
    held. *)
Lemma authenticate_posted (now now' : Z)
    (post : Http.result (option ServiceFusionAuth.token_data))
    (s : ServiceFusionAuth.session) :
  ServiceFusionAuth.posted (ServiceFusionAuth.authenticate int_of_string now now' post s)
  = negb (ServiceFusion.truthy (ServiceFusionAuth.access_token s) &&
          match ServiceFusionAuth.token_expires_at s with
          | Some e => now <? e
          | None => false
          end).
Proof.
  unfold ServiceFusionAuth.authenticate.
  destruct (ServiceFusion.truthy (ServiceFusionAuth.access_token s) &&
            match ServiceFusionAuth.token_expires_at s with
            | Some e => now <? e
            | None => false
            end); [reflexivity |].
  destruct post as [| code [data |]]; [reflexivity | |];
    (destruct (code =? 200); [| reflexivity]); [| reflexivity].
  destruct (ServiceFusionAuth.access_token_field data); [reflexivity | |];
    match goal with |- context [if ?b then _ else _] => destruct b end; reflexivity.
Qed.

Lemma authenticate_not_posted (now now' : Z)
    (post : Http.result (option ServiceFusionAuth.token_data))
    (s : ServiceFusionAuth.session) :
  ServiceFusionAuth.posted (ServiceFusionAuth.authenticate int_of_string now now' post s)
  = false ->
  ServiceFusionAuth.authenticate int_of_string now now' post s
  = ServiceFusionAuth.mkOutcome true s false.
Proof.
  unfold ServiceFusionAuth.authenticate.
  destruct (ServiceFusion.truthy (ServiceFusionAuth.access_token s) &&
            match ServiceFusionAuth.token_expires_at s with
            | Some e => now <? e
            | None => false
            end); [reflexivity |].
  destruct post as [| code [data |]]; [discriminate | |];
    (destruct (code =? 200); [| discriminate]); [| discriminate].
  destruct (ServiceFusionAuth.access_token_field data); [discriminate | |];
    match goal with |- context [if ?b then _ else _] => destruct b end; discriminate.
Qed.

(** What a call that sent the exchange did, by the answer received. *)
Lemma authenticate_posted_cases (now now' : Z)
    (post : Http.result (option ServiceFusionAuth.token_data))
    (s : ServiceFusionAuth.session) :
  let o := ServiceFusionAuth.authenticate int_of_string now now' post s in
  ServiceFusionAuth.posted o = true ->
  (ServiceFusionAuth.ok o = false /\ ServiceFusionAuth.after o = s /\
   forall data, post = Http.Response 200 (Some data) ->
                ServiceFusionAuth.access_token_field data = ServiceFusion.Absent) \/
  exists data : ServiceFusionAuth.token_data,
    post = Http.Response 200 (Some data) /\
    ServiceFusionAuth.access_token_field data <> ServiceFusion.Absent /\
    let tok := ServiceFusion.get (ServiceFusionAuth.access_token_field data) in
    let expires_at :=
      now' + 1000000 * ServiceFusionAuth.expiry_seconds int_of_string
                         (ServiceFusionAuth.expires_in_field data) in
    (0 <= expires_at <= ServiceFusionAuth.DATETIME_MAX /\
     o = ServiceFusionAuth.mkOutcome true
           (ServiceFusionAuth.mkSession tok (Some expires_at)
              (Some (ServiceFusionAuth.bearer tok))) true) \/
    (~ 0 <= expires_at <= ServiceFusionAuth.DATETIME_MAX /\
     o = ServiceFusionAuth.mkOutcome false
           (ServiceFusionAuth.mkSession tok (ServiceFusionAuth.token_expires_at s)
              (ServiceFusionAuth.authorization s)) true).
Proof.
  cbv zeta. unfold ServiceFusionAuth.authenticate.
  destruct (ServiceFusion.truthy (ServiceFusionAuth.access_token s) &&
            match ServiceFusionAuth.token_expires_at s with
            | Some e => now <? e
            | None => false
            end); [discriminate |].
  destruct post as [| code [data |]].
  - intros _. left. repeat split. discriminate.
  - destruct (Z.eqb_spec code 200) as [-> | Hc].
    + set (e := now' + 1000000 * ServiceFusionAuth.expiry_seconds int_of_string
                                   (ServiceFusionAuth.expires_in_field data)).
      destruct (ServiceFusionAuth.access_token_field data) as [| | tok] eqn:Etok.
      * intros _. left. repeat split. intros d Hd. injection Hd as <-. exact Etok.
      * intros _. right. exists data. split; [reflexivity |].
        rewrite Etok. split; [discriminate |].
        destruct ((0 <=? e) && (e <=? ServiceFusionAuth.DATETIME_MAX)) eqn:Er.
        -- left. apply andb_true_iff in Er. rewrite !Z.leb_le in Er.
           split; [exact Er | reflexivity].
        -- right. split; [| reflexivity].
           intros Hr. apply andb_false_iff in Er. rewrite !Z.leb_gt in Er. lia.
      * intros _. right. exists data. split; [reflexivity |].
        rewrite Etok. split; [discriminate |].
        destruct ((0 <=? e) && (e <=? ServiceFusionAuth.DATETIME_MAX)) eqn:Er.
        -- left. apply andb_true_iff in Er. rewrite !Z.leb_le in Er.
           split; [exact Er | reflexivity].
        -- right. split; [| reflexivity].
           intros Hr. apply andb_false_iff in Er. rewrite !Z.leb_gt in Er. lia.
    + intros _. left. repeat split. intros d Hd. congruence.
  - destruct (code =? 200); intros _; left; repeat split; discriminate.
Qed.

(** X4.  A token obtained from the server is reused, without a further
    request and without any change of state, by every call made before it
    expires; a token that is null or empty is never reused. *)
Theorem fresh_token_is_reused_until_it_expires :
  forall (now now' t t' : Z) (post post2 : Http.result (option ServiceFusionAuth.token_data))
         (s : ServiceFusionAuth.session),
    let first := ServiceFusionAuth.authenticate int_of_string now now' post s in
    let second :=
      ServiceFusionAuth.authenticate int_of_string t t' post2
        (ServiceFusionAuth.after first) in
    ServiceFusionAuth.ok first = true ->
    ServiceFusionAuth.posted first = true ->
    exists data : ServiceFusionAuth.token_data,
      post = Http.Response 200 (Some data) /\
      let tok := ServiceFusion.get (ServiceFusionAuth.access_token_field data) in
      let expires_at :=
        now' + 1000000 * ServiceFusionAuth.expiry_seconds int_of_string
                           (ServiceFusionAuth.expires_in_field data) in
      ServiceFusionAuth.after first
      = ServiceFusionAuth.mkSession tok (Some expires_at)
          (Some (ServiceFusionAuth.bearer tok)) /\
      0 <= expires_at <= ServiceFusionAuth.DATETIME_MAX /\
      (ServiceFusionAuth.posted second = false <->
       ServiceFusion.truthy tok = true /\ t < expires_at) /\
      (ServiceFusionAuth.posted second = false ->
       ServiceFusionAuth.ok second = true /\
       ServiceFusionAuth.after second = ServiceFusionAuth.after first).
Proof.
  intros now now' t t' post post2 s first second Hok Hposted.
  destruct (authenticate_posted_cases now now' post s Hposted)
    as [(Hf & _) | (data & Hpost & _ & [(Hr & Ho) | (_ & Ho)])].
  - unfold first in Hok. rewrite Hf in Hok. discriminate Hok.
  - exists data. split; [exact Hpost |]. cbv zeta.
    fold first in Ho.
    split; [rewrite Ho; reflexivity |]. split; [exact Hr |]. split.
    + unfold second. rewrite authenticate_posted, Ho.
      cbn [ServiceFusionAuth.after ServiceFusionAuth.access_token
           ServiceFusionAuth.token_expires_at].
      rewrite negb_false_iff, andb_true_iff, Z.ltb_lt. reflexivity.
    + intros Hno. unfold second in *.
      rewrite (authenticate_not_posted _ _ _ _ Hno). split; reflexivity.
  - fold first in Ho. rewrite Ho in Hok. discriminate Hok.
Qed.

(** X5.  A call that returns [False] has sent the exchange and leaves the
    expiry and the [Authorization] header as they were.  The stored token is
    as it was too, unless the answer was a 200 with an [access_token] whose
    expiry falls outside the range of [datetime]: then the new token is
    kept although the call failed. *)
Theorem failed_authentication_keeps_the_old_header :
  forall (now now' : Z) (post : Http.result (option ServiceFusionAuth.token_data))
         (s : ServiceFusionAuth.session),
    let o := ServiceFusionAuth.authenticate int_of_string now now' post s in
    ServiceFusionAuth.ok o = false ->
    ServiceFusionAuth.posted o = true /\
    ServiceFusionAuth.token_expires_at (ServiceFusionAuth.after o)
    = ServiceFusionAuth.token_expires_at s /\
    ServiceFusionAuth.authorization (ServiceFusionAuth.after o)
    = ServiceFusionAuth.authorization s /\
    (ServiceFusionAuth.after o = s \/
     exists data : ServiceFusionAuth.token_data,
       post = Http.Response 200 (Some data) /\
       ServiceFusionAuth.access_token (ServiceFusionAuth.after o)
       = ServiceFusion.get (ServiceFusionAuth.access_token_field data) /\
       let expires_at :=
         now' + 1000000 * ServiceFusionAuth.expiry_seconds int_of_string
                            (ServiceFusionAuth.expires_in_field data) in
       ~ 0 <= expires_at <= ServiceFusionAuth.DATETIME_MAX).
Proof.
  intros now now' post s o Hok.
  assert (Hposted : ServiceFusionAuth.posted o = true).
  { destruct (ServiceFusionAuth.posted o) eqn:E; [reflexivity |].
    unfold o in *. rewrite (authenticate_not_posted _ _ _ _ E) in Hok.
    discriminate Hok. }
  split; [exact Hposted |].
  destruct (authenticate_posted_cases now now' post s Hposted)
    as [(_ & Hs & _) | (data & Hpost & _ & [(_ & Ho) | (Hr & Ho)])].
  - fold o in Hs. rewrite Hs. repeat split. left. reflexivity.
  - fold o in Ho. rewrite Ho in Hok. discriminate Hok.
  - fold o in Ho. rewrite Ho. cbn [ServiceFusionAuth.after
      ServiceFusionAuth.token_expires_at ServiceFusionAuth.authorization
      ServiceFusionAuth.access_token].
    repeat split. right. exists data. repeat split; [exact Hpost | exact Hr].
Qed.

End AuthenticateFacts.

Lemma fresh_token_is_reused_until_it_expires_witness :
  ServiceFusionAuth.posted
    (ServiceFusionAuth.authenticate sample_int 1500 1500 Http.Raised
       (ServiceFusionAuth.after
          (ServiceFusionAuth.authenticate sample_int 1000 1000 sample_token_response
             ServiceFusionAuth.new_session))) = false.
Proof.
  destruct (fresh_token_is_reused_until_it_expires sample_int 1000 1000 1500 1500
              sample_token_response Http.Raised ServiceFusionAuth.new_session
              eq_refl eq_refl) as (data & Hpost & _ & _ & Hiff & _).
  apply Hiff. injection Hpost as <-. split; [reflexivity | vm_compute; reflexivity].
Defined.

Lemma failed_authentication_keeps_the_old_header_witness :
  ServiceFusionAuth.authorization
    (ServiceFusionAuth.after
       (ServiceFusionAuth.authenticate sample_int 1000 1000
          (Http.Response 401 None) ServiceFusionAuth.new_session)) = None.
Proof.
  exact (proj1 (proj2 (proj2
    (failed_authentication_keeps_the_old_header sample_int 1000 1000
       (Http.Response 401 None) ServiceFusionAuth.new_session eq_refl)))).
Defined.

(** ** More on the break detector *)

Lemma round_half_even_between (q : Q) (lo hi : Z) :
  (inject_Z lo <= q)%Q -> (q <= inject_Z hi)%Q ->
  lo <= Py.round_half_even q <= hi.
Proof.
  intros Hlo Hhi.
  pose proof (round_half_even_near q) as H. apply Qabs_Qle_condition in H.
  set (z := Py.round_half_even q) in *. clearbody z.
  assert (H1 : (inject_Z lo - (1 # 2) <= inject_Z z)%Q) by lra.
  assert (H2 : (inject_Z z <= inject_Z hi + (1 # 2))%Q) by lra.
  unfold Qle, Qminus, Qplus, Qopp, inject_Z in H1, H2. cbn in H1, H2. lia.
Qed.

Lemma round_1_between (q : Q) (lo hi : Z) :
  (inject_Z lo <= q * 10)%Q -> (q * 10 <= inject_Z hi)%Q ->
  (lo # 10 <= Py.round q 1)%Q /\ (Py.round q 1 <= hi # 10)%Q.
Proof.
  intros Hlo Hhi. unfold Py.round.
  change (Pos.pow 10 (Pos.of_nat 1)) with 10%positive.
  change (inject_Z 10) with 10%Q.
  pose proof (round_half_even_between (q * 10) lo hi Hlo Hhi) as [H1 H2].
  unfold Qle. cbn [Qnum Qden]. lia.
Qed.

Lemma round_2_between (q : Q) (lo hi : Z) :
  (inject_Z lo <= q * 100)%Q -> (q * 100 <= inject_Z hi)%Q ->
  (lo # 100 <= Py.round q 2)%Q /\ (Py.round q 2 <= hi # 100)%Q.
Proof.
  intros Hlo Hhi. unfold Py.round.
  change (Pos.pow 10 (Pos.of_nat 2)) with 100%positive.
  change (inject_Z 100) with 100%Q.
  pose proof (round_half_even_between (q * 100) lo hi Hlo Hhi) as [H1 H2].
  unfold Qle. cbn [Qnum Qden]. lia.
Qed.

(** The printed durations of a gap of [g] seconds, [lo <= g <= hi]. *)
Lemma minutes_between (g lo hi : Z) :
  6 * lo <= g <= 6 * hi ->
  (lo # 10 <= Py.round (inject_Z g / 60) 1)%Q /\
  (Py.round (inject_Z g / 60) 1 <= hi # 10)%Q.
Proof.
  intros Hg. apply round_1_between.
  - unfold Qle, Qdiv, Qmult, Qinv, inject_Z. cbn. lia.
  - unfold Qle, Qdiv, Qmult, Qinv, inject_Z. cbn. lia.
Qed.

Lemma hours_between (g lo hi : Z) :
  36 * lo <= g <= 36 * hi ->
  (lo # 100 <= Py.round (inject_Z g / 3600) 2)%Q /\
  (Py.round (inject_Z g / 3600) 2 <= hi # 100)%Q.
Proof.
  intros Hg. apply round_2_between.
  - unfold Qle, Qdiv, Qmult, Qinv, inject_Z. cbn. lia.
  - unfold Qle, Qdiv, Qmult, Qinv, inject_Z. cbn. lia.
Qed.

Section BreakBounds.
Variable utc_offset : Z -> Z.

Lemma accepted_gap (p : Kimai.entry * Kimai.entry) :
  Claims.accepted utc_offset p = true -> 300 <= Claims.gap p <= 3600.
Proof.
  unfold Claims.accepted, Claims.gap. intros H.
  apply valid_break_iff in H. tauto.
Qed.

Lemma accepted_gaps_sum (l : list (Kimai.entry * Kimai.entry)) :
  Forall (fun p => Claims.accepted utc_offset p = true) l ->
  300 * Z.of_nat (length l) <= Claims.sum_Z (map Claims.gap l)
  <= 3600 * Z.of_nat (length l).
Proof.
  induction 1 as [| p l Hp _ IH]; [cbn; lia |].
  pose proof (accepted_gap p Hp).
  cbn [map Claims.sum_Z fold_right length]. fold (Claims.sum_Z (map Claims.gap l)). lia.
Qed.

Lemma accepted_pairs_accepted (rows : list Kimai.entry) :
  Forall (fun p => Claims.accepted utc_offset p = true)
         (Claims.accepted_pairs utc_offset rows).
Proof.
  unfold Claims.accepted_pairs. apply Forall_forall. intros p Hp.
  apply filter_In in Hp. tauto.
Qed.

(** Every record comes from one group of the rows, by the rule for a
    group and with the alias table of the users. *)
Lemma in_calculate_breaks_users raw users r :
  In r (Kimai.calculate_breaks_from_raw_data utc_offset raw users) ->
  exists rows,
    In (Terms.break_key r, rows)
       (Kimai.groupby_user_date utc_offset (Kimai.dropna_entries raw)) /\
    Kimai.group_breaks utc_offset
      (map (fun u => (Py.str_of_Z (Kimai.usr_id u), Kimai.usr_alias u)) users)
      (Kimai.br_user_id r) (Kimai.br_date r) rows
    = Some r.
Proof.
  rewrite calculate_breaks_by_group. intros Hin.
  apply in_flat_map in Hin. destruct Hin as ([[u d] rows] & Hg & Hr).
  cbn [fst snd] in Hr.
  pose proof (group_breaks_spec utc_offset
                (map (fun u => (Py.str_of_Z (Kimai.usr_id u), Kimai.usr_alias u)) users)
                u d rows) as Hs.
  destruct (Kimai.group_breaks utc_offset _ u d rows) as [r' |] eqn:E; [| destruct Hr].
  destruct Hr as [<- | []].
  destruct Hs as (_ & _ & _ & _ & _ & Hu & Hd).
  exists rows. unfold Terms.break_key. rewrite Hu, Hd. auto.
Qed.

(** X6.  Every break the detector reports lasts between 5 and 60 minutes
    (between 0.08 and 1 hour) as printed, and the printed totals of a record
    with [n] breaks lie between [5 n] and [60 n] minutes. *)
Theorem reported_breaks_last_five_to_sixty_minutes :
  forall (raw_timesheets_df : list Kimai.timesheet) (users_df : list Kimai.user)
         (r : Kimai.break_record),
    In r (Kimai.calculate_breaks_from_raw_data utc_offset raw_timesheets_df users_df) ->
    (forall b : Kimai.break_detail,
        In b (Kimai.break_details r) ->
        (5 <= Kimai.break_duration_minutes b)%Q /\
        (Kimai.break_duration_minutes b <= 60)%Q /\
        (8 # 100 <= Kimai.break_duration_hours b)%Q /\
        (Kimai.break_duration_hours b <= 1)%Q) /\
    let n := inject_Z (Z.of_nat (Kimai.total_breaks r)) in
    (5 * n <= Kimai.total_break_minutes r)%Q /\
    (Kimai.total_break_minutes r <= 60 * n)%Q /\
    ((8 # 100) * n <= Kimai.total_break_hours r)%Q /\
    (Kimai.total_break_hours r <= n)%Q.
Proof.
  intros raw users r Hin.
  destruct (in_calculate_breaks_users raw users r Hin) as (rows & _ & Hg).
  pose proof (group_breaks_spec utc_offset
                (map (fun u => (Py.str_of_Z (Kimai.usr_id u), Kimai.usr_alias u)) users)
                (Kimai.br_user_id r) (Kimai.br_date r) rows) as Hs.
  rewrite Hg in Hs. destruct Hs as (_ & Hdetails & Hn & Hh & Hm & _).
  pose proof (accepted_pairs_accepted rows) as Hacc.
  split.
  - intros b Hb. rewrite Hdetails in Hb. apply in_map_iff in Hb.
    destruct Hb as (p & <- & Hp).
    rewrite Forall_forall in Hacc. pose proof (accepted_gap p (Hacc p Hp)) as Hgap.
    unfold Claims.break_of, Kimai.make_break. cbv zeta.
    cbn [Kimai.break_duration_minutes Kimai.break_duration_hours].
    fold (Claims.gap p).
    destruct (minutes_between (Claims.gap p) 50 600 ltac:(lia)) as [M1 M2].
    destruct (hours_between (Claims.gap p) 8 100 ltac:(lia)) as [H1 H2].
    repeat split.
    + eapply Qle_trans; [| exact M1]. unfold Qle; cbn; lia.
    + eapply Qle_trans; [exact M2 |]. unfold Qle; cbn; lia.
    + exact H1.
    + eapply Qle_trans; [exact H2 |]. unfold Qle; cbn; lia.
  - cbv zeta. rewrite Hn, Hdetails, length_map, Hh, Hm.
    pose proof (accepted_gaps_sum _ Hacc) as Hsum.
    set (k := Z.of_nat (length (Claims.accepted_pairs utc_offset rows))) in *.
    set (g := Claims.sum_Z (map Claims.gap (Claims.accepted_pairs utc_offset rows))) in *.
    destruct (minutes_between g (50 * k) (600 * k) ltac:(lia)) as [M1 M2].
    destruct (hours_between g (8 * k) (100 * k) ltac:(lia)) as [H1 H2].
    clearbody k g. repeat split.
    + eapply Qle_trans; [| exact M1]. unfold Qle; cbn [Qnum Qden Qmult inject_Z Pos.mul]; lia.
    + eapply Qle_trans; [exact M2 |]. unfold Qle; cbn [Qnum Qden Qmult inject_Z Pos.mul]; lia.
    + eapply Qle_trans; [| exact H1]. unfold Qle; cbn [Qnum Qden Qmult inject_Z Pos.mul]; lia.
    + eapply Qle_trans; [exact H2 |]. unfold Qle; cbn [Qnum Qden Qmult inject_Z Pos.mul]; lia.
Qed.

End BreakBounds.

Lemma reported_breaks_last_five_to_sixty_minutes_witness :
  exists r : Kimai.break_record,
    In r (Kimai.calculate_breaks_from_raw_data sample_offset sample_breaks_raw []) /\
    (5 * inject_Z (Z.of_nat (Kimai.total_breaks r)) <= Kimai.total_break_minutes r)%Q.
Proof.
  assert (H : exists r, In r (Kimai.calculate_breaks_from_raw_data sample_offset
                                sample_breaks_raw [])).
  { vm_compute. eexists. left. reflexivity. }
  destruct H as [r Hr]. exists r. split; [exact Hr |].
  exact (proj1 (proj2 (reported_breaks_last_five_to_sixty_minutes sample_offset
                         sample_breaks_raw [] r Hr))).
Defined.

(** ** Lookup tables and groups *)

Lemma str_of_Z_inj (a b : Z) : Py.str_of_Z a = Py.str_of_Z b -> a = b.
Proof.
  unfold Py.str_of_Z. intros H.
  assert (Hnn : forall z, Z.to_int z <> Decimal.Pos Decimal.Nil /\
                          Z.to_int z <> Decimal.Neg Decimal.Nil).
  { intros [| p | p]; cbn; split; try discriminate;
      intros [= Hp]; exact (DecimalPos.Unsigned.to_uint_nonnil p Hp). }
  pose proof (DecimalString.NilZero.isi (Z.to_int a) (proj1 (Hnn a)) (proj2 (Hnn a))) as Ha.
  pose proof (DecimalString.NilZero.isi (Z.to_int b) (proj1 (Hnn b)) (proj2 (Hnn b))) as Hb.
  rewrite H in Ha. rewrite Ha in Hb. injection Hb as Hb.
  now apply DecimalZ.to_int_inj.
Qed.

Lemma str_of_Z_eqb (a b : Z) : String.eqb (Py.str_of_Z a) (Py.str_of_Z b) = (a =? b).
Proof.
  destruct (Z.eqb_spec a b) as [-> | Hne].
  - apply String.eqb_refl.
  - apply String.eqb_neq. intros H. apply Hne. now apply str_of_Z_inj.
Qed.

Lemma find_app_last {A : Type} (p : A -> bool) (l : list A) (x : A) :
  find p (l ++ [x])
  = match find p l with
    | Some y => Some y
    | None => if p x then Some x else None
    end.
Proof.
  induction l as [| y l IH]; cbn [app find]; [reflexivity |].
  destruct (p y); [reflexivity | exact IH].
Qed.

(** A lookup in a table built by [dict(zip(keys, values))] finds the value
    of the last row with that key. *)
Lemma dict_get_last {A K V : Type} (eqb : K -> K -> bool) (key : A -> K) (val : A -> V)
    (l : list A) (k : K) :
  Py.dict_get eqb (map (fun x => (key x, val x)) l) k
  = option_map val (Terms.last_with (fun x => eqb k (key x)) l).
Proof.
  unfold Terms.last_with. induction l as [| x l IH]; [reflexivity |].
  cbn [map Py.dict_get rev]. rewrite find_app_last, IH.
  destruct (find (fun x0 => eqb k (key x0)) (rev l)); cbn [option_map]; [reflexivity |].
  destruct (eqb k (key x)); reflexivity.
Qed.

Section UniqueFacts.
Context {A : Type} (eqb : A -> A -> bool).
Hypothesis eqb_eq : forall x y, eqb x y = true <-> x = y.

Lemma existsb_eqb_In (x : A) (l : list A) : existsb (eqb x) l = true <-> In x l.
Proof.
  rewrite existsb_exists. split.
  - intros (y & Hy & E). apply eqb_eq in E. now subst.
  - intros H. exists x. split; [exact H | now apply eqb_eq].
Qed.

Lemma unique_acc_spec (l seen : list A) :
  NoDup (Py.unique_acc eqb seen l) /\
  forall x, In x (Py.unique_acc eqb seen l) <-> In x l /\ ~ In x seen.
Proof.
  revert seen. induction l as [| a l IH]; intros seen; cbn [Py.unique_acc].
  - split; [constructor |]. intros x. cbn. tauto.
  - destruct (existsb (eqb a) seen) eqn:E.
    + apply existsb_eqb_In in E. destruct (IH seen) as [Hn Hi].
      split; [exact Hn |]. intros x. rewrite Hi. cbn [In]. split.
      * tauto.
      * intros [[-> | Hx] Hs]; [contradiction | tauto].
    + assert (Ha : ~ In a seen).
      { intros Hc. apply existsb_eqb_In in Hc. congruence. }
      destruct (IH (a :: seen)) as [Hn Hi]. split.
      * constructor; [| exact Hn]. rewrite Hi. cbn [In]. tauto.
      * intros x. cbn [In]. rewrite Hi. cbn [In]. split.
        -- intros [<- | (Hx & Hs)]; [tauto |]. tauto.
        -- intros [[<- | Hx] Hs]; [tauto |].
           destruct (existsb (eqb x) [a]) eqn:Ex.
           ++ apply existsb_eqb_In in Ex. destruct Ex as [-> | []]. tauto.
           ++ right. split; [exact Hx |]. intros [-> | Hc]; [| contradiction].
              assert (In x [x]) as Hxx by (left; reflexivity).
              apply existsb_eqb_In in Hxx. congruence.
Qed.

Lemma unique_NoDup (l : list A) : NoDup (Py.unique eqb l).
Proof. apply unique_acc_spec. Qed.

Lemma unique_In (l : list A) (x : A) : In x (Py.unique eqb l) <-> In x l.
Proof.
  unfold Py.unique. rewrite (proj2 (unique_acc_spec l [])). cbn [In]. tauto.
Qed.
End UniqueFacts.


Section BreakRecords.
Variable utc_offset : Z -> Z.


Lemma groupby_user_date_rows (raw : list Kimai.timesheet) (k : string * Z)
    (g : list Kimai.entry) :
  In (k, g) (Kimai.groupby_user_date utc_offset (Kimai.dropna_entries raw)) ->
  g = Terms.entries_of utc_offset raw (fst k) (snd k).
Proof.
  unfold Kimai.groupby_user_date. cbv zeta. intros H.
  apply in_map_iff in H. destruct H as (k' & [= -> <-] & _).
  unfold Terms.entries_of. apply filter_ext. intros e.
  destruct k as [u d]. cbn [fst snd].
  destruct (Py.cmp_eqb Kimai.cmp_key (Kimai.group_key utc_offset e) (u, d)) eqn:E.
  - apply cmp_key_eq in E. unfold Kimai.group_key in E. injection E as -> ->.
    now rewrite String.eqb_refl, Z.eqb_refl.
  - symmetry. apply andb_false_iff.
    destruct (String.eqb_spec (Kimai.e_user e) u) as [Hu | Hu]; [| now left].
    destruct (Z.eqb_spec (Kimai.date_only utc_offset (Kimai.e_begin e)) d) as [Hd | Hd];
      [| now right].
    assert (Hk : Kimai.group_key utc_offset e = (u, d)).
    { unfold Kimai.group_key. now rewrite Hu, Hd. }
    apply cmp_key_eq in Hk. congruence.
Qed.




End BreakRecords.

(** ** process_timesheet_mappings *)

Lemma find_ext_eq {A : Type} (f g : A -> bool) (l : list A) :
  (forall x, f x = g x) -> find f l = find g l.
Proof.
  intros H. induction l as [| x l IH]; [reflexivity |].
  cbn [find]. rewrite H, IH. reflexivity.
Qed.

Section MappingFacts.
Variable utc_offset : Z -> Z.

(** X8.  When the four frames are there, every timesheet row is kept, in
    order, and its ids are resolved as numbers: the user becomes the alias of
    the last user row with that id, the activity its name, the project its
    name and the customer the project's parent title; an id that no row has
    gives a missing value.  The duration becomes hours to 2 places: a
    multiple of 0.01 h within 0.005 h of the seconds divided by 3600 (for
    durations below 2^52 s, which binary64 divides closely enough), and a
    missing duration stays missing.  The breaks are those of the raw
    rows. *)
Theorem timesheet_ids_are_resolved_by_the_last_row :
  forall (frames : Kimai.dataframes) (timesheets_raw_df : list Kimai.timesheet)
         (activities_df : list Kimai.activity) (projects_df : list Kimai.project)
         (users_df : list Kimai.user),
    Kimai.Timesheets frames = Some timesheets_raw_df ->
    Kimai.Activities frames = Some activities_df ->
    Kimai.Projects frames = Some projects_df ->
    Kimai.Users frames = Some users_df ->
    exists timesheets_df : list Kimai.mapped,
      Kimai.process_timesheet_mappings utc_offset frames
      = (Some timesheets_df,
         Kimai.calculate_breaks_from_raw_data utc_offset timesheets_raw_df users_df) /\
      Forall2
        (fun (r : Kimai.timesheet) (m : Kimai.mapped) =>
           Kimai.m_user m
           = match Terms.last_with (fun u => Kimai.ts_user r =? Kimai.usr_id u) users_df with
             | Some u => Kimai.usr_alias u
             | None => None
             end /\
           Kimai.m_activity m
           = match Terms.last_with (fun a => Kimai.ts_activity r =? Kimai.act_id a)
                     activities_df with
             | Some a => Kimai.act_name a
             | None => None
             end /\
           Kimai.m_project m
           = match Terms.last_with (fun p => Kimai.ts_project r =? Kimai.prj_id p)
                     projects_df with
             | Some p => Kimai.prj_name p
             | None => None
             end /\
           Kimai.m_customer m
           = match Terms.last_with (fun p => Kimai.ts_project r =? Kimai.prj_id p)
                     projects_df with
             | Some p => Kimai.prj_parentTitle p
             | None => None
             end /\
           Kimai.m_date m = option_map (Kimai.date_only utc_offset) (Kimai.ts_begin r) /\
           match Kimai.ts_duration r with
           | None => Kimai.m_duration m = None
           | Some d =>
               exists hours : Q,
                 Kimai.m_duration m = Some hours /\
                 (Z.abs d < 2 ^ 52 -> Terms.rounded_to 100 (inject_Z d / 3600) hours)
           end)
        timesheets_raw_df timesheets_df.
Proof.
  intros frames ts acts projs users Ht Ha Hp Hu.
  unfold Kimai.process_timesheet_mappings. rewrite Ht, Ha, Hp, Hu. cbv zeta.
  eexists. split; [reflexivity |].
  clear Ht. induction ts as [| r ts IH]; cbn [map]; [constructor |].
  constructor; [| exact IH].
  unfold Kimai.map_timesheet. cbv zeta.
  cbn [Kimai.m_user Kimai.m_activity Kimai.m_project Kimai.m_customer Kimai.m_date
       Kimai.m_duration].
  unfold Kimai.series_map.
  rewrite (dict_get_last String.eqb (fun u => Py.str_of_Z (Kimai.usr_id u)) Kimai.usr_alias).
  rewrite (dict_get_last Z.eqb Kimai.act_id Kimai.act_name).
  rewrite (dict_get_last String.eqb (fun p => Py.str_of_Z (Kimai.prj_id p)) Kimai.prj_name).
  rewrite (dict_get_last String.eqb (fun p => Py.str_of_Z (Kimai.prj_id p))
             Kimai.prj_parentTitle).
  assert (Eu : Terms.last_with
                 (fun u => String.eqb (Py.str_of_Z (Kimai.ts_user r))
                             (Py.str_of_Z (Kimai.usr_id u))) users
               = Terms.last_with (fun u => Kimai.ts_user r =? Kimai.usr_id u) users).
  { unfold Terms.last_with. apply find_ext_eq. intros u. apply str_of_Z_eqb. }
  assert (Ep : Terms.last_with
                 (fun p => String.eqb (Py.str_of_Z (Kimai.ts_project r))
                             (Py.str_of_Z (Kimai.prj_id p))) projs
               = Terms.last_with (fun p => Kimai.ts_project r =? Kimai.prj_id p) projs).
  { unfold Terms.last_with. apply find_ext_eq. intros p. apply str_of_Z_eqb. }
  rewrite Eu, Ep.
  destruct (Terms.last_with (fun u => Kimai.ts_user r =? Kimai.usr_id u) users);
    destruct (Terms.last_with (fun a => Kimai.ts_activity r =? Kimai.act_id a) acts);
    destruct (Terms.last_with (fun p => Kimai.ts_project r =? Kimai.prj_id p) projs);
    cbn [option_map]; repeat split;
    (destruct (Kimai.ts_duration r) as [d |]; cbn [option_map];
     [eexists; split; [reflexivity | intros _; apply rounded_2] | reflexivity]).
Qed.

End MappingFacts.

Lemma timesheet_ids_are_resolved_by_the_last_row_witness :
  exists timesheets_df : list Kimai.mapped,
    Kimai.process_timesheet_mappings sample_offset frames_with_unknown_user
    = (Some timesheets_df,
       Kimai.calculate_breaks_from_raw_data sample_offset
         [Kimai.mkTimesheet 1 1 8 (Some 1709564400) (Some 1709568000) (Some 3600)]
         [Kimai.mkUser 7 (Some "ann"%string)]).
Proof.
  destruct (timesheet_ids_are_resolved_by_the_last_row sample_offset
              frames_with_unknown_user _ _ _ _ eq_refl eq_refl eq_refl eq_refl)
    as (df & Hdf & _).
  exists df. exact Hdf.
Defined.

(** ** Group sums *)

Lemma fold_left_Qplus_Qeq (l : list Q) (a b : Q) :
  (a == b)%Q -> (fold_left Qplus l a == fold_left Qplus l b)%Q.
Proof.
  revert a b. induction l as [| x l IH]; intros a b H; cbn [fold_left]; [exact H |].
  apply IH. rewrite H. reflexivity.
Qed.

Lemma fold_left_Qplus_acc (l : list Q) (a : Q) :
  (fold_left Qplus l a == a + Py.Qsum l)%Q.
Proof.
  unfold Py.Qsum. revert a. induction l as [| x l IH]; intros a; cbn [fold_left].
  - ring.
  - rewrite (IH (a + x)%Q), (IH (0 + x)%Q). ring.
Qed.

Lemma Qsum_cons (x : Q) (l : list Q) : (Py.Qsum (x :: l) == x + Py.Qsum l)%Q.
Proof.
  unfold Py.Qsum at 1. cbn [fold_left]. rewrite fold_left_Qplus_acc. ring.
Qed.

Lemma Qsum_perm (l1 l2 : list Q) : Permutation l1 l2 -> (Py.Qsum l1 == Py.Qsum l2)%Q.
Proof.
  induction 1 as [| x l1 l2 _ IH | x y l | l1 l2 l3 _ IH1 _ IH2].
  - reflexivity.
  - rewrite !Qsum_cons, IH. reflexivity.
  - rewrite !Qsum_cons. ring.
  - rewrite IH1. exact IH2.
Qed.

Section GroupSums.
Context {K : Type} (eqb : K -> K -> bool).
Hypothesis eqb_eq : forall x y, eqb x y = true <-> x = y.

Lemma share_of_key (ks : list K) (k0 : K) (v0 : Q) :
  NoDup ks ->
  (Py.Qsum (map (fun k => if eqb k0 k then v0 else 0) ks)
   == if existsb (eqb k0) ks then v0 else 0)%Q.
Proof.
  induction 1 as [| k ks Hnotin Hnd IH]; [reflexivity |].
  cbn [map existsb]. rewrite Qsum_cons, IH.
  destruct (eqb k0 k) eqn:E; cbn [orb].
  - apply eqb_eq in E. subst k.
    assert (Hno : existsb (eqb k0) ks = false).
    { destruct (existsb (eqb k0) ks) eqn:Ex; [| reflexivity].
      apply existsb_exists in Ex. destruct Ex as (y & Hy & Ey).
      apply eqb_eq in Ey. subst y. contradiction. }
    rewrite Hno. ring.
  - ring.
Qed.

Lemma group_sums_step (ks : list K) (k0 : K) (v0 : Q) (keyed : list (K * Q)) :
  (Py.Qsum (map (Terms.group_sum eqb ((k0, v0) :: keyed)) ks)
   == Py.Qsum (map (fun k => if eqb k0 k then v0 else 0) ks)
      + Py.Qsum (map (Terms.group_sum eqb keyed) ks))%Q.
Proof.
  induction ks as [| k ks IH]; [reflexivity |].
  cbn [map]. rewrite !Qsum_cons, IH.
  unfold Terms.group_sum at 1. cbn [filter fst].
  destruct (eqb k0 k); cbn [map snd].
  - rewrite Qsum_cons. fold (Terms.group_sum eqb keyed k). ring.
  - fold (Terms.group_sum eqb keyed k). ring.
Qed.

Lemma group_sums_total (ks : list K) (keyed : list (K * Q)) :
  NoDup ks ->
  (forall kv, In kv keyed -> In (fst kv) ks) ->
  (Py.Qsum (map (Terms.group_sum eqb keyed) ks) == Py.Qsum (map snd keyed))%Q.
Proof.
  intros Hnd. induction keyed as [| [k0 v0] keyed IH]; intros Hin.
  - cbn [map]. clear Hin Hnd. induction ks as [| k ks IH]; [reflexivity |].
    cbn [map]. rewrite Qsum_cons, IH. unfold Terms.group_sum. cbn. reflexivity.
  - rewrite group_sums_step, (share_of_key ks k0 v0 Hnd), IH.
    + assert (Hex : existsb (eqb k0) ks = true).
      { apply existsb_exists. exists k0. split.
        - apply (Hin (k0, v0)). now left.
        - now apply eqb_eq. }
      rewrite Hex. cbn [map snd]. rewrite Qsum_cons. reflexivity.
    + intros kv Hkv. apply Hin. now right.
Qed.
End GroupSums.

Section GroupByFacts.
Context {R K : Type} (cmp : K -> K -> comparison).
Hypothesis cmp_eq : forall x y, Py.cmp_eqb cmp x y = true <-> x = y.
Variable key : R -> option K.
Variable value : R -> Q.

Lemma groupby_sum_keys (rows : list R) :
  NoDup (map fst (Kimai.groupby_sum cmp key value rows)) /\
  forall k, In k (map fst (Kimai.groupby_sum cmp key value rows))
            <-> exists r, In r rows /\ key r = Some k.
Proof.
  unfold Kimai.groupby_sum. cbv zeta. rewrite map_map. cbn [fst]. rewrite map_id.
  split.
  - eapply Permutation_NoDup; [apply Permutation_sym, stable_sort_perm |].
    apply unique_NoDup. exact cmp_eq.
  - intros k. split.
    + intros Hk. apply (Permutation_in _ (stable_sort_perm _ _)) in Hk.
      apply (proj1 (unique_In _ cmp_eq _ _)) in Hk. apply in_map_iff in Hk.
      destruct Hk as ([k0 v0] & Hfst & Hin). cbn [fst] in Hfst. subst k0.
      unfold Kimai.keyed_rows in Hin. apply in_flat_map in Hin.
      destruct Hin as (r & Hr & Hkv). exists r. split; [exact Hr |].
      destruct (key r) as [k1 |]; [| destruct Hkv].
      destruct Hkv as [[= -> _] | []]. reflexivity.
    + intros (r & Hr & Hk).
      apply (Permutation_in _ (Permutation_sym (stable_sort_perm _ _))).
      apply (proj2 (unique_In _ cmp_eq _ _)). apply in_map_iff. exists (k, value r).
      split; [reflexivity |]. unfold Kimai.keyed_rows. apply in_flat_map.
      exists r. split; [exact Hr |]. rewrite Hk. now left.
Qed.

Lemma groupby_sum_group (rows : list R) (k : K) (v : Q) :
  In (k, v) (Kimai.groupby_sum cmp key value rows) ->
  v = Py.Qsum (map value
                 (filter (fun r => match key r with
                                   | Some k' => Py.cmp_eqb cmp k' k
                                   | None => false
                                   end) rows)).
Proof.
  unfold Kimai.groupby_sum. cbv zeta. intros H.
  apply in_map_iff in H. destruct H as (k' & [= -> <-] & _).
  f_equal. unfold Kimai.keyed_rows.
  induction rows as [| r rows IH]; [reflexivity |].
  cbn [flat_map filter]. destruct (key r) as [k1 |]; cbn [app filter fst].
  - destruct (Py.cmp_eqb cmp k1 k); cbn [map snd]; rewrite IH; reflexivity.
  - exact IH.
Qed.

Lemma groupby_sum_total (rows : list R) :
  (Py.Qsum (map snd (Kimai.groupby_sum cmp key value rows))
   == Py.Qsum (map snd (Kimai.keyed_rows key value rows)))%Q.
Proof.
  pose proof (groupby_sum_keys rows) as [Hnd Hin].
  unfold Kimai.groupby_sum in *. cbv zeta in *.
  rewrite map_map in *. cbn [fst snd] in *. rewrite map_id in Hnd, Hin.
  apply (group_sums_total (Py.cmp_eqb cmp) cmp_eq); [exact Hnd |].
  intros [k v] Hkv. cbn [fst].
  apply (Permutation_in _ (Permutation_sym (stable_sort_perm _ _))).
  apply (proj2 (unique_In _ cmp_eq _ _)). apply in_map_iff. exists (k, v). split; [reflexivity | exact Hkv].
Qed.
End GroupByFacts.

Lemma string_cmp_eq (x y : string) : Py.cmp_eqb String.compare x y = true <-> x = y.
Proof.
  unfold Py.cmp_eqb. split.
  - destruct (String.compare x y) eqn:E; try discriminate.
    intros _. now apply String.compare_eq_iff.
  - intros ->. now rewrite string_compare_refl.
Qed.

Lemma cmp_pair_eq {A B : Type} (ca : A -> A -> comparison) (cb : B -> B -> comparison) :
  (forall x y, Py.cmp_eqb ca x y = true <-> x = y) ->
  (forall x y, Py.cmp_eqb cb x y = true <-> x = y) ->
  forall x y, Py.cmp_eqb (Py.cmp_pair ca cb) x y = true <-> x = y.
Proof.
  intros Ha Hb [a1 b1] [a2 b2]. unfold Py.cmp_eqb, Py.cmp_pair in *. cbn [fst snd].
  specialize (Ha a1 a2). specialize (Hb b1 b2). split.
  - destruct (ca a1 a2); try discriminate. intros H.
    f_equal; [now apply Ha | now apply Hb].
  - intros [= -> ->].
    destruct (ca a2 a2); try (assert (false = true) by now apply Ha); try discriminate.
    now apply Hb.
Qed.

Lemma keyed_rows_values {R K : Type} (key : R -> option K) (value : R -> Q)
    (rows : list R) :
  map snd (Kimai.keyed_rows key value rows)
  = map value (filter (fun r => match key r with Some _ => true | None => false end) rows).
Proof.
  unfold Kimai.keyed_rows. induction rows as [| r rows IH]; [reflexivity |].
  cbn [flat_map filter]. destruct (key r); cbn [app map snd]; rewrite IH; reflexivity.
Qed.

(** ** The summary sheets *)

Lemma Qle_bool_total (a b : Q) : Qle_bool a b = true \/ Qle_bool b a = true.
Proof.
  rewrite !Qle_bool_iff. destruct (Qlt_le_dec a b) as [H | H]; [left | right];
    [apply Qlt_le_weak |]; exact H.
Qed.

Lemma Sorted_weaken {A : Type} (R R' : A -> A -> Prop) (l : list A) :
  (forall a b, R a b -> R' a b) -> Sorted R l -> Sorted R' l.
Proof.
  intros HR. induction 1 as [| a l Hl IH Hhd]; constructor; [exact IH |].
  destruct Hhd as [| b l' Hab]; constructor. now apply HR.
Qed.

Lemma customer_is_cmp (c : string) (r : Kimai.mapped) :
  match Kimai.m_customer r with
  | Some k' => Py.cmp_eqb String.compare k' c
  | None => false
  end = Kimai.customer_is c r.
Proof.
  unfold Kimai.customer_is. destruct (Kimai.m_customer r) as [c' |]; [| reflexivity].
  destruct (String.eqb_spec c' c) as [-> | Hne].
  - now apply string_cmp_eq.
  - destruct (Py.cmp_eqb String.compare c' c) eqn:E; [| reflexivity].
    apply string_cmp_eq in E. contradiction.
Qed.

(** X9.  The hours of the Employee Summary add up: there is one group per
    customer and employee, the hours of a group are the sum of the hours of
    its rows, and the groups together hold the hours of all rows that have
    both a customer and an employee. *)
Theorem grouped_hours_add_up :
  forall df_ytd : list Kimai.mapped,
    let grouped := Kimai.grouped_total_ytd df_ytd in
    NoDup (map fst grouped) /\
    (forall (c u : string) (h : Q),
        In (c, u, h) grouped ->
        h = Py.Qsum (map Kimai.duration0
                       (filter (fun r => match Kimai.m_customer r, Kimai.m_user r with
                                         | Some c', Some u' =>
                                             String.eqb c' c && String.eqb u' u
                                         | _, _ => false
                                         end) df_ytd))) /\
    (Py.Qsum (map snd grouped)
     == Py.Qsum (map Kimai.duration0
                   (filter (fun r => match Kimai.m_customer r, Kimai.m_user r with
                                     | Some _, Some _ => true
                                     | _, _ => false
                                     end) df_ytd)))%Q.
Proof.
  intros df_ytd grouped. unfold grouped, Kimai.grouped_total_ytd.
  assert (Hcmp : forall x y, Py.cmp_eqb Kimai.cmp2 x y = true <-> x = y).
  { apply cmp_pair_eq; exact string_cmp_eq. }
  split; [apply (groupby_sum_keys Kimai.cmp2 Hcmp) |]. split.
  - intros c u h Hin.
    rewrite (groupby_sum_group Kimai.cmp2 _ _ _ _ _ Hin). do 2 f_equal.
    apply filter_ext. intros r. unfold Kimai.key_customer_user, Kimai.opt_pair.
    destruct (Kimai.m_customer r) as [c' |]; [| reflexivity].
    destruct (Kimai.m_user r) as [u' |]; [| reflexivity].
    destruct (Py.cmp_eqb Kimai.cmp2 (c', u') (c, u)) eqn:E.
    + apply Hcmp in E. injection E as -> ->. now rewrite !String.eqb_refl.
    + symmetry. apply andb_false_iff.
      destruct (String.eqb_spec c' c) as [-> | Hc]; [| now left].
      destruct (String.eqb_spec u' u) as [-> | Hu]; [| now right].
      assert (Hk : (c, u) = (c, u)) by reflexivity. apply Hcmp in Hk. congruence.
  - rewrite (groupby_sum_total Kimai.cmp2 Hcmp), keyed_rows_values.
    assert (E : filter (fun r => match Kimai.key_customer_user r with
                                 | Some _ => true | None => false end) df_ytd
                = filter (fun r => match Kimai.m_customer r, Kimai.m_user r with
                                   | Some _, Some _ => true
                                   | _, _ => false
                                   end) df_ytd).
    { apply filter_ext. intros r. unfold Kimai.key_customer_user, Kimai.opt_pair.
      destruct (Kimai.m_customer r), (Kimai.m_user r); reflexivity. }
    rewrite E. reflexivity.
Qed.

(** X10.  The Customer Hours Summary has one row per customer that has a
    timesheet row, General Admin excepted, with the sum of the hours of that
    customer's rows, the greatest hours first.  The third cell of a row is
    the customer's share of all hours in percent, a multiple of 0.1 at most
    0.1 away from the quotient, or the integer 0 when there are no hours. *)
Theorem customer_hours_summary_is_sorted_by_hours :
  forall timesheets_df : list Kimai.mapped,
    let df_ytd := Kimai.df_customers timesheets_df in
    exists customer_hours : list (string * Q),
      (let total_all_customers := Py.Qsum (map snd customer_hours) in
       exists data_rows : list Xlsx.row,
         Kimai.customer_hours_summary df_ytd
         = [Xlsx.Str "Customer"; Xlsx.Str "TotalHours"; Xlsx.Str "Percentage"] ::
           data_rows /\
         Forall2
           (fun (r : string * Q) (data_row : Xlsx.row) =>
              exists percentage : Xlsx.cell,
                data_row
                = [Xlsx.Str (fst r); Xlsx.Num (Py.round (snd r) 2); percentage] /\
                if negb (Qle_bool total_all_customers 0)
                then exists p : Q,
                       percentage = Xlsx.Num p /\
                       Terms.near_to 10 ((snd r / total_all_customers) * 100) p
                else percentage = Xlsx.Int 0)
           customer_hours data_rows) /\
      NoDup (map fst customer_hours) /\
      Sorted (fun a b : string * Q => (snd b <= snd a)%Q) customer_hours /\
      (forall c : string,
          In c (map fst customer_hours) <->
          c <> "General Admin"%string /\
          exists r, In r timesheets_df /\ Kimai.m_customer r = Some c) /\
      (forall (c : string) (h : Q),
          In (c, h) customer_hours ->
          h = Py.Qsum (map Kimai.duration0 (filter (Kimai.customer_is c) timesheets_df))).
Proof.
  intros timesheets_df df_ytd.
  set (groups := Kimai.groupby_sum String.compare Kimai.m_customer Kimai.duration0 df_ytd).
  set (leb := fun a b : string * Q => Qle_bool (snd b) (snd a)).
  exists (Py.stable_sort leb groups).
  pose proof (stable_sort_perm leb groups) as Hperm.
  pose proof (groupby_sum_keys String.compare string_cmp_eq Kimai.m_customer
                Kimai.duration0 df_ytd) as [Hnd Hkeys].
  fold groups in Hnd, Hkeys.
  assert (Hmem : forall c, (exists r, In r df_ytd /\ Kimai.m_customer r = Some c) <->
                           c <> "General Admin"%string /\
                           exists r, In r timesheets_df /\ Kimai.m_customer r = Some c).
  { intros c. unfold df_ytd, Kimai.df_customers. split.
    - intros (r & Hr & Hc). apply filter_In in Hr. destruct Hr as [Hr Hga].
      split; [| exists r; tauto].
      intros ->. unfold Kimai.customer_is in Hga. rewrite Hc, String.eqb_refl in Hga.
      discriminate Hga.
    - intros (Hne & r & Hr & Hc). exists r. split; [| exact Hc].
      apply filter_In. split; [exact Hr |].
      unfold Kimai.customer_is. rewrite Hc.
      destruct (String.eqb_spec c "General Admin"); [contradiction | reflexivity]. }
  split; [| split; [| split; [| split]]].
  - cbv zeta. eexists. split; [reflexivity |].
    apply Forall2_map_right. intros r _. eexists. split; [reflexivity |].
    destruct (negb (Qle_bool _ 0)).
    + eexists. split; [reflexivity |]. apply rounded_near, rounded_1.
    + reflexivity.
  - eapply Permutation_NoDup; [| exact Hnd].
    apply Permutation_map, Permutation_sym, Hperm.
  - apply (Sorted_weaken (fun a b => leb a b = true)).
    + intros a b Hab. unfold leb in Hab. now apply Qle_bool_iff in Hab.
    + apply stable_sort_sorted. intros a b. apply Qle_bool_total.
  - intros c. rewrite <- Hmem, <- Hkeys. split; intros Hc.
    + eapply Permutation_in; [apply Permutation_map, Hperm | exact Hc].
    + eapply Permutation_in; [apply Permutation_map, Permutation_sym, Hperm | exact Hc].
  - intros c h Hin. apply (Permutation_in _ Hperm) in Hin.
    rewrite (groupby_sum_group String.compare _ _ _ _ _ Hin).
    do 2 f_equal. unfold df_ytd, Kimai.df_customers.
    assert (Hne : c <> "General Admin"%string).
    { apply (Hmem c), Hkeys. apply in_map_iff. exists (c, h). split; [reflexivity | exact Hin]. }
    clear -Hne. induction timesheets_df as [| r l IH]; [reflexivity |].
    cbn [filter]. rewrite <- (customer_is_cmp c r).
    destruct (negb (Kimai.customer_is "General Admin" r)) eqn:Ega; cbn [filter].
    + destruct (match Kimai.m_customer r with
                | Some k' => Py.cmp_eqb String.compare k' c
                | None => false
                end); rewrite IH; reflexivity.
    + rewrite IH. apply negb_false_iff in Ega. unfold Kimai.customer_is in Ega.
      destruct (Kimai.m_customer r) as [c' |]; [| reflexivity].
      apply String.eqb_eq in Ega. subst c'.
      destruct (Py.cmp_eqb String.compare "General Admin"%string c) eqn:E; [| reflexivity].
      apply string_cmp_eq in E. subst c. contradiction.
Qed.

(** ** The layout of the customer workbook and the outcome of a run *)

Lemma flat_map_map_length {A B C : Type} (h : A -> list B) (g : A -> B -> C) (l : list A) :
  length (flat_map (fun r => map (g r) (h r)) l) = length (flat_map h l).
Proof.
  induction l as [| r l IH]; [reflexivity |].
  cbn [flat_map]. rewrite !length_app, length_map, IH. reflexivity.
Qed.

Lemma reported_customers_length : length Claims.reported_customers = 10%nat.
Proof. reflexivity. Qed.

(** X11.  The customer workbook starts with the three summary sheets; the
    break sheet, when there are break records, is the fourth sheet and has
    one row per break under its header; the ten customer sheets follow, so
    the workbook has 13 or 14 sheets. *)
Theorem customer_workbook_layout :
  forall (today : Calendar.date) (set_iter : list string -> list string)
         (timesheets_df : list Kimai.mapped) (breaks_df : list Kimai.break_record),
    Claims.set_iteration set_iter ->
    let wb := Kimai.customer_workbook today set_iter timesheets_df breaks_df in
    Xlsx.titles wb
    = ["Employee Summary"; "Activity Details"; "Customer Hours Summary"]%string
        ++ match breaks_df with [] => [] | _ => ["YTD Break Analysis"%string] end
        ++ set_iter Claims.reported_customers /\
    length wb = (13 + match breaks_df with [] => 0 | _ => 1 end)%nat /\
    match breaks_df with
    | [] => Xlsx.find_sheet wb "YTD Break Analysis" = None
    | _ =>
        exists rows : list Xlsx.row,
          nth_error wb 3 = Some ("YTD Break Analysis"%string, rows) /\
          Xlsx.find_sheet wb "YTD Break Analysis" = Some rows /\
          length rows = S (length (flat_map Kimai.break_details breaks_df))
    end.
Proof.
  intros today set_iter timesheets_df breaks_df Hset wb.
  unfold wb. rewrite customer_workbook_shape. cbv zeta.
  set (df_ytd := Kimai.df_customers timesheets_df).
  set (grouped := Kimai.grouped_total_ytd df_ytd).
  pose proof (customer_sheet_titles set_iter Hset grouped df_ytd) as Htitles.
  pose proof (Permutation_length (Hset Claims.reported_customers)) as Hlen.
  rewrite reported_customers_length in Hlen.
  split; [| split].
  - unfold Xlsx.titles. rewrite !map_app, Htitles.
    destruct breaks_df; reflexivity.
  - rewrite !length_app, length_map, Hlen. destruct breaks_df; reflexivity.
  - destruct breaks_df as [| b breaks_df].
    + cbn [app]. unfold Xlsx.find_sheet.
      match goal with
      | |- option_map _ (find ?f ?l) = None =>
          assert (Hnone : find f l = None); [| rewrite Hnone; reflexivity]
      end.
      apply find_none_iff. intros s Hs.
      destruct Hs as [<- | [<- | [<- | Hs]]]; [reflexivity | reflexivity | reflexivity |].
      apply String.eqb_neq. intros Heq.
      assert (Hin : In (fst s) (set_iter Claims.reported_customers)).
      { rewrite <- Htitles. now apply in_map. }
      apply (Permutation_in _ (Hset _)) in Hin.
      apply reported_customers_in in Hin. destruct Hin as [Hin _].
      pose proof roster_not_summary_titles as Hr. rewrite Forall_forall in Hr.
      destruct (Hr _ Hin) as (_ & _ & _ & Hb). contradiction.
    + exists (Kimai.break_analysis (b :: breaks_df)). split; [reflexivity |].
      split; [reflexivity |].
      unfold Kimai.break_analysis. cbv zeta. cbn [length]. f_equal.
      rewrite length_map, stable_sort_length.
      apply (flat_map_map_length Kimai.break_details
               (fun r b0 => Kimai.mkIndividual (Kimai.br_user r) (Kimai.date_formatted r) b0
                              (Kimai.first_work_start r) (Kimai.last_work_end r))).
Qed.

Lemma customer_workbook_layout_witness :
  length (Kimai.customer_workbook sample_today (fun l => l) sample_mapped []) = 13%nat.
Proof.
  exact (proj1 (proj2 (customer_workbook_layout sample_today (fun l => l) sample_mapped []
                         (fun l => Permutation_refl l)))).
Defined.

Lemma frame_of_pages {R : Type} (get : Z -> Http.result (Kimai.json R)) (fuel : nat)
    (st : Kimai.page_state R) :
  Kimai.fetch_paginated fuel get = Some st ->
  (Kimai.frame_of (Kimai.df_list st) = None <-> Claims.full_page get 1 = false).
Proof.
  unfold Kimai.fetch_paginated. intros H.
  apply page_loop_returns in H. destruct H as (n & _ & Hfull & Hlast & ->).
  cbn [Kimai.page Kimai.df_list app] in *.
  destruct n as [| n].
  - cbn [Z.of_nat] in Hlast. rewrite Z.add_0_r in Hlast.
    cbn. split; [intros _; exact Hlast | reflexivity].
  - specialize (Hfull 0%nat ltac:(lia)). cbn [Z.of_nat] in Hfull.
    rewrite Z.add_0_r in Hfull. rewrite pages_from_S. cbn [map Kimai.frame_of].
    split; [discriminate | congruence].
Qed.

Lemma frame_of_none {R : Type} (dfs : list (list R)) :
  Kimai.frame_of dfs = None <-> dfs = [].
Proof. destruct dfs; cbn; split; congruence. Qed.

(** X12.  A run of the Kimai script that ends succeeds exactly when the
    token is set and each of the four endpoints gave at least one record;
    it then writes the two workbooks named after the day, and otherwise
    writes nothing and exits with 1. *)
Theorem kimai_run_succeeds_iff_all_four_frames :
  forall (today : Calendar.date) (set_iter : list string -> list string) (fuel : nat)
         (utc_offset : Z -> Z) (KIMAI_API_TOKEN : option string) (api : Kimai.Api)
         (run : Xlsx.run),
    Kimai.main today set_iter fuel utc_offset KIMAI_API_TOKEN api = Some run ->
    let complete :=
      ServiceFusion.truthy KIMAI_API_TOKEN = true /\
      Claims.full_page (Kimai.get_timesheets api) 1 = true /\
      Kimai.fetch_single (Kimai.get_activities api) <> [] /\
      Kimai.fetch_single (Kimai.get_projects api) <> [] /\
      Kimai.fetch_single (Kimai.get_users api) <> [] in
    (complete ->
     Xlsx.exit_code run = 0 /\
     map fst (Xlsx.files run)
     = [("Kimai_Customer_Reports_YTD_" ++ Kimai.now_Ymd today ++ ".xlsx")%string;
        ("Kimai_Summary_YTD_" ++ Kimai.now_Ymd today ++ ".xlsx")%string]) /\
    (~ complete -> run = Xlsx.mkRun 1 []).
Proof.
  intros today set_iter fuel utc_offset token api run Hmain complete.
  unfold Kimai.main in Hmain.
  assert (Htok : ServiceFusion.truthy token = false ->
                 run = Xlsx.mkRun 1 [] /\ ~ complete).
  { intros Ht. split; [| unfold complete; intros (Hc & _); congruence].
    destruct token as [[| c s] |]; [| discriminate Ht |]; now injection Hmain as <-. }
  destruct (ServiceFusion.truthy token) eqn:Ht.
  2:{ destruct (Htok eq_refl) as [-> Hn]. split; [intros Hc; contradiction | reflexivity]. }
  clear Htok.
  destruct token as [[| c s] |]; try discriminate Ht.
  unfold Kimai.fetch_api_data in Hmain.
  destruct (Kimai.fetch_paginated fuel (Kimai.get_timesheets api)) as [st |] eqn:Hst;
    [| discriminate Hmain].
  pose proof (frame_of_pages _ _ _ Hst) as Hpages.
  pose proof (frame_of_none (Kimai.fetch_single (Kimai.get_activities api))) as Ha.
  pose proof (frame_of_none (Kimai.fetch_single (Kimai.get_projects api))) as Hp.
  pose proof (frame_of_none (Kimai.fetch_single (Kimai.get_users api))) as Hu.
  unfold Kimai.frames_empty, Kimai.process_timesheet_mappings in Hmain.
  cbn [Kimai.Timesheets Kimai.Activities Kimai.Projects Kimai.Users] in Hmain.
  unfold complete.
  destruct (Kimai.frame_of (Kimai.df_list st)) as [ts |];
    destruct (Kimai.frame_of (Kimai.fetch_single (Kimai.get_activities api))) as [acts |];
    destruct (Kimai.frame_of (Kimai.fetch_single (Kimai.get_projects api))) as [projs |];
    destruct (Kimai.frame_of (Kimai.fetch_single (Kimai.get_users api))) as [users |];
    injection Hmain as <-;
    (split;
     [ intros (_ & Hc1 & Hc2 & Hc3 & Hc4);
       try (split; reflexivity);
       try (exfalso; apply Hc2; apply Ha; reflexivity);
       try (exfalso; apply Hc3; apply Hp; reflexivity);
       try (exfalso; apply Hc4; apply Hu; reflexivity);
       try (exfalso; assert (Claims.full_page (Kimai.get_timesheets api) 1 = false)
              by (apply Hpages; reflexivity); congruence)
     | intros Hn;
       first
         [ reflexivity
         | exfalso; apply Hn; split; [reflexivity |];
           split; [destruct (Claims.full_page (Kimai.get_timesheets api) 1) eqn:E;
                   [reflexivity
                   | pose proof (proj2 Hpages eq_refl) as Hc; discriminate Hc] |];
           split; [intros Hc; apply Ha in Hc; discriminate Hc |];
           split; [intros Hc; apply Hp in Hc; discriminate Hc |];
           intros Hc; apply Hu in Hc; discriminate Hc ] ]).
Qed.

Lemma kimai_run_succeeds_iff_all_four_frames_witness :
  Kimai.main sample_today (fun l => l) 10 sample_offset (Some "token"%string)
    api_without_timesheets
  = Some (Xlsx.mkRun 1 []).
Proof.
  assert (H : exists run,
             Kimai.main sample_today (fun l => l) 10 sample_offset (Some "token"%string)
               api_without_timesheets = Some run).
  { vm_compute. eexists. reflexivity. }
  destruct H as [run Hrun]. rewrite Hrun. f_equal.
  apply (kimai_run_succeeds_iff_all_four_frames _ _ _ _ _ _ run Hrun).
  intros (_ & Hc & _). vm_compute in Hc. discriminate Hc.
Defined.

(** ** What the Service Fusion extraction returns *)

Section ExtractionRecords.
Variable year : Z.
Variable get_page : ServiceFusion.request -> Http.result ServiceFusion.body.
Variable date_range : string.

Lemma handle_page_records (st : ServiceFusion.extract_state) (data : ServiceFusion.body) :
  match ServiceFusion.handle_page year date_range st data with
  | inl st' | inr st' =>
      ServiceFusion.all_records st'
      = ServiceFusion.all_records st ++ Terms.page_kept year date_range data
  end.
Proof.
  unfold ServiceFusion.handle_page, Terms.page_kept.
  destruct data as [records cur pc |]; [| now rewrite app_nil_r].
  destruct records as [| r records].
  - destruct (ServiceFusion.is_windowed date_range); cbn [filter]; now rewrite app_nil_r.
  - cbv zeta.
    repeat match goal with
           | |- context [if ?b then inr _ else _] => destruct b
           end; reflexivity.
Qed.

(** The records kept from a page are records of that page, and for the
    windowed ranges none of them counts as old. *)
Lemma page_kept_spec (data : ServiceFusion.body) (r : ServiceFusion.obj) :
  In r (Terms.page_kept year date_range data) ->
  (exists items cur pc, data = ServiceFusion.Envelope items cur pc /\ In r items) /\
  (ServiceFusion.is_windowed date_range = true -> ServiceFusion.is_old year r = false).
Proof.
  unfold Terms.page_kept. destruct data as [records cur pc |]; [| intros []].
  destruct (ServiceFusion.is_windowed date_range).
  - intros H. apply filter_In in H. destruct H as [Hin Hold]. split.
    + exists records, cur, pc. auto.
    + intros _. now apply negb_true_iff in Hold.
  - intros H. split; [| discriminate]. exists records, cur, pc. auto.
Qed.

Lemma records_ok_page (l : list ServiceFusion.obj) (req : ServiceFusion.request)
    (data : ServiceFusion.body) :
  Terms.records_ok year get_page date_range l ->
  get_page req = Http.Response 200 data ->
  Terms.records_ok year get_page date_range (l ++ Terms.page_kept year date_range data).
Proof.
  intros Hl Hreq r Hr. apply in_app_or in Hr. destruct Hr as [Hr | Hr]; [now apply Hl |].
  apply page_kept_spec in Hr. destruct Hr as [(items & cur & pc & -> & Hin) Hold].
  split; [| exact Hold]. exists req, items, cur, pc. auto.
Qed.

Lemma extract_step_records (st : ServiceFusion.extract_state) :
  Terms.records_ok year get_page date_range (ServiceFusion.all_records st) ->
  match ServiceFusion.extract_step year get_page date_range st with
  | inl st' | inr st' =>
      Terms.records_ok year get_page date_range (ServiceFusion.all_records st')
  end.
Proof.
  intros Hst. unfold ServiceFusion.extract_step. cbv zeta.
  destruct (get_page (ServiceFusion.mkRequest true
              (if 1 <? ServiceFusion.page st then Some (ServiceFusion.page st) else None)))
    as [| code data] eqn:E1; [exact Hst |].
  destruct (Z.eqb_spec code 200) as [-> | Hcode].
  - match goal with
    | |- match ServiceFusion.handle_page _ _ ?s ?d with _ => _ end =>
        pose proof (handle_page_records s d) as H;
        destruct (ServiceFusion.handle_page year date_range s d) as [st' | st'];
        rewrite H; cbn [ServiceFusion.all_records];
        exact (records_ok_page _ _ _ Hst E1)
    end.
  - destruct (ServiceFusion.page st =? 1); [| exact Hst].
    destruct (get_page (ServiceFusion.mkRequest false None)) as [| code2 data2] eqn:E2;
      [exact Hst |].
    destruct (Z.eqb_spec code2 200) as [-> | Hcode2]; [| exact Hst].
    match goal with
    | |- match ServiceFusion.handle_page _ _ ?s ?d with _ => _ end =>
        pose proof (handle_page_records s d) as H;
        destruct (ServiceFusion.handle_page year date_range s d) as [st' | st'];
        rewrite H; cbn [ServiceFusion.all_records];
        exact (records_ok_page _ _ _ Hst E2)
    end.
Qed.

Lemma extract_loop_records (fuel : nat) :
  forall st st' : ServiceFusion.extract_state,
    Terms.records_ok year get_page date_range (ServiceFusion.all_records st) ->
    ServiceFusion.extract_loop year fuel get_page date_range st = Some st' ->
    Terms.records_ok year get_page date_range (ServiceFusion.all_records st').
Proof.
  induction fuel as [| fuel IH]; intros st st' Hst Hloop; [discriminate Hloop |].
  cbn [ServiceFusion.extract_loop] in Hloop.
  pose proof (extract_step_records st Hst) as Hstep.
  destruct (ServiceFusion.extract_step year get_page date_range st) as [st1 | st1].
  - exact (IH st1 st' Hstep Hloop).
  - injection Hloop as <-. exact Hstep.
Qed.

End ExtractionRecords.

(** X13.  Every record the extraction returns was among the items of a page
    the server answered with status 200; and for the ranges "Year to Date"
    and "Month to Date" no returned record counts as old, that is, each one
    has no date or a date that contains the digits of the current year. *)
Theorem extraction_returns_served_records_of_the_year :
  forall (year : Z) (api : ServiceFusion.Api) (endpoint : ServiceFusion.endpoint)
         (date_range : string) (r : ServiceFusion.obj),
    In r (ServiceFusion.extract_with_forced_sort year api endpoint date_range) ->
    ServiceFusion.auth_ok api = true /\
    Terms.served (ServiceFusion.fetch api endpoint) r /\
    (date_range = "Year to Date"%string \/ date_range = "Month to Date"%string ->
     ServiceFusion.is_old year r = false /\
     let date_val :=
       ServiceFusion.or_else (ServiceFusion.get (ServiceFusion.created_at r))
         (ServiceFusion.get (ServiceFusion.date r)) in
     forall s : string,
       date_val = Some s -> s <> ""%string ->
       Text.contains (Py.str_of_Z year) s = true).
Proof.
  intros year api endpoint date_range r Hin.
  unfold ServiceFusion.extract_with_forced_sort, ServiceFusion.extract_trace in Hin.
  destruct (ServiceFusion.auth_ok api); [| destruct Hin].
  split; [reflexivity |].
  destruct (ServiceFusion.extract_loop year ServiceFusion.max_turns
              (ServiceFusion.fetch api endpoint) date_range
              (ServiceFusion.mkState 1 [] [])) as [st |] eqn:E; [| destruct Hin].
  assert (Hok : Terms.records_ok year (ServiceFusion.fetch api endpoint) date_range
                  (ServiceFusion.all_records st)).
  { refine (extract_loop_records _ _ _ _ (ServiceFusion.mkState 1 [] []) _ _ E).
    intros x Hx. destruct Hx. }
  destruct (Hok r Hin) as [Hserved Hold]. split; [exact Hserved |].
  intros Hrange.
  assert (Hw : ServiceFusion.is_windowed date_range = true).
  { unfold ServiceFusion.is_windowed. destruct Hrange as [-> | ->]; reflexivity. }
  specialize (Hold Hw). split; [exact Hold |].
  cbv zeta. intros s Hs Hne. unfold ServiceFusion.is_old in Hold. cbv zeta in Hold.
  rewrite Hs in Hold. rewrite (truthy_nonempty s Hne) in Hold.
  now apply negb_false_iff in Hold.
Qed.

Lemma extraction_returns_served_records_of_the_year_witness :
  Terms.served (ServiceFusion.fetch retry_api ServiceFusion.jobs) sample_job.
Proof.
  apply (extraction_returns_served_records_of_the_year 2024 retry_api ServiceFusion.jobs
           "Year to Date" sample_job).
  vm_compute. left. reflexivity.
Defined.

(** ** The rows of the Power BI summary *)

Lemma customer_invoices_by_name (invoices_data : list ServiceFusion.obj) (n : string) :
  ServiceFusion.customer_invoices_of (ServiceFusion.invoices_by_customer invoices_data)
    (Some n)
  = filter (Terms.names_customer n) invoices_data.
Proof.
  unfold ServiceFusion.invoices_by_customer.
  assert (H : forall d,
             ServiceFusion.customer_invoices_of
               (fold_left (fun d invoice =>
                    let c := ServiceFusion.get_default (ServiceFusion.customer invoice)
                               ""%string in
                    if ServiceFusion.truthy c
                    then ServiceFusion.add_invoice d
                           (match c with Some n => n | None => ""%string end) invoice
                    else d) invoices_data d) (Some n)
             = ServiceFusion.customer_invoices_of d (Some n)
               ++ filter (Terms.names_customer n) invoices_data).
  { induction invoices_data as [| inv l IH]; intros d; cbn [fold_left filter].
    - now rewrite app_nil_r.
    - rewrite IH. cbv zeta. unfold Terms.names_customer at 2.
      destruct (ServiceFusion.customer inv) as [| | c]; cbn [ServiceFusion.get_default
        ServiceFusion.truthy]; try reflexivity.
      destruct c as [| a c]; [reflexivity |].
      rewrite add_invoice_lookup. rewrite <- app_assoc.
      destruct (String.eqb (String a c) n); reflexivity. }
  rewrite H. reflexivity.
Qed.

Lemma names_customer_spec (n : string) (inv : ServiceFusion.obj) :
  Terms.names_customer n inv = true <->
  ServiceFusion.customer inv = ServiceFusion.Value n /\ n <> ""%string.
Proof.
  unfold Terms.names_customer.
  destruct (ServiceFusion.customer inv) as [| | [| a c]].
  - split; [discriminate | intros [H _]; discriminate H].
  - split; [discriminate | intros [H _]; discriminate H].
  - split; [discriminate | intros [[= <-] H]; contradiction].
  - rewrite String.eqb_eq. split.
    + intros <-. split; [reflexivity | discriminate].
    + intros [[= <-] _]. reflexivity.
Qed.

(** Within 10% of a positive job total, as a band. *)
Lemma within_tolerance_band (job_total invoice_total : Q) :
  (0 < job_total)%Q ->
  (ServiceFusion.within_tolerance job_total invoice_total = true <->
   (0 < invoice_total)%Q /\
   ((9 # 10) * job_total <= invoice_total)%Q /\
   (invoice_total <= (11 # 10) * job_total)%Q).
Proof.
  intros Hpos. unfold ServiceFusion.within_tolerance.
  rewrite andb_true_iff, negb_true_iff, Qle_bool_iff.
  assert (Hnz : ~ (job_total == 0)%Q) by (intros E; rewrite E in Hpos; discriminate Hpos).
  assert (Hband : (Qabs (invoice_total - job_total) / job_total <= 1 # 10)%Q <->
                  ((9 # 10) * job_total <= invoice_total)%Q /\
                  (invoice_total <= (11 # 10) * job_total)%Q).
  { split.
    - intros H.
      assert (H' : (Qabs (invoice_total - job_total) <= (1 # 10) * job_total)%Q).
      { rewrite <- (Qmult_div_r (Qabs (invoice_total - job_total)) job_total Hnz).
        rewrite (Qmult_comm (1 # 10)). now apply Qmult_le_l. }
      apply Qabs_Qle_condition in H'. destruct H' as [H1 H2]. split; lra.
    - intros [H1 H2]. apply Qle_shift_div_r; [exact Hpos |].
      apply Qabs_Qle_condition. split; lra. }
  rewrite Hband. split.
  - intros [H1 H2]. split; [| exact H2].
    apply Qnot_le_lt. intros Hle. apply Qle_bool_iff in Hle. congruence.
  - intros [H1 H2]. split; [| exact H2].
    destruct (Qle_bool invoice_total 0) eqn:E; [| reflexivity].
    apply Qle_bool_iff in E. exfalso. eapply Qlt_not_le; eassumption.
Qed.

Lemma option_Z_eqb_eq (a b : option Z) : ServiceFusion.option_Z_eqb a b = true <-> a = b.
Proof.
  destruct a as [x |], b as [y |]; cbn; try (split; congruence).
  rewrite Z.eqb_eq. split; congruence.
Qed.

Lemma drop_duplicates_spec (rows : list ServiceFusion.summary) :
  forall seen : list (option Z),
    NoDup (map ServiceFusion.Job_ID (ServiceFusion.drop_duplicates seen rows)) /\
    (forall r, In r (ServiceFusion.drop_duplicates seen rows) ->
               In r rows /\ ~ In (ServiceFusion.Job_ID r) seen) /\
    (length (ServiceFusion.drop_duplicates seen rows) <= length rows)%nat.
Proof.
  induction rows as [| r rows IH]; intros seen; cbn [ServiceFusion.drop_duplicates].
  - split; [constructor |]. split; [intros r [] | reflexivity].
  - destruct (existsb (ServiceFusion.option_Z_eqb (ServiceFusion.Job_ID r)) seen) eqn:E.
    + destruct (IH seen) as (Hn & Hi & Hl). split; [exact Hn |]. split.
      * intros x Hx. destruct (Hi x Hx). split; [now right | assumption].
      * cbn [length]. lia.
    + destruct (IH (ServiceFusion.Job_ID r :: seen)) as (Hn & Hi & Hl).
      assert (Hr : ~ In (ServiceFusion.Job_ID r) seen).
      { intros Hc. apply (existsb_eqb_In _ option_Z_eqb_eq) in Hc. congruence. }
      split; [| split].
      * cbn [map]. constructor; [| exact Hn].
        intros Hc. apply in_map_iff in Hc. destruct Hc as (x & Hx & Hin).
        destruct (Hi x Hin) as [_ Hnot]. apply Hnot. left. now symmetry.
      * intros x [<- | Hx]; [split; [now left | exact Hr] |].
        destruct (Hi x Hx) as [Hin Hnot]. split; [now right |].
        intros Hc. apply Hnot. now right.
      * cbn [length]. lia.
Qed.

Section SummaryRows.
Variable fromisoformat : string -> option ServiceFusion.datetime.

Lemma job_steps_rows (by_customer : list (string * list ServiceFusion.obj))
    (jobs : list ServiceFusion.obj) :
  forall acc : list ServiceFusion.summary * list Z,
    let result := fold_left (ServiceFusion.job_step fromisoformat by_customer) jobs acc in
    (forall r, In r (fst result) ->
               In r (fst acc) \/
               exists job, In job jobs /\
                           ServiceFusion.job_record fromisoformat by_customer job = Some r) /\
    (length (fst result) <= length (fst acc) + length jobs)%nat.
Proof.
  induction jobs as [| job jobs IH]; intros acc; cbn [fold_left].
  - split; [intros r Hr; now left | cbn; lia].
  - cbv zeta in *.
    destruct (IH (ServiceFusion.job_step fromisoformat by_customer acc job)) as [Hi Hl].
    assert (Hstep :
      (forall r, In r (fst (ServiceFusion.job_step fromisoformat by_customer acc job)) ->
                 In r (fst acc) \/
                 ServiceFusion.job_record fromisoformat by_customer job = Some r) /\
      (length (fst (ServiceFusion.job_step fromisoformat by_customer acc job))
       <= S (length (fst acc)))%nat).
    { unfold ServiceFusion.job_step. cbv zeta.
      destruct (ServiceFusion.processed (snd acc) (ServiceFusion.get (ServiceFusion.id job)));
        [split; [intros r Hr; now left | lia] |].
      destruct (ServiceFusion.job_record fromisoformat by_customer job) as [record |];
        cbn [fst]; [| split; [intros r Hr; now left | lia]].
      split.
      - intros r Hr. apply in_app_or in Hr. destruct Hr as [Hr | [<- | []]]; auto.
      - rewrite length_app. cbn [length]. lia. }
    destruct Hstep as [Hsi Hsl]. split.
    + intros r Hr. destruct (Hi r Hr) as [Hacc | (j & Hj & Hrec)].
      * destruct (Hsi r Hacc) as [H | H]; [now left |].
        right. exists job. split; [now left | exact H].
      * right. exists j. split; [now right | exact Hrec].
    + cbn [length]. lia.
Qed.

Lemma in_summary (data : ServiceFusion.all_data) (r : ServiceFusion.summary) :
  In r (ServiceFusion.create_powerbi_summary fromisoformat data) ->
  exists job,
    In job (fst (ServiceFusion.jobs_of data)) /\
    ServiceFusion.job_record fromisoformat
      (ServiceFusion.invoices_by_customer (ServiceFusion.d_invoices data)) job = Some r.
Proof.
  unfold ServiceFusion.create_powerbi_summary. cbv zeta.
  destruct (fst (ServiceFusion.jobs_of data)) as [| j jobs] eqn:Ej; [intros [] |].
  intros Hr. apply drop_duplicates_spec in Hr. destruct Hr as [Hr _].
  apply (job_steps_rows _ (j :: jobs) ([], [])) in Hr.
  destruct Hr as [[] | Hr]. exact Hr.
Qed.

(** X14.  The summary has at most one row per job id and no more rows than
    jobs, and every row is the record of one of the jobs. *)
Theorem summary_job_ids_are_distinct :
  forall data : ServiceFusion.all_data,
    let rows := ServiceFusion.create_powerbi_summary fromisoformat data in
    NoDup (map ServiceFusion.Job_ID rows) /\
    (length rows <= length (fst (ServiceFusion.jobs_of data)))%nat /\
    forall r : ServiceFusion.summary,
      In r rows ->
      exists job : ServiceFusion.obj,
        In job (fst (ServiceFusion.jobs_of data)) /\
        ServiceFusion.job_record fromisoformat
          (ServiceFusion.invoices_by_customer (ServiceFusion.d_invoices data)) job
        = Some r /\
        ServiceFusion.Job_ID r = ServiceFusion.get (ServiceFusion.id job).
Proof.
  intros data rows. split; [| split].
  - unfold rows, ServiceFusion.create_powerbi_summary. cbv zeta.
    destruct (fst (ServiceFusion.jobs_of data)); [constructor |].
    apply drop_duplicates_spec.
  - unfold rows, ServiceFusion.create_powerbi_summary. cbv zeta.
    destruct (fst (ServiceFusion.jobs_of data)) as [| j jobs]; [cbn; lia |].
    pose proof (drop_duplicates_spec
                  (fst (fold_left (ServiceFusion.job_step fromisoformat
                          (ServiceFusion.invoices_by_customer
                             (ServiceFusion.d_invoices data)))
                        (j :: jobs) ([], []))) []) as (_ & _ & Hl).
    pose proof (job_steps_rows
                  (ServiceFusion.invoices_by_customer (ServiceFusion.d_invoices data))
                  (j :: jobs) ([], [])) as [_ Hl2].
    cbv zeta in Hl2. cbn [fst length] in Hl2 |- *. cbn [length] in Hl. lia.
  - intros r Hr. destruct (in_summary data r Hr) as (job & Hjob & Hrec).
    exists job. split; [exact Hjob |]. split; [exact Hrec |].
    unfold ServiceFusion.job_record in Hrec. cbv zeta in Hrec.
    destruct (ServiceFusion.match_invoice job _); [discriminate Hrec |].
    injection Hrec as <-. reflexivity.
Qed.

(** X15.  A row of the summary, with its date fields as the record is
    built, before the date clean-up, either has no invoice (method "None",
    count 0, no invoice date, total or due date), or shows an invoice of the
    job's customer: the invoice names the customer of the row, the count is
    the number of invoices that do, and with "Amount Match" the job value
    and the invoice total are positive and the total is within 10% of the
    value.  The quotient is computed in floating point, so the band is
    stated with a margin: between 0.89 and 1.11 times the job value. *)
Theorem summary_rows_show_an_invoice_of_the_customer :
  forall (data : ServiceFusion.all_data) (r : ServiceFusion.summary),
    In r (ServiceFusion.create_powerbi_summary fromisoformat data) ->
    (ServiceFusion.Has_Related_Invoices r = false /\
     ServiceFusion.Invoice_Match_Method r = "None"%string /\
     ServiceFusion.Invoice_Count r = 0%nat /\
     ServiceFusion.Invoice_Date r = None /\
     ServiceFusion.Invoice_Total r = None /\
     ServiceFusion.Invoice_ECD_Due_Date r = None) \/
    (ServiceFusion.Has_Related_Invoices r = true /\
     (ServiceFusion.Invoice_Match_Method r = "Amount Match"%string \/
      ServiceFusion.Invoice_Match_Method r = "Most Recent"%string) /\
     exists (invoice : ServiceFusion.obj) (c : string),
       In invoice (ServiceFusion.d_invoices data) /\
       ServiceFusion.customer invoice = ServiceFusion.Value c /\
       c <> ""%string /\
       ServiceFusion.Customer_Name r = Some c /\
       ServiceFusion.Invoice_Date r = ServiceFusion.get (ServiceFusion.date invoice) /\
       ServiceFusion.Invoice_Total r = ServiceFusion.get (ServiceFusion.total invoice) /\
       ServiceFusion.Invoice_Count r
       = length (filter (Terms.names_customer c) (ServiceFusion.d_invoices data)) /\
       (1 <= ServiceFusion.Invoice_Count r)%nat /\
       (ServiceFusion.Invoice_Match_Method r = "Amount Match"%string ->
        exists v t : Q,
          ServiceFusion.Job_Project_Value r = Some v /\
          ServiceFusion.Invoice_Total r = Some t /\
          (0 < v)%Q /\ (0 < t)%Q /\
          ((89 # 100) * v <= t)%Q /\ (t <= (111 # 100) * v)%Q)).
Proof.
  intros data r Hr. destruct (in_summary data r Hr) as (job & _ & Hrec).
  unfold ServiceFusion.job_record in Hrec. cbv zeta in Hrec.
  set (name := ServiceFusion.get_default (ServiceFusion.customer_name job) "Unknown"%string)
    in *.
  set (candidates := ServiceFusion.customer_invoices_of
                       (ServiceFusion.invoices_by_customer (ServiceFusion.d_invoices data))
                       name) in *.
  destruct (ServiceFusion.match_invoice job candidates) as [| related method] eqn:Em;
    [discriminate Hrec |].
  injection Hrec as <-.
  cbn [ServiceFusion.Has_Related_Invoices ServiceFusion.Invoice_Match_Method
       ServiceFusion.Invoice_Count ServiceFusion.Invoice_Date ServiceFusion.Invoice_Total
       ServiceFusion.Invoice_ECD_Due_Date ServiceFusion.Customer_Name
       ServiceFusion.Job_Project_Value].
  unfold ServiceFusion.match_invoice in Em.
  destruct candidates as [| x l] eqn:Ec.
  - injection Em as <- <-. left. cbn [length]. repeat split.
  - right. set (cands := x :: l) in *.
    assert (Hname : exists c, name = Some c /\
                              cands = filter (Terms.names_customer c)
                                        (ServiceFusion.d_invoices data)).
    { destruct name as [c |] eqn:En.
      - exists c. split; [reflexivity |]. rewrite <- Ec. unfold candidates.
        apply customer_invoices_by_name.
      - unfold candidates in Ec. cbn in Ec. discriminate Ec. }
    destruct Hname as (c & Hc & Hcands).
    assert (Hinv : forall inv, In inv cands ->
                     In inv (ServiceFusion.d_invoices data) /\
                     ServiceFusion.customer inv = ServiceFusion.Value c /\ c <> ""%string).
    { intros inv Hin. rewrite Hcands in Hin. apply filter_In in Hin.
      destruct Hin as [Hin Hn]. apply names_customer_spec in Hn. tauto. }
    assert (Hcount : (1 <= length cands)%nat) by (unfold cands; cbn [length]; lia).
    cbv zeta in Em.
    destruct (if negb (Qle_bool (ServiceFusion.total_or_0 job) 0)
              then ServiceFusion.amount_match (ServiceFusion.total_or_0 job) cands
              else None) as [inv |] eqn:Ea.
    + injection Em as <- <-.
      destruct (Qle_bool (ServiceFusion.total_or_0 job) 0) eqn:Ej; [discriminate Ea |].
      cbn [negb] in Ea. unfold ServiceFusion.amount_match in Ea.
      apply find_some in Ea. destruct Ea as [Hin Htol].
      destruct (Hinv inv Hin) as (Hd & Hcust & Hne).
      assert (Hjpos : (0 < ServiceFusion.total_or_0 job)%Q).
      { apply Qnot_le_lt. intros Hle. apply Qle_bool_iff in Hle. congruence. }
      apply (within_tolerance_band _ _ Hjpos) in Htol. destruct Htol as (Ht0 & Ht1 & Ht2).
      split; [reflexivity |]. split; [now left |].
      exists inv, c. rewrite <- Hcands.
      repeat (split; [first [assumption | reflexivity] |]).
      intros _. exists (ServiceFusion.total_or_0 job), (ServiceFusion.total_or_0 inv).
      unfold ServiceFusion.total_or_0 in *.
      destruct (ServiceFusion.total job) as [| | v]; try discriminate Hjpos.
      destruct (ServiceFusion.total inv) as [| | t]; try discriminate Ht0.
      cbn [ServiceFusion.get_default ServiceFusion.get] in *.
      repeat split; first [assumption | lra].
    + destruct (ServiceFusion.most_recent cands) as [inv |] eqn:Er; [| discriminate Em].
      injection Em as <- <-.
      assert (Hin : In inv cands).
      { unfold ServiceFusion.most_recent in Er. unfold cands in *.
        destruct l as [| y l'].
        - injection Er as <-. now left.
        - destruct (forallb _ (x :: y :: l')); [| discriminate Er].
          match type of Er with
          | hd_error (Py.stable_sort ?leb ?l0) = _ =>
              pose proof (stable_sort_perm leb l0) as Hp;
              destruct (Py.stable_sort leb l0) as [| z zs]; [discriminate Er |];
              injection Er as ->; apply (Permutation_in _ Hp); now left
          end. }
      destruct (Hinv inv Hin) as (Hd & Hcust & Hne).
      split; [reflexivity |]. split; [now right |].
      exists inv, c. rewrite <- Hcands.
      repeat (split; [first [assumption | reflexivity] |]).
      discriminate.
Qed.

End SummaryRows.

Lemma summary_rows_show_an_invoice_of_the_customer_witness :
  exists r : ServiceFusion.summary,
    In r (ServiceFusion.create_powerbi_summary no_isoformat
            (ServiceFusion.mkData [] [sample_job_with_total 100] []
               [sample_invoice 109 "2024-02-05"])) /\
    ServiceFusion.Has_Related_Invoices r = true.
Proof.
  assert (H : exists r, In r (ServiceFusion.create_powerbi_summary no_isoformat
                                (ServiceFusion.mkData [] [sample_job_with_total 100] []
                                   [sample_invoice 109 "2024-02-05"]))).
  { vm_compute. eexists. left. reflexivity. }
  destruct H as [r Hr]. exists r. split; [exact Hr |].
  destruct (summary_rows_show_an_invoice_of_the_customer no_isoformat _ r Hr)
    as [(_ & _ & Hcount & _) | (Hhas & _)]; [| exact Hhas].
  exfalso. vm_compute in Hr. destruct Hr as [<- | []]. discriminate Hcount.
Defined.

(** ** Estimates in place of jobs, and a refused login *)

Section Fallback.
Variable fromisoformat : string -> option ServiceFusion.datetime.
Variable now : ServiceFusion.datetime.

Lemma patch_estimate_end_date (e : ServiceFusion.obj) :
  ServiceFusion.get (ServiceFusion.end_date (ServiceFusion.patch_estimate e))
  = if ServiceFusion.truthy (ServiceFusion.get (ServiceFusion.end_date e))
    then ServiceFusion.get (ServiceFusion.end_date e)
    else ServiceFusion.get (ServiceFusion.start_date e).
Proof.
  unfold ServiceFusion.patch_estimate.
  destruct (ServiceFusion.truthy (ServiceFusion.get (ServiceFusion.end_date e)));
    [reflexivity |].
  cbn [ServiceFusion.end_date].
  destruct (ServiceFusion.get (ServiceFusion.start_date e)); reflexivity.
Qed.

Lemma patch_estimate_id (e : ServiceFusion.obj) :
  ServiceFusion.id (ServiceFusion.patch_estimate e) = ServiceFusion.id e.
Proof.
  unfold ServiceFusion.patch_estimate.
  destruct (ServiceFusion.truthy (ServiceFusion.get (ServiceFusion.end_date e)));
    reflexivity.
Qed.

Lemma patch_estimate_idempotent (e : ServiceFusion.obj) :
  ServiceFusion.patch_estimate (ServiceFusion.patch_estimate e)
  = ServiceFusion.patch_estimate e.
Proof.
  unfold ServiceFusion.patch_estimate at 2 3.
  destruct (ServiceFusion.truthy (ServiceFusion.get (ServiceFusion.end_date e))) eqn:E.
  - unfold ServiceFusion.patch_estimate. now rewrite E.
  - unfold ServiceFusion.patch_estimate. cbn [ServiceFusion.end_date ServiceFusion.start_date].
    destruct (ServiceFusion.get (ServiceFusion.start_date e)) as [s |] eqn:Es.
    + cbn [ServiceFusion.get]. destruct (ServiceFusion.truthy (Some s)); reflexivity.
    + reflexivity.
Qed.

(** X16.  When no job was extracted and some estimates were, the summary is
    built from the estimates as if they were jobs, an estimate without end
    date taking its start date as estimated completion date (the date
    fields are those of the records as built, before the date clean-up);
    the change is made to the extracted records themselves, so the raw
    [estimates] sheet, which has one row per estimate under its header, is
    the sheet of the estimates with the end dates filled in; there is no
    [jobs] sheet. *)
Theorem estimates_stand_in_for_missing_jobs :
  forall data : ServiceFusion.all_data,
    ServiceFusion.d_jobs data = [] ->
    ServiceFusion.d_estimates data <> [] ->
    let patched := map ServiceFusion.patch_estimate (ServiceFusion.d_estimates data) in
    ServiceFusion.create_powerbi_summary fromisoformat data
    = ServiceFusion.create_powerbi_summary fromisoformat
        (ServiceFusion.mkData (ServiceFusion.d_customers data) patched []
           (ServiceFusion.d_invoices data)) /\
    (forall r : ServiceFusion.summary,
        In r (ServiceFusion.create_powerbi_summary fromisoformat data) ->
        exists e : ServiceFusion.obj,
          In e (ServiceFusion.d_estimates data) /\
          ServiceFusion.Job_ID r = ServiceFusion.get (ServiceFusion.id e) /\
          ServiceFusion.ECD_Estimated_Completion_Date r
          = if ServiceFusion.truthy (ServiceFusion.get (ServiceFusion.end_date e))
            then ServiceFusion.get (ServiceFusion.end_date e)
            else ServiceFusion.get (ServiceFusion.start_date e)) /\
    option_map (@length Xlsx.row)
      (Xlsx.find_sheet (ServiceFusion.save_to_excel fromisoformat now data) "estimates")
    = Some (S (length (ServiceFusion.d_estimates data))) /\
    Xlsx.find_sheet (ServiceFusion.save_to_excel fromisoformat now data) "estimates"
    = Xlsx.find_sheet
        (ServiceFusion.save_to_excel fromisoformat now
           (ServiceFusion.mkData (ServiceFusion.d_customers data) [] patched
              (ServiceFusion.d_invoices data)))
        "estimates" /\
    Xlsx.find_sheet (ServiceFusion.save_to_excel fromisoformat now data) "jobs" = None.
Proof.
  intros data Hjobs Hest patched.
  assert (Hjobs_of : ServiceFusion.jobs_of data
                     = (patched,
                        ServiceFusion.mkData (ServiceFusion.d_customers data) []
                          patched (ServiceFusion.d_invoices data))).
  { unfold ServiceFusion.jobs_of. rewrite Hjobs.
    destruct (ServiceFusion.d_estimates data) as [| e l] eqn:E; [contradiction |].
    reflexivity. }
  assert (Hpatched : exists p ps, patched = p :: ps).
  { unfold patched. destruct (ServiceFusion.d_estimates data) as [| e l];
      [contradiction |]. cbn [map]. eauto. }
  destruct Hpatched as (p & ps & Hp).
  assert (Hsheet :
            Xlsx.find_sheet (ServiceFusion.save_to_excel fromisoformat now data) "estimates"
            = Some (ServiceFusion.raw_header :: map ServiceFusion.raw_row patched)).
  { rewrite save_to_excel_shape, Hjobs_of. cbn [snd]. unfold ServiceFusion.endpoints_of.
    cbn [ServiceFusion.d_customers ServiceFusion.d_jobs ServiceFusion.d_estimates
         ServiceFusion.d_invoices flat_map].
    unfold Claims.raw_sheet. cbn [fst snd]. rewrite Hp.
    destruct (ServiceFusion.d_customers data); reflexivity. }
  split; [| split; [| split; [| split]]].
  - unfold ServiceFusion.create_powerbi_summary. rewrite Hjobs_of.
    unfold ServiceFusion.jobs_of. cbn [ServiceFusion.d_jobs ServiceFusion.d_estimates
      ServiceFusion.d_invoices fst]. rewrite Hp. reflexivity.
  - intros r Hr. destruct (in_summary fromisoformat data r Hr) as (job & Hjob & Hrec).
    rewrite Hjobs_of in Hjob. cbn [fst] in Hjob. unfold patched in Hjob.
    apply in_map_iff in Hjob. destruct Hjob as (e & <- & He).
    exists e. split; [exact He |].
    unfold ServiceFusion.job_record in Hrec. cbv zeta in Hrec.
    destruct (ServiceFusion.match_invoice (ServiceFusion.patch_estimate e) _);
      [discriminate Hrec |].
    injection Hrec as <-.
    cbn [ServiceFusion.Job_ID ServiceFusion.ECD_Estimated_Completion_Date].
    rewrite patch_estimate_id, patch_estimate_end_date. split; reflexivity.
  - rewrite Hsheet. cbn [option_map length]. unfold patched.
    now rewrite !length_map.
  - rewrite Hsheet. rewrite save_to_excel_shape.
    assert (Hagain : ServiceFusion.jobs_of
                       (ServiceFusion.mkData (ServiceFusion.d_customers data) [] patched
                          (ServiceFusion.d_invoices data))
                     = (patched,
                        ServiceFusion.mkData (ServiceFusion.d_customers data) []
                          patched (ServiceFusion.d_invoices data))).
    { unfold ServiceFusion.jobs_of.
      cbn [ServiceFusion.d_jobs ServiceFusion.d_estimates ServiceFusion.d_customers
           ServiceFusion.d_invoices].
      assert (Hsame : map ServiceFusion.patch_estimate patched = patched).
      { unfold patched. rewrite map_map. apply map_ext. intros e.
        apply patch_estimate_idempotent. }
      rewrite Hsame, Hp. reflexivity. }
    rewrite Hagain. cbn [snd]. unfold ServiceFusion.endpoints_of.
    cbn [ServiceFusion.d_customers ServiceFusion.d_jobs ServiceFusion.d_estimates
         ServiceFusion.d_invoices flat_map].
    unfold Claims.raw_sheet. cbn [fst snd]. rewrite Hp.
    destruct (ServiceFusion.d_customers data); reflexivity.
  - rewrite save_to_excel_shape, Hjobs_of. cbn [snd]. unfold ServiceFusion.endpoints_of.
    cbn [ServiceFusion.d_customers ServiceFusion.d_jobs ServiceFusion.d_estimates
         ServiceFusion.d_invoices flat_map].
    unfold Claims.raw_sheet. cbn [fst snd]. rewrite Hp.
    destruct (ServiceFusion.d_customers data), (ServiceFusion.d_invoices data);
      reflexivity.
Qed.

(** X17.  When the login is refused, nothing is requested from any endpoint
    and the run still ends with exit code 0: it writes a workbook that holds
    the header of the summary and four record counts of zero. *)
Theorem refused_login_gives_an_empty_workbook :
  forall (SF_CLIENT_ID SF_CLIENT_SECRET DATE_RANGE : option string)
         (api : ServiceFusion.Api),
    ServiceFusion.truthy SF_CLIENT_ID = true ->
    ServiceFusion.truthy SF_CLIENT_SECRET = true ->
    ServiceFusion.auth_ok api = false ->
    (forall (year : Z) (endpoint : ServiceFusion.endpoint) (date_range : string),
        ServiceFusion.extract_trace year api endpoint date_range
        = Some (ServiceFusion.mkState 1 [] [])) /\
    exists filename : string,
      ServiceFusion.main fromisoformat now SF_CLIENT_ID SF_CLIENT_SECRET DATE_RANGE api
      = Xlsx.mkRun 0
          [(filename,
            [("PowerBI_Summary"%string, [ServiceFusion.powerbi_header]);
             ("Extraction_Summary"%string,
              [Xlsx.Str "Endpoint"; Xlsx.Str "Record Count"; Xlsx.Str "Extracted At"] ::
              map (fun e => [Xlsx.Str e; Xlsx.Int 0;
                             Xlsx.Stamp (ServiceFusion.now_stamp now)])
                  ["customers"; "jobs"; "estimates"; "invoices"]%string)])].
Proof.
  intros id secret range api Hid Hsecret Hauth.
  assert (Htrace : forall year endpoint date_range,
             ServiceFusion.extract_trace year api endpoint date_range
             = Some (ServiceFusion.mkState 1 [] [])).
  { intros. unfold ServiceFusion.extract_trace. now rewrite Hauth. }
  split; [exact Htrace |].
  unfold ServiceFusion.main. rewrite Hid, Hsecret. cbn [negb orb].
  eexists. cbv zeta. f_equal. f_equal. f_equal.
  unfold ServiceFusion.extract_all_data, ServiceFusion.extract_with_forced_sort.
  rewrite !Htrace. reflexivity.
Qed.

End Fallback.

Lemma estimates_stand_in_for_missing_jobs_witness :
  Xlsx.find_sheet
    (ServiceFusion.save_to_excel no_isoformat sample_now
       (ServiceFusion.mkData [] [] [sample_job] []))
    "jobs" = None.
Proof.
  apply (estimates_stand_in_for_missing_jobs no_isoformat sample_now
           (ServiceFusion.mkData [] [] [sample_job] []) eq_refl).
  discriminate.
Defined.

Lemma refused_login_gives_an_empty_workbook_witness :
  ServiceFusion.extract_trace 2024 unauthorized_api ServiceFusion.jobs "Year to Date"
  = Some (ServiceFusion.mkState 1 [] []).
Proof.
  apply (refused_login_gives_an_empty_workbook no_isoformat sample_now
           (Some "id"%string) (Some "secret"%string) None unauthorized_api
           eq_refl eq_refl eq_refl).
Defined.

(** ** Printing a date and reading it back *)

Lemma digit_char_code (d : Z) :
  nat_of_ascii (Text.digit_char d) = (48 + Z.to_nat (d mod 10))%nat.
Proof.
  unfold Text.digit_char. apply nat_ascii_embedding.
  pose proof (Z.mod_pos_bound d 10 ltac:(lia)). lia.
Qed.

Lemma digit_char_is_digit (d : Z) : Text.is_digit (Text.digit_char d) = true.
Proof.
  unfold Text.is_digit. cbv zeta. rewrite digit_char_code.
  pose proof (Z.mod_pos_bound d 10 ltac:(lia)).
  apply andb_true_iff. split; apply Nat.leb_le; lia.
Qed.

Lemma digit_char_val (d : Z) : Text.digit_val (Text.digit_char d) = d mod 10.
Proof.
  unfold Text.digit_val. rewrite digit_char_code.
  pose proof (Z.mod_pos_bound d 10 ltac:(lia)). lia.
Qed.

Lemma four_digits_chars (y : Z) :
  list_ascii_of_string (Text.four_digits y)
  = [Text.digit_char (y / 10 / 10 / 10); Text.digit_char (y / 10 / 10);
     Text.digit_char (y / 10); Text.digit_char y].
Proof. reflexivity. Qed.

Lemma two_digits_chars (n : Z) :
  list_ascii_of_string (Text.two_digits n) = [Text.digit_char (n / 10); Text.digit_char n].
Proof. reflexivity. Qed.

Lemma four_digits_value (y : Z) :
  0 <= y <= 9999 ->
  ServiceFusion.int_of (list_ascii_of_string (Text.four_digits y)) = y.
Proof.
  intros Hy. rewrite four_digits_chars. unfold ServiceFusion.int_of. cbn [fold_left].
  rewrite !digit_char_val.
  pose proof (Z.div_mod y 10 ltac:(lia)).
  pose proof (Z.mod_pos_bound y 10 ltac:(lia)).
  pose proof (Z.div_mod (y / 10) 10 ltac:(lia)).
  pose proof (Z.mod_pos_bound (y / 10) 10 ltac:(lia)).
  pose proof (Z.div_mod (y / 10 / 10) 10 ltac:(lia)).
  pose proof (Z.mod_pos_bound (y / 10 / 10) 10 ltac:(lia)).
  pose proof (Z.div_mod (y / 10 / 10 / 10) 10 ltac:(lia)).
  pose proof (Z.mod_pos_bound (y / 10 / 10 / 10) 10 ltac:(lia)).
  lia.
Qed.

Lemma list_ascii_of_string_app (s1 s2 : string) :
  list_ascii_of_string (s1 ++ s2) = list_ascii_of_string s1 ++ list_ascii_of_string s2.
Proof.
  induction s1 as [| c s1 IH]; [reflexivity |].
  cbn [append list_ascii_of_string app]. now rewrite IH.
Qed.

Lemma parse_month_printed (m : Z) (rest : list ascii) :
  1 <= m <= 12 ->
  ServiceFusion.parse_month (list_ascii_of_string (Text.two_digits m) ++ rest)
  = Some (m, rest).
Proof.
  intros Hm.
  assert (H : In m [1; 2; 3; 4; 5; 6; 7; 8; 9; 10; 11; 12]) by (cbn [In]; lia).
  cbn [In] in H.
  repeat (destruct H as [<- | H]; [reflexivity |]). destruct H.
Qed.

Lemma parse_day_printed (d : Z) :
  1 <= d <= 31 ->
  ServiceFusion.parse_day (list_ascii_of_string (Text.two_digits d)) = Some (d, []).
Proof.
  intros Hd.
  assert (H : In d [1; 2; 3; 4; 5; 6; 7; 8; 9; 10; 11; 12; 13; 14; 15; 16; 17; 18; 19; 20;
                    21; 22; 23; 24; 25; 26; 27; 28; 29; 30; 31]) by (cbn [In]; lia).
  cbn [In] in H.
  repeat (destruct H as [<- | H]; [reflexivity |]). destruct H.
Qed.

Lemma valid_day_le_31 (y m d : Z) :
  In m [1; 2; 3; 4; 5; 6; 7; 8; 9; 10; 11; 12] ->
  d <= Calendar.days_in_month y m -> 1 <= m <= 12 /\ d <= 31.
Proof.
  intros Hm Hd. cbn [In] in Hm.
  repeat (destruct Hm as [<- | Hm];
          [cbn [Calendar.days_in_month] in Hd;
           try (destruct (Calendar.is_leap y)); lia |]).
  destruct Hm.
Qed.

(** Reading back a printed date. *)
Lemma strptime_strftime (dt : ServiceFusion.datetime) :
  Calendar.valid_date (ServiceFusion.dt_date dt) = true ->
  ServiceFusion.strptime_Ymd (ServiceFusion.strftime_date dt)
  = Some (ServiceFusion.mkDatetime (ServiceFusion.dt_date dt) 0 0 0).
Proof.
  intros Hv. pose proof (valid_date_inv _ Hv) as (Hy & Hm & Hd).
  destruct (ServiceFusion.dt_date dt) as [y m d] eqn:Edate.
  cbn [Calendar.year Calendar.month Calendar.day] in *.
  destruct (valid_day_le_31 y m d Hm (proj2 Hd)) as [Hm' Hd31].
  unfold ServiceFusion.strptime_Ymd, ServiceFusion.strftime_date. cbv zeta.
  rewrite Edate. cbn [Calendar.year Calendar.month Calendar.day].
  rewrite !list_ascii_of_string_app.
  pose proof (four_digits_value y ltac:(lia)) as Hval.
  rewrite four_digits_chars in Hval |- *.
  cbn [app list_ascii_of_string].
  unfold ServiceFusion.all_digits. cbn [forallb]. rewrite !digit_char_is_digit.
  cbn [andb Ascii.eqb Bool.eqb].
  rewrite (parse_month_printed m _ Hm').
  cbn [Ascii.eqb Bool.eqb].
  rewrite (parse_day_printed d ltac:(lia)).
  rewrite Hval, Hv. reflexivity.
Qed.

Lemma digit_char_not_space (d : Z) : Text.is_space (Text.digit_char d) = false.
Proof.
  unfold Text.is_space. cbv zeta. rewrite digit_char_code.
  pose proof (Z.mod_pos_bound d 10 ltac:(lia)).
  set (n := (48 + Z.to_nat (d mod 10))%nat). assert (48 <= n <= 57)%nat by (unfold n; lia).
  clearbody n.
  destruct (Nat.eqb_spec n 32); [lia |].
  destruct (Nat.leb_spec 9 n), (Nat.leb_spec n 13), (Nat.leb_spec 28 n),
    (Nat.leb_spec n 31); try lia; reflexivity.
Qed.

Lemma digit_char_not_T (d : Z) (s2 : string) :
  prefix "T" (String (Text.digit_char d) s2) = false.
Proof.
  cbn [prefix]. destruct (ascii_dec "T" (Text.digit_char d)) as [E | E]; [| reflexivity].
  apply (f_equal nat_of_ascii) in E. rewrite digit_char_code in E.
  pose proof (Z.mod_pos_bound d 10 ltac:(lia)). cbn in E. lia.
Qed.

Lemma strftime_date_chars (dt : ServiceFusion.datetime) :
  let y := Calendar.year (ServiceFusion.dt_date dt) in
  let m := Calendar.month (ServiceFusion.dt_date dt) in
  let d := Calendar.day (ServiceFusion.dt_date dt) in
  ServiceFusion.strftime_date dt
  = String (Text.digit_char (y / 10 / 10 / 10))
      (String (Text.digit_char (y / 10 / 10))
         (String (Text.digit_char (y / 10))
            (String (Text.digit_char y)
               (String "-"
                  (String (Text.digit_char (m / 10))
                     (String (Text.digit_char m)
                        (String "-"
                           (String (Text.digit_char (d / 10))
                              (String (Text.digit_char d) EmptyString))))))))).
Proof. reflexivity. Qed.

(** A printed date has no blank at either end, no [T], and ten characters. *)
Lemma strftime_date_plain (dt : ServiceFusion.datetime) :
  Text.strip (ServiceFusion.strftime_date dt) = ServiceFusion.strftime_date dt /\
  Text.contains "T" (ServiceFusion.strftime_date dt) = false /\
  Text.take 10 (ServiceFusion.strftime_date dt) = ServiceFusion.strftime_date dt /\
  ServiceFusion.truthy (Some (ServiceFusion.strftime_date dt)) = true.
Proof.
  rewrite strftime_date_chars. cbv zeta.
  split; [| split; [| split]].
  - unfold Text.strip. cbn [Text.lstrip]. rewrite digit_char_not_space.
    cbn [Text.rstrip]. rewrite !digit_char_not_space. reflexivity.
  - cbn [Text.contains]. rewrite !digit_char_not_T. reflexivity.
  - reflexivity.
  - reflexivity.
Qed.

(** X18.  A date printed as [%Y-%m-%d] reads back as the same date, and the
    due date of a printed date is the print of the date fifteen days later:
    the due dates the script prints are dates it accepts.  (For years of
    four digits, which [%Y] prints in full.) *)
Theorem printed_dates_read_back :
  forall (fromisoformat : string -> option ServiceFusion.datetime)
         (dt : ServiceFusion.datetime),
    Calendar.valid_date (ServiceFusion.dt_date dt) = true ->
    1000 <= Calendar.year (ServiceFusion.dt_date dt) ->
    ServiceFusion.strptime_Ymd (ServiceFusion.strftime_date dt)
    = Some (ServiceFusion.mkDatetime (ServiceFusion.dt_date dt) 0 0 0) /\
    (Calendar.toordinal (ServiceFusion.dt_date dt) + 15 <= Calendar.MAXORDINAL ->
     exists due : ServiceFusion.datetime,
       ServiceFusion.calculate_due_date fromisoformat
         (Some (ServiceFusion.strftime_date dt))
       = Some (ServiceFusion.strftime_date due) /\
       Calendar.valid_date (ServiceFusion.dt_date due) = true /\
       Calendar.toordinal (ServiceFusion.dt_date due)
       = Calendar.toordinal (ServiceFusion.dt_date dt) + 15 /\
       ServiceFusion.strptime_Ymd (ServiceFusion.strftime_date due)
       = Some (ServiceFusion.mkDatetime (ServiceFusion.dt_date due) 0 0 0)).
Proof.
  intros fromisoformat dt Hv _. split; [exact (strptime_strftime dt Hv) |].
  intros Hmax.
  destruct (strftime_date_plain dt) as (Hstrip & HT & Htake & Htruthy).
  pose proof (toordinal_valid_pos _ Hv) as Hpos.
  destruct (add_days_spec (ServiceFusion.mkDatetime (ServiceFusion.dt_date dt) 0 0 0) 15)
    as (due & Hadd & Hvdue & Hord & _).
  { cbn [ServiceFusion.dt_date]. lia. }
  exists due. split; [| split; [exact Hvdue | split; [exact Hord |]]].
  - unfold ServiceFusion.calculate_due_date. rewrite Htruthy. cbn [negb]. cbv zeta.
    rewrite Hstrip, HT, Htake, (strptime_strftime dt Hv), Hadd. reflexivity.
  - exact (strptime_strftime due Hvdue).
Qed.

Lemma printed_dates_read_back_witness :
  ServiceFusion.strptime_Ymd "2024-01-20"
  = Some (ServiceFusion.mkDatetime (Calendar.mkDate 2024 1 20) 0 0 0).
Proof.
  exact (proj1 (printed_dates_read_back no_isoformat
                  (ServiceFusion.mkDatetime (Calendar.mkDate 2024 1 20) 7 30 0)
                  eq_refl ltac:(cbn; lia))).
Defined.

(** ** The raw sheets *)

(** X19.  The workbook of the Service Fusion run has, after the two summary
    sheets, one raw sheet per endpoint that has records, named after the
    endpoint, with one row per record under a header row; an endpoint
    without records has no sheet; and the Extraction_Summary gives, for each of the
    four endpoints, the number of its records. *)
Theorem raw_sheets_match_the_record_counts :
  forall (fromisoformat : string -> option ServiceFusion.datetime)
         (now : ServiceFusion.datetime) (data : ServiceFusion.all_data)
         (e : ServiceFusion.endpoint),
    let wb := ServiceFusion.save_to_excel fromisoformat now data in
    let records := Terms.records_of e (snd (ServiceFusion.jobs_of data)) in
    option_map (@length Xlsx.row) (Xlsx.find_sheet wb (ServiceFusion.endpoint_name e))
    = match records with
      | [] => None
      | _ => Some (S (length records))
      end /\
    (exists summary_rows : list Xlsx.row,
        Xlsx.find_sheet wb "Extraction_Summary"
        = Some ([Xlsx.Str "Endpoint"; Xlsx.Str "Record Count"; Xlsx.Str "Extracted At"]
                  :: summary_rows) /\
        length summary_rows = 4%nat /\
        In [Xlsx.Str (ServiceFusion.endpoint_name e);
            Xlsx.Int (Z.of_nat (length records));
            Xlsx.Stamp (ServiceFusion.now_stamp now)] summary_rows) /\
    firstn 2 (Xlsx.titles wb) = ["PowerBI_Summary"; "Extraction_Summary"]%string.
Proof.
  intros fromisoformat now data e wb records. unfold wb, records.
  rewrite save_to_excel_shape.
  set (data' := snd (ServiceFusion.jobs_of data)).
  unfold ServiceFusion.endpoints_of, Claims.raw_sheet.
  cbn [flat_map fst snd map app].
  split; [| split].
  - destruct (ServiceFusion.d_customers data') eqn:Ec, (ServiceFusion.d_jobs data') eqn:Ej,
      (ServiceFusion.d_estimates data') eqn:Ee, (ServiceFusion.d_invoices data') eqn:Ei;
      destruct e; cbn [Terms.records_of]; rewrite ?Ec, ?Ej, ?Ee, ?Ei;
      cbn; rewrite ?length_map; reflexivity.
  - eexists. split; [reflexivity |]. split; [reflexivity |].
    destruct e; cbn [Terms.records_of ServiceFusion.endpoint_name In]; auto.
  - reflexivity.
Qed.

(** ** The year-to-date range *)

Lemma year_monotone (d1 d2 : Calendar.date) :
  Calendar.valid_date d1 = true -> Calendar.valid_date d2 = true ->
  Calendar.toordinal d1 <= Calendar.toordinal d2 ->
  Calendar.year d1 <= Calendar.year d2.
Proof.
  intros Hv1 Hv2 Hle.
  pose proof (toordinal_within_year d1 Hv1) as B1.
  pose proof (toordinal_within_year d2 Hv2) as B2.
  destruct (Z_le_gt_dec (Calendar.year d1) (Calendar.year d2)) as [H | H]; [exact H |].
  pose proof (days_before_year_monotone (Calendar.year d2 + 1) (Calendar.year d1)
                ltac:(lia)).
  lia.
Qed.

Lemma january_first (y : Z) :
  Calendar.toordinal (Calendar.mkDate y 1 1) = Calendar.days_before_year y + 1.
Proof.
  unfold Calendar.toordinal, Calendar.days_before_month.
  cbn [Calendar.year Calendar.month Calendar.day Calendar.DAYS_BEFORE_MONTH].
  change (2 <? 1) with false. cbn [andb]. lia.
Qed.

(** X20.  A wall-clock reading lies in the year-to-date range exactly when
    it is in the current year and not after today: the range runs from the
    first instant of the year to the last microsecond of today. *)
Theorem ytd_range_is_the_year_up_to_today :
  forall today t : KimaiDates.datetime,
    Terms.valid_datetime today -> Terms.valid_datetime t ->
    let start_date := fst (KimaiDates.calculate_ytd_dates today) in
    let end_date := snd (KimaiDates.calculate_ytd_dates today) in
    (Terms.instant start_date <= Terms.instant t <= Terms.instant end_date <->
     Calendar.year (KimaiDates.dt_date t) = Calendar.year (KimaiDates.dt_date today) /\
     Calendar.toordinal (KimaiDates.dt_date t)
     <= Calendar.toordinal (KimaiDates.dt_date today)) /\
    Terms.instant start_date <= Terms.instant today <= Terms.instant end_date.
Proof.
  intros today t (Hv & Hh & Hm & Hs & Hu) (Hvt & Hht & Hmt & Hst & Hut).
  cbv zeta. unfold KimaiDates.calculate_ytd_dates, Terms.instant.
  cbn [fst snd KimaiDates.dt_date KimaiDates.dt_hour KimaiDates.dt_minute
       KimaiDates.dt_second KimaiDates.dt_microsecond].
  rewrite january_first.
  pose proof (toordinal_within_year _ Hv) as B.
  pose proof (toordinal_within_year _ Hvt) as Bt.
  set (o := Calendar.toordinal (KimaiDates.dt_date today)) in *.
  set (ot := Calendar.toordinal (KimaiDates.dt_date t)) in *.
  set (b := Calendar.days_before_year (Calendar.year (KimaiDates.dt_date today))) in *.
  split; [split |].
  - intros [Hlo Hhi].
    assert (Hge : b + 1 <= ot) by nia.
    assert (Hle : ot <= o) by nia.
    split; [| exact Hle].
    apply Z.le_antisymm.
    + apply year_monotone; assumption.
    + destruct (Z_le_gt_dec (Calendar.year (KimaiDates.dt_date today))
                  (Calendar.year (KimaiDates.dt_date t))) as [H | H]; [exact H |].
      pose proof (days_before_year_monotone (Calendar.year (KimaiDates.dt_date t) + 1)
                    (Calendar.year (KimaiDates.dt_date today)) ltac:(lia)).
      fold b in H0. lia.
  - intros [Hy Hle]. rewrite Hy in Bt. fold b in Bt. split; nia.
  - split; nia.
Qed.

Lemma ytd_range_is_the_year_up_to_today_witness :
  Terms.instant (fst (KimaiDates.calculate_ytd_dates
                        (KimaiDates.mkDatetime (Calendar.mkDate 2024 3 5) 12 0 0 0)))
  <= Terms.instant (KimaiDates.mkDatetime (Calendar.mkDate 2024 3 5) 12 0 0 0)
  <= Terms.instant (snd (KimaiDates.calculate_ytd_dates
                           (KimaiDates.mkDatetime (Calendar.mkDate 2024 3 5) 12 0 0 0))).
Proof.
  assert (Hvalid : Terms.valid_datetime
                     (KimaiDates.mkDatetime (Calendar.mkDate 2024 3 5) 12 0 0 0)).
  { unfold Terms.valid_datetime. cbn. repeat split; lia. }
  exact (proj2 (ytd_range_is_the_year_up_to_today _ _ Hvalid Hvalid)).
Defined.

(** ** The Employee Summary *)

Section Partition.
Context {A K : Type} (eqb : K -> K -> bool) (key : A -> K).
Hypothesis eqb_eq : forall x y, eqb x y = true <-> x = y.

Lemma filter_key_absent (x : A) (l : list A) (ks : list K) :
  ~ In (key x) ks ->
  flat_map (fun c => filter (fun y => eqb (key y) c) (x :: l)) ks
  = flat_map (fun c => filter (fun y => eqb (key y) c) l) ks.
Proof.
  intros Hnotin. induction ks as [| k ks IH]; [reflexivity |].
  cbn [flat_map].
  assert (Hhead : filter (fun y => eqb (key y) k) (x :: l)
                  = if eqb (key x) k then x :: filter (fun y => eqb (key y) k) l
                    else filter (fun y => eqb (key y) k) l) by reflexivity.
  rewrite Hhead. clear Hhead.
  destruct (eqb (key x) k) eqn:E.
  - apply eqb_eq in E. exfalso. apply Hnotin. now left.
  - rewrite IH; [reflexivity |]. intros Hc. apply Hnotin. now right.
Qed.

Lemma partition_by_key_cons (x : A) (l : list A) (ks : list K) :
  NoDup ks -> In (key x) ks ->
  Permutation (flat_map (fun c => filter (fun y => eqb (key y) c) (x :: l)) ks)
              (x :: flat_map (fun c => filter (fun y => eqb (key y) c) l) ks).
Proof.
  induction 1 as [| k ks Hnotin Hnd IH]; intros Hin; [destruct Hin |].
  cbn [flat_map].
  assert (Hhead : filter (fun y => eqb (key y) k) (x :: l)
                  = if eqb (key x) k then x :: filter (fun y => eqb (key y) k) l
                    else filter (fun y => eqb (key y) k) l) by reflexivity.
  rewrite Hhead. clear Hhead.
  destruct (eqb (key x) k) eqn:E.
  - apply eqb_eq in E. subst k. rewrite (filter_key_absent x l ks Hnotin).
    apply Permutation_refl.
  - destruct Hin as [Hk | Hin].
    + assert (eqb (key x) k = true) by (apply eqb_eq; now symmetry). congruence.
    + eapply perm_trans; [apply Permutation_app_head, (IH Hin) |].
      apply Permutation_sym, Permutation_middle.
Qed.

Lemma partition_by_key (l : list A) (ks : list K) :
  NoDup ks -> (forall x, In x l -> In (key x) ks) ->
  Permutation (flat_map (fun c => filter (fun y => eqb (key y) c) l) ks) l.
Proof.
  intros Hnd. induction l as [| x l IH]; intros Hin.
  - clear. induction ks as [| k ks IH]; [constructor | exact IH].
  - eapply perm_trans.
    + apply partition_by_key_cons; [exact Hnd | apply Hin; now left].
    + apply perm_skip, IH. intros y Hy. apply Hin. now right.
Qed.
End Partition.

(** X21.  The Employee Summary has, under its header, exactly one row per
    (customer, employee) group of the rows that are not General Admin: the
    customer, the employee, the hours of the group rounded to 2 places and
    the day of the run.  No row names General Admin. *)
Theorem employee_summary_has_one_row_per_group :
  forall (today : Calendar.date) (timesheets_df : list Kimai.mapped),
    let grouped := Kimai.grouped_total_ytd (Kimai.df_customers timesheets_df) in
    exists rows : list Xlsx.row,
      Kimai.employee_summary today grouped
      = [Xlsx.Str "Customer"; Xlsx.Str "Employee"; Xlsx.Str "TotalHours"; Xlsx.Str "Date"]
          :: rows /\
      Permutation rows (map (Terms.employee_row today) grouped) /\
      NoDup (map fst grouped) /\
      (forall (c u : string) (h : Q),
          In (c, u, h) grouped ->
          c <> "General Admin"%string /\
          exists r, In r timesheets_df /\
                    Kimai.m_customer r = Some c /\ Kimai.m_user r = Some u) /\
      forall row, In row rows -> ~ In (Xlsx.Str "General Admin") (firstn 1 row).
Proof.
  intros today timesheets_df grouped.
  assert (Hcmp : forall x y, Py.cmp_eqb Kimai.cmp2 x y = true <-> x = y).
  { apply cmp_pair_eq; exact string_cmp_eq. }
  assert (Hgroups : forall c u h, In (c, u, h) grouped ->
             c <> "General Admin"%string /\
             exists r, In r timesheets_df /\
                       Kimai.m_customer r = Some c /\ Kimai.m_user r = Some u).
  { intros c u h Hin. unfold grouped, Kimai.grouped_total_ytd in Hin.
    apply groupby_sum_key in Hin. destruct Hin as (r & Hr & Hk).
    unfold Kimai.df_customers in Hr. apply filter_In in Hr. destruct Hr as [Hr Hga].
    unfold Kimai.key_customer_user, Kimai.opt_pair in Hk.
    destruct (Kimai.m_customer r) as [c' |] eqn:Ec; [| discriminate Hk].
    destruct (Kimai.m_user r) as [u' |] eqn:Eu; [| discriminate Hk].
    injection Hk as -> ->. split; [| exists r; auto].
    intros ->. unfold Kimai.customer_is in Hga. rewrite Ec, String.eqb_refl in Hga.
    discriminate Hga. }
  assert (Hperm :
    Permutation
      (flat_map (fun customer =>
                   filter (fun r : string * string * Q => String.eqb (fst (fst r)) customer)
                          grouped)
                (Py.unique String.eqb (map (fun r : string * string * Q => fst (fst r))
                                           grouped)))
      grouped).
  { apply (partition_by_key String.eqb (fun r : string * string * Q => fst (fst r))
             String.eqb_eq).
    - apply unique_NoDup. exact String.eqb_eq.
    - intros x Hx. apply (proj2 (unique_In _ String.eqb_eq _ _)).
      apply (in_map (fun r : string * string * Q => fst (fst r))). exact Hx. }
  assert (Hrows :
    flat_map (fun customer =>
        map (fun r : string * string * Q =>
               [Xlsx.Str customer; Xlsx.Str (snd (fst r)); Xlsx.Num (Py.round (snd r) 2);
                Xlsx.Stamp (Kimai.now_mdY today)])
            (filter (fun r : string * string * Q => String.eqb (fst (fst r)) customer)
                    grouped))
      (Py.unique String.eqb (map (fun r : string * string * Q => fst (fst r)) grouped))
    = map (Terms.employee_row today)
        (flat_map (fun customer =>
                     filter (fun r : string * string * Q =>
                               String.eqb (fst (fst r)) customer) grouped)
                  (Py.unique String.eqb
                     (map (fun r : string * string * Q => fst (fst r)) grouped)))).
  { rewrite map_flat_map. apply flat_map_ext. intros customer.
    apply map_ext_in. intros r Hr. apply filter_In in Hr. destruct Hr as [_ Hc].
    apply String.eqb_eq in Hc. subst customer. reflexivity. }
  exists (map (Terms.employee_row today)
            (flat_map (fun customer =>
                         filter (fun r : string * string * Q =>
                                   String.eqb (fst (fst r)) customer) grouped)
                      (Py.unique String.eqb
                         (map (fun r : string * string * Q => fst (fst r)) grouped)))).
  split; [| split; [| split; [| split]]].
  - unfold Kimai.employee_summary. rewrite Hrows. reflexivity.
  - apply Permutation_map. exact Hperm.
  - apply (groupby_sum_keys Kimai.cmp2 Hcmp).
  - exact Hgroups.
  - intros row Hrow. apply in_map_iff in Hrow. destruct Hrow as ([[c u] h] & <- & Hg).
    apply (Permutation_in _ Hperm) in Hg. destruct (Hgroups c u h Hg) as [Hne _].
    cbn [Terms.employee_row firstn fst snd In]. intros [[= Hc] | []]. contradiction.
Qed.

(** ** The Weekly Summary *)

Lemma string_cmp_leb_total (a b : string) :
  Py.cmp_leb String.compare a b = true \/ Py.cmp_leb String.compare b a = true.
Proof.
  unfold Py.cmp_leb. rewrite (String.compare_antisym a b).
  destruct (String.compare b a); cbn; auto.
Qed.

Lemma groupby_sum_sorted {R : Type} (key : R -> option string) (value : R -> Q)
    (rows : list R) :
  Sorted (fun a b => Py.cmp_leb String.compare a b = true)
         (map fst (Kimai.groupby_sum String.compare key value rows)).
Proof.
  unfold Kimai.groupby_sum. cbv zeta. rewrite map_map. cbn [fst]. rewrite map_id.
  apply stable_sort_sorted. exact string_cmp_leb_total.
Qed.

(** X22.  The Weekly Summary lists every employee that has a timesheet row
    once, in the order of the names, with the sum of the hours of that
    employee's rows, General Admin rows included; the total it shows is the
    total of all rows that have an employee, and the count is the number of
    employees listed.  The average is a multiple of 0.01 h at most 0.01 h
    away from the total divided by the count, or the integer 0 when no
    employee is listed. *)
Theorem weekly_summary_counts_every_employee_once :
  forall timesheets_df : list Kimai.mapped,
    exists (employees : list (string * Q)) (average : Xlsx.cell),
      (let total_hours := Py.Qsum (map snd employees) in
       Xlsx.find_sheet (Kimai.summary_workbook timesheets_df) "Weekly Summary"
       = Some (map (fun r : string * Q => [Xlsx.Str (fst r); Xlsx.Num (Py.round (snd r) 2)])
                   employees
               ++ [ [];
                    [Xlsx.Str "METRIC"; Xlsx.Str "VALUE"];
                    [Xlsx.Str "Total Hours"; Xlsx.Num (Py.round total_hours 2)];
                    [Xlsx.Str "Total Employees"; Xlsx.Int (Z.of_nat (length employees))];
                    [Xlsx.Str "Average Hours"; average] ]) /\
       if (0 <? length employees)%nat
       then exists hours : Q,
              average = Xlsx.Num hours /\
              Terms.near_to 100
                (total_hours / inject_Z (Z.of_nat (length employees))) hours
       else average = Xlsx.Int 0) /\
      NoDup (map fst employees) /\
      Sorted (fun a b => Py.cmp_leb String.compare a b = true) (map fst employees) /\
      (forall u : string,
          In u (map fst employees) <->
          exists r, In r timesheets_df /\ Kimai.m_user r = Some u) /\
      (forall (u : string) (h : Q),
          In (u, h) employees ->
          h = Py.Qsum (map Kimai.duration0
                         (filter (fun r => match Kimai.m_user r with
                                           | Some u' => String.eqb u' u
                                           | None => false
                                           end) timesheets_df))) /\
      (Py.Qsum (map snd employees)
       == Py.Qsum (map Kimai.duration0
                     (filter (fun r => match Kimai.m_user r with
                                       | Some _ => true
                                       | None => false
                                       end) timesheets_df)))%Q.
Proof.
  intros timesheets_df.
  exists (Kimai.groupby_sum String.compare Kimai.m_user Kimai.duration0 timesheets_df).
  eexists.
  pose proof (groupby_sum_keys String.compare string_cmp_eq Kimai.m_user Kimai.duration0
                timesheets_df) as [Hnd Hkeys].
  split.
  { cbv zeta. split; [reflexivity |].
    destruct (0 <? length (Kimai.groupby_sum String.compare Kimai.m_user Kimai.duration0
                            timesheets_df))%nat.
    - eexists. split; [reflexivity |]. apply rounded_near, rounded_2.
    - reflexivity. }
  split; [exact Hnd |].
  split; [apply groupby_sum_sorted |]. split; [exact Hkeys |]. split.
  - intros u h Hin. rewrite (groupby_sum_group String.compare _ _ _ _ _ Hin).
    do 2 f_equal. apply filter_ext. intros r.
    destruct (Kimai.m_user r) as [u' |]; [| reflexivity].
    destruct (String.eqb_spec u' u) as [-> | Hne].
    + now apply string_cmp_eq.
    + destruct (Py.cmp_eqb String.compare u' u) eqn:E; [| reflexivity].
      apply string_cmp_eq in E. contradiction.
  - rewrite (groupby_sum_total String.compare string_cmp_eq), keyed_rows_values.
    reflexivity.
Qed.

(** ** The break detector, group by group *)


Section DetectorClaims.
Variable utc_offset : Z -> Z.

Lemma entries_of_key (raw : list Kimai.timesheet) (user_id : string) (date : Z)
    (e : Kimai.entry) :
  In e (Terms.entries_of utc_offset raw user_id date) <->
  In e (Kimai.dropna_entries raw) /\ Kimai.group_key utc_offset e = (user_id, date).
Proof.
  unfold Terms.entries_of, Kimai.group_key.
  rewrite filter_In, andb_true_iff, String.eqb_eq, Z.eqb_eq. split.
  - intros (He & -> & ->). auto.
  - intros (He & [= -> ->]). auto.
Qed.

(** The group of a user and day is among the groups exactly when the user
    has an entry that day. *)
Lemma group_of_key (raw : list Kimai.timesheet) (user_id : string) (date : Z) :
  Terms.entries_of utc_offset raw user_id date <> [] ->
  In ((user_id, date), Terms.entries_of utc_offset raw user_id date)
     (Kimai.groupby_user_date utc_offset (Kimai.dropna_entries raw)).
Proof.
  intros Hne.
  destruct (Terms.entries_of utc_offset raw user_id date) as [| e l] eqn:E;
    [contradiction |].
  assert (He : In e (Terms.entries_of utc_offset raw user_id date))
    by (rewrite E; now left).
  apply entries_of_key in He. destruct He as [He Hk].
  assert (Hin : In (user_id, date)
                   (map fst (Kimai.groupby_user_date utc_offset
                               (Kimai.dropna_entries raw)))).
  { unfold Kimai.groupby_user_date. cbv zeta. rewrite map_map. cbn [fst]. rewrite map_id.
    apply (Permutation_in _ (Permutation_sym (stable_sort_perm _ _))).
    apply (proj2 (unique_In _ cmp_key_eq _ _)).
    rewrite <- Hk. now apply in_map. }
  apply in_map_iff in Hin. destruct Hin as ([k g] & Hk' & Hg). cbn [fst] in Hk'. subst k.
  pose proof (groupby_user_date_rows utc_offset raw _ _ Hg) as Hrows.
  cbn [fst snd] in Hrows. rewrite Hrows, E in Hg. exact Hg.
Qed.

(** The records of one user and day: none when the ordered group has no
    accepted gap, and otherwise the one record that the rule for a group
    gives. *)
Lemma records_of_group (raw : list Kimai.timesheet) (users : list Kimai.user)
    (user_id : string) (date : Z) :
  let records := Kimai.calculate_breaks_from_raw_data utc_offset raw users in
  let rows := Terms.entries_of utc_offset raw user_id date in
  let id_to_alias :=
    map (fun u => (Py.str_of_Z (Kimai.usr_id u), Kimai.usr_alias u)) users in
  (forall r, In r records -> Terms.break_key r = (user_id, date) ->
             Kimai.group_breaks utc_offset id_to_alias user_id date rows = Some r) /\
  (forall r, Kimai.group_breaks utc_offset id_to_alias user_id date rows = Some r ->
             In r records /\ Terms.break_key r = (user_id, date)).
Proof.
  cbv zeta. split.
  - intros r Hin Hkey.
    destruct (in_calculate_breaks_users utc_offset raw users r Hin) as (g & Hg & Hr).
    pose proof (groupby_user_date_rows utc_offset raw _ _ Hg) as Hrows.
    rewrite Hkey in Hrows. cbn [fst snd] in Hrows.
    unfold Terms.break_key in Hkey. injection Hkey as Hu Hd.
    rewrite Hu, Hd in Hr. rewrite <- Hrows. exact Hr.
  - intros r Hr.
    pose proof (group_breaks_spec utc_offset
                  (map (fun u => (Py.str_of_Z (Kimai.usr_id u), Kimai.usr_alias u)) users)
                  user_id date (Terms.entries_of utc_offset raw user_id date)) as Hs.
    rewrite Hr in Hs. destruct Hs as (Hne & _ & _ & _ & _ & Hu & Hd).
    assert (Hrows : Terms.entries_of utc_offset raw user_id date <> []).
    { intros E. apply Hne. unfold Claims.accepted_pairs. rewrite E. reflexivity. }
    split; [| unfold Terms.break_key; now rewrite Hu, Hd].
    rewrite calculate_breaks_by_group. apply in_flat_map.
    exists ((user_id, date), Terms.entries_of utc_offset raw user_id date).
    split; [now apply group_of_key |].
    cbn [fst snd]. rewrite Hr. now left.
Qed.

Lemma breaks_of_pairs (l : list (Kimai.entry * Kimai.entry)) :
  Forall2 (Terms.break_for utc_offset) l (map (Claims.break_of utc_offset) l).
Proof.
  induction l as [| p l IH]; cbn [map]; constructor; [| exact IH].
  unfold Terms.break_for, Claims.break_of, Kimai.make_break. cbv zeta.
  cbn [Kimai.break_start Kimai.break_end Kimai.break_duration_hours
       Kimai.break_duration_minutes].
  fold (Claims.gap p).
  split; [reflexivity |]. split; [reflexivity |].
  split; [apply rounded_2 | apply rounded_1].
Qed.


(** C10.  Every record the detector emits is consistent with itself:
    [total_breaks] is the length of [break_details] and at least 1; the
    breaks are those of the accepted gaps of the record's user and day, one
    each and in order; and the two totals are the sum of those gaps in
    hours rounded to 2 places and in minutes rounded to 1 place, that is,
    a multiple of 0.01 h within 0.005 h of the sum and a multiple of
    0.1 min within 0.05 min of it. *)
Theorem break_record_consistent :
  forall (raw_timesheets_df : list Kimai.timesheet) (users_df : list Kimai.user)
         (r : Kimai.break_record),
    In r (Kimai.calculate_breaks_from_raw_data utc_offset raw_timesheets_df users_df) ->
    Kimai.total_breaks r = length (Kimai.break_details r) /\
    (1 <= Kimai.total_breaks r)%nat /\
    exists group : list Kimai.entry,
      Terms.ordered_by_begin
        (Terms.entries_of utc_offset raw_timesheets_df (Kimai.br_user_id r)
           (Kimai.br_date r)) group /\
      let accepted := filter (Claims.accepted utc_offset) (Claims.adjacent group) in
      let total := inject_Z (Claims.sum_Z (map Claims.gap accepted)) in
      Forall2 (Terms.break_for utc_offset) accepted (Kimai.break_details r) /\
      Forall (fun p => 300 <= Claims.gap p <= 3600) accepted /\
      Terms.rounded_to 100 (total / 3600) (Kimai.total_break_hours r) /\
      Terms.rounded_to 10 (total / 60) (Kimai.total_break_minutes r).
Proof.
  intros raw users r Hin.
  set (rows := Terms.entries_of utc_offset raw (Kimai.br_user_id r) (Kimai.br_date r)).
  pose proof (records_of_group raw users (Kimai.br_user_id r) (Kimai.br_date r))
    as [Hfrom _].
  cbv zeta in Hfrom. specialize (Hfrom r Hin eq_refl). fold rows in Hfrom.
  pose proof (group_breaks_spec utc_offset
                (map (fun u => (Py.str_of_Z (Kimai.usr_id u), Kimai.usr_alias u)) users)
                (Kimai.br_user_id r) (Kimai.br_date r) rows) as Hspec.
  rewrite Hfrom in Hspec. unfold Claims.accepted_pairs in Hspec.
  destruct Hspec as (Hne & Hdetails & Hn & Hh & Hm & _).
  split; [exact Hn |]. split.
  { rewrite Hn, Hdetails, length_map.
    destruct (filter (Claims.accepted utc_offset)
                (Claims.adjacent (Kimai.sort_values_begin rows)));
      [congruence | cbn [length]; lia]. }
  exists (Kimai.sort_values_begin rows).
  split; [split; [apply sort_values_begin_perm | apply sort_values_begin_sorted] |].
  cbv zeta. split; [| split; [| split]].
  - rewrite Hdetails. apply breaks_of_pairs.
  - apply Forall_forall. intros p Hp. apply filter_In in Hp.
    now apply (accepted_gap utc_offset).
  - rewrite Hh. apply rounded_2.
  - rewrite Hm. apply rounded_1.
Qed.

End DetectorClaims.


Lemma break_record_consistent_witness :
  exists r : Kimai.break_record,
    In r (Kimai.calculate_breaks_from_raw_data sample_offset sample_breaks_raw []) /\
    Kimai.total_breaks r = length (Kimai.break_details r) /\
    (1 <= Kimai.total_breaks r)%nat.
Proof.
  assert (H : exists r, In r (Kimai.calculate_breaks_from_raw_data sample_offset
                                sample_breaks_raw [])).
  { vm_compute. eexists. left. reflexivity. }
  destruct H as [r Hr]. exists r. split; [exact Hr |].
  pose proof (break_record_consistent sample_offset sample_breaks_raw [] r Hr) as H.
  split; [exact (proj1 H) | exact (proj1 (proj2 H))].
Defined.

(** ** The statements at sample inputs *)

(** The Kimai run without timesheets, through the general rule. *)
Lemma empty_extraction_witness :
  Kimai.main sample_today (fun l => l) 10 sample_offset (Some "token"%string)
    api_without_timesheets
  = Some (Xlsx.mkRun 1 []).
Proof.
  apply (proj2 (empty_extraction_completes_for_service_fusion_only no_isoformat
                  last_day_of_2024)).
  - reflexivity.
  - lia.
Defined.

(** An endless timesheet endpoint, through the general rule. *)
Lemma extraction_cap_witness : Claims.never_returns endless_timesheets.
Proof.
  pose proof (service_fusion_extraction_is_capped 2024 retry_api ServiceFusion.jobs
                "Year to Date"%string) as H.
  destruct H as (_ & _ & H). apply H.
  intros p Hp. reflexivity.
Defined.

(** Two pages of timesheets and then a 500: the two pages are returned. *)
Lemma pagination_witness :
  Kimai.fetch_paginated 5 failing_timesheets
  = Some (Kimai.mkPageState 3 [[sample_timesheet]; [sample_timesheet]] [1; 2; 3]).
Proof.
  apply (proj1 (proj2 pagination_next_page_and_first_failure) failing_timesheets 2%nat 500
           Kimai.JOther 5%nat).
  - intros [| [| i]] Hi; [reflexivity | reflexivity | lia].
  - reflexivity.
  - discriminate.
  - lia.
Defined.

(** A date in a leap year, through the general rule: once as a plain date
    and once with a time of day. *)
Lemma due_date_witness :
  ServiceFusion.calculate_due_date sample_isoformat (Some "2024-02-20"%string)
  = Some "2024-03-06"%string /\
  ServiceFusion.calculate_due_date sample_isoformat (Some "2024-02-20T10:30:00Z"%string)
  = Some "2024-03-06T10:30:00+00:00"%string.
Proof.
  assert (Hday : Calendar.toordinal (Calendar.mkDate 2024 3 6)
                 = Calendar.toordinal (Calendar.mkDate 2024 2 20) + 15)
    by (vm_compute; reflexivity).
  split.
  - destruct (proj1 (due_date_is_fifteen_days_after_invoice_date sample_isoformat
                       "2024-02-20"%string)
                (ServiceFusion.mkDatetime (Calendar.mkDate 2024 2 20) 0 0 0))
      as (due & Hdue & _ & _ & Hone & Hh & Hm & Hs).
    + discriminate.
    + reflexivity.
    + reflexivity.
    + cbn. lia.
    + vm_compute. discriminate.
    + rewrite Hdue. destruct due as [d h m s].
      cbn [ServiceFusion.dt_date ServiceFusion.dt_hour ServiceFusion.dt_minute
           ServiceFusion.dt_second] in Hone, Hh, Hm, Hs.
      rewrite <- (Hone (Calendar.mkDate 2024 3 6) eq_refl Hday). subst h m s.
      reflexivity.
  - destruct (proj1 (due_date_is_fifteen_days_after_invoice_date sample_isoformat
                       "2024-02-20T10:30:00Z"%string)
                (ServiceFusion.mkDatetime (Calendar.mkDate 2024 2 20) 10 30 0))
      as (due & Hdue & _ & _ & Hone & Hh & Hm & Hs).
    + discriminate.
    + reflexivity.
    + reflexivity.
    + cbn. lia.
    + vm_compute. discriminate.
    + rewrite Hdue. destruct due as [d h m s].
      cbn [ServiceFusion.dt_date ServiceFusion.dt_hour ServiceFusion.dt_minute
           ServiceFusion.dt_second] in Hone, Hh, Hm, Hs.
      rewrite <- (Hone (Calendar.mkDate 2024 3 6) eq_refl Hday). subst h m s.
      reflexivity.
Defined.
